(** * Kenwood TS-2000 driver (chirp/drivers/ts2000.py): command codec

    A shallow embedding of the memory codec ([_parse_mem], [_parse_split],
    [_make_mem_spec], [_make_split_spec], [_get_range_end_mem]) and of the
    settings get/set primitives ([_kenwood_simple_get], [_kenwood_set]) of
    the class [TS2000Radio], with the properties its specification states.

    Python values are modelled as follows.
    - [str] is [string], the sequence of the code points of the text, each
      below 256 as the serial link delivers them; [s[i]] is
      [Py.getitem_str] (raising [IndexError]),
      [s[a:b]] is [Py.slice] (never raising), [int(s)] is [Py.int_of_str].
    - [int] is [Z]; ["%0wi" % n] is [Py.fmt_i w n].
    - [float] is [Q]: the driver only compares floats with [==] and [!=]
      (directly or through [tuple.index]); a float is represented by the
      rational its literal denotes and [==] is [Qeq_bool].
    - an exception is a value of [exn]; a computation that may raise
      returns a [result]. *)

From Stdlib Require Import ZArith List String Ascii Bool Lia QArith.
Import ListNotations.

Open Scope string_scope.
Open Scope Z_scope.

(** ** Exceptions and the error monad *)

Inductive exn : Type :=
| IndexError
| ValueError
| KeyError
| NameError (name : string)
| UnboundLocalError (name : string)
| RadioError (msg : string).

Inductive result (A : Type) : Type :=
| Ok (a : A)
| Raise (e : exn).

Arguments Ok {A} a.
Arguments Raise {A} e.

Definition bind {A B : Type} (m : result A) (k : A -> result B) : result B :=
  match m with
  | Ok a => k a
  | Raise e => Raise e
  end.

Notation "x <- m ;; k" := (bind m (fun x => k))
  (at level 61, m at next level, right associativity).

(** ** The fragment of Python the driver uses *)

Module Py.

(** [s[i]] for a non-negative literal index [i]: a one-character string. *)
Definition getitem_str (s : string) (i : nat) : result string :=
  match String.get i s with
  | Some c => Ok (String c "")
  | None => Raise IndexError
  end.

(** [s[a:b]] and [s[a:]] for non-negative bounds. *)
Definition slice (s : string) (a b : nat) : string := substring a (b - a) s.
Definition slice_from (s : string) (a : nat) : string :=
  substring a (String.length s - a) s.

(** [sub in s] on strings: substring test. *)
Fixpoint contains (sub s : string) : bool :=
  String.prefix sub s ||
  match s with
  | EmptyString => false
  | String _ s' => contains sub s'
  end.

(** [x in l] on lists of strings. *)
Definition in_list (x : string) (l : list string) : bool :=
  existsb (String.eqb x) l.

(** [x in l] on a tuple of floats. *)
Definition float_in (x : Q) (l : list Q) : bool :=
  existsb (fun y => Qeq_bool y x) l.

(** [l.index(x)]: position of the first element equal to [x]. *)
Fixpoint index_from {A : Type} (eqb : A -> A -> bool) (l : list A) (x : A)
  (i : Z) : result Z :=
  match l with
  | [] => Raise ValueError
  | y :: l' => if eqb y x then Ok i else index_from eqb l' x (i + 1)
  end.

Definition index {A : Type} (eqb : A -> A -> bool) (l : list A) (x : A)
  : result Z := index_from eqb l x 0.

(** [l[i]] on a list or tuple: negative indices count from the end. *)
Definition getitem {A : Type} (l : list A) (i : Z) : result A :=
  let n := Z.of_nat (List.length l) in
  let j := if i <? 0 then i + n else i in
  if (j <? 0) || (n <=? j) then Raise IndexError
  else match nth_error l (Z.to_nat j) with
       | Some a => Ok a
       | None => Raise IndexError
       end.

(** [d[k]] on a dict written as its item list (keys are distinct). *)
Fixpoint dict_getitem {V : Type} (d : list (Z * V)) (k : Z) : result V :=
  match d with
  | [] => Raise KeyError
  | (k', v) :: d' => if k' =? k then Ok v else dict_getitem d' k
  end.

(** *** Decimal text *)

Definition nat_of_char (c : ascii) : nat := nat_of_ascii c.

Definition is_digit (c : ascii) : bool :=
  (48 <=? nat_of_char c)%nat && (nat_of_char c <=? 57)%nat.

Definition digit_val (c : ascii) : Z := Z.of_nat (nat_of_char c) - 48.

Definition digit_char (d : Z) : ascii := ascii_of_nat (48 + Z.to_nat d).

(** Whitespace stripped by [int()] around the number: TAB..CR and space,
    and the two spaces above the ASCII range, U+0085 and U+00A0.  The
    separators FS..US (0x1C..0x1F) are not stripped: [int()] rejects them. *)
Definition is_space (c : ascii) : bool :=
  let n := nat_of_char c in
  ((9 <=? n)%nat && (n <=? 13)%nat) || (n =? 32)%nat || (n =? 133)%nat ||
  (n =? 160)%nat.

Fixpoint lstrip (s : string) : string :=
  match s with
  | EmptyString => EmptyString
  | String c s' => if is_space c then lstrip s' else s
  end.

Fixpoint rstrip (s : string) : string :=
  match s with
  | EmptyString => EmptyString
  | String c s' =>
      match rstrip s' with
      | EmptyString => if is_space c then EmptyString else String c ""
      | r => String c r
      end
  end.

Definition strip (s : string) : string := rstrip (lstrip s).

(** Digits with single underscores allowed between them; [prev] tells whether
    the previous character was a digit. *)
Fixpoint digits_value (acc : Z) (prev : bool) (s : string) : option Z :=
  match s with
  | EmptyString => if prev then Some acc else None
  | String c s' =>
      if is_digit c then digits_value (10 * acc + digit_val c) true s'
      else if Ascii.eqb c "_" && prev then digits_value acc false s'
      else None
  end.

(** [int(s)]: surrounding whitespace, an optional sign, then decimal digits
    (the only decimal digits below 256 are the ASCII ones). *)
Definition int_of_str (s : string) : result Z :=
  let body :=
    match strip s with
    | EmptyString => None
    | String c r =>
        if Ascii.eqb c "+" then digits_value 0 false r
        else if Ascii.eqb c "-" then option_map Z.opp (digits_value 0 false r)
        else digits_value 0 false (String c r)
    end in
  match body with
  | Some n => Ok n
  | None => Raise ValueError
  end.

(** Decimal digits of a non-negative integer, most significant first. *)
Fixpoint udec_fuel (fuel : nat) (n : Z) : string :=
  match fuel with
  | O => EmptyString
  | S f =>
      if n <? 10 then String (digit_char n) ""
      else udec_fuel f (n / 10) ++ String (digit_char (n mod 10)) ""
  end.

Definition udec (n : Z) : string := udec_fuel (S (Z.to_nat (Z.log2 n))) n.

Fixpoint zeros (k : nat) : string :=
  match k with
  | O => EmptyString
  | S k' => String "0" (zeros k')
  end.

Definition zfill (w : nat) (s : string) : string :=
  zeros (w - String.length s) ++ s.

(** ["%0wi" % n]; [w = 0] is plain ["%i"].  The sign counts in the width. *)
Definition fmt_i (w : nat) (n : Z) : string :=
  if n <? 0 then String "-" (zfill (w - 1) (udec (- n)))
  else zfill w (udec n).

(** ["%i" % b] on a [bool]. *)
Definition fmt_bool (b : bool) : string := if b then "1" else "0".

End Py.

Notation "' pat <- m ;; k" :=
  (bind m (fun x => match x with pat => k end))
  (at level 61, pat pattern, m at next level, right associativity).

(** ** Data model *)

(** The attributes of [chirp_common.Memory] the driver reads or writes. *)
Record Memory : Type := mkMemory {
  number : Z;
  extd_number : string;
  freq : Z;
  mode : string;
  tuning_step : Q;
  skip : string;
  tmode : string;
  rtone : Q;
  ctone : Q;
  dtcs : Z;
  duplex : string;
  offset : Z;
  name : string;
  empty : bool;
  immutable : list string
}.

Definition set_number (v : Z) (m : Memory) : Memory :=
  mkMemory v (extd_number m) (freq m) (mode m) (tuning_step m) (skip m)
    (tmode m) (rtone m) (ctone m) (dtcs m) (duplex m) (offset m) (name m)
    (empty m) (immutable m).
Definition set_extd_number (v : string) (m : Memory) : Memory :=
  mkMemory (number m) v (freq m) (mode m) (tuning_step m) (skip m)
    (tmode m) (rtone m) (ctone m) (dtcs m) (duplex m) (offset m) (name m)
    (empty m) (immutable m).
Definition set_freq (v : Z) (m : Memory) : Memory :=
  mkMemory (number m) (extd_number m) v (mode m) (tuning_step m) (skip m)
    (tmode m) (rtone m) (ctone m) (dtcs m) (duplex m) (offset m) (name m)
    (empty m) (immutable m).
Definition set_mode (v : string) (m : Memory) : Memory :=
  mkMemory (number m) (extd_number m) (freq m) v (tuning_step m) (skip m)
    (tmode m) (rtone m) (ctone m) (dtcs m) (duplex m) (offset m) (name m)
    (empty m) (immutable m).
Definition set_tuning_step (v : Q) (m : Memory) : Memory :=
  mkMemory (number m) (extd_number m) (freq m) (mode m) v (skip m)
    (tmode m) (rtone m) (ctone m) (dtcs m) (duplex m) (offset m) (name m)
    (empty m) (immutable m).
Definition set_skip (v : string) (m : Memory) : Memory :=
  mkMemory (number m) (extd_number m) (freq m) (mode m) (tuning_step m) v
    (tmode m) (rtone m) (ctone m) (dtcs m) (duplex m) (offset m) (name m)
    (empty m) (immutable m).
Definition set_tmode (v : string) (m : Memory) : Memory :=
  mkMemory (number m) (extd_number m) (freq m) (mode m) (tuning_step m)
    (skip m) v (rtone m) (ctone m) (dtcs m) (duplex m) (offset m) (name m)
    (empty m) (immutable m).
Definition set_rtone (v : Q) (m : Memory) : Memory :=
  mkMemory (number m) (extd_number m) (freq m) (mode m) (tuning_step m)
    (skip m) (tmode m) v (ctone m) (dtcs m) (duplex m) (offset m) (name m)
    (empty m) (immutable m).
Definition set_ctone (v : Q) (m : Memory) : Memory :=
  mkMemory (number m) (extd_number m) (freq m) (mode m) (tuning_step m)
    (skip m) (tmode m) (rtone m) v (dtcs m) (duplex m) (offset m) (name m)
    (empty m) (immutable m).
Definition set_dtcs (v : Z) (m : Memory) : Memory :=
  mkMemory (number m) (extd_number m) (freq m) (mode m) (tuning_step m)
    (skip m) (tmode m) (rtone m) (ctone m) v (duplex m) (offset m) (name m)
    (empty m) (immutable m).
Definition set_duplex (v : string) (m : Memory) : Memory :=
  mkMemory (number m) (extd_number m) (freq m) (mode m) (tuning_step m)
    (skip m) (tmode m) (rtone m) (ctone m) (dtcs m) v (offset m) (name m)
    (empty m) (immutable m).
Definition set_offset (v : Z) (m : Memory) : Memory :=
  mkMemory (number m) (extd_number m) (freq m) (mode m) (tuning_step m)
    (skip m) (tmode m) (rtone m) (ctone m) (dtcs m) (duplex m) v (name m)
    (empty m) (immutable m).
Definition set_name (v : string) (m : Memory) : Memory :=
  mkMemory (number m) (extd_number m) (freq m) (mode m) (tuning_step m)
    (skip m) (tmode m) (rtone m) (ctone m) (dtcs m) (duplex m) (offset m) v
    (empty m) (immutable m).
Definition set_empty (v : bool) (m : Memory) : Memory :=
  mkMemory (number m) (extd_number m) (freq m) (mode m) (tuning_step m)
    (skip m) (tmode m) (rtone m) (ctone m) (dtcs m) (duplex m) (offset m)
    (name m) v (immutable m).
Definition set_immutable (v : list string) (m : Memory) : Memory :=
  mkMemory (number m) (extd_number m) (freq m) (mode m) (tuning_step m)
    (skip m) (tmode m) (rtone m) (ctone m) (dtcs m) (duplex m) (offset m)
    (name m) (empty m) v.

(** Names the driver imports from modules that are not part of this file:
    the tone and DTCS tables of [chirp_common], the attribute values of a
    fresh [chirp_common.Memory()], and [_index_to_memid] inherited from
    [KenwoodD7Family]. *)
Class Imports : Type := {
  OLD_TONES : list Q;
  DTCS_CODES : list Z;
  Memory_new : Memory;
  _index_to_memid : Z -> result string
}.

(** Modelled from the spec: [chirp.util.get_dict_rev] is not part of this
    file.  The spec has the encoder resolve [duplex] and [mode] to their wire
    codes by consulting the duplex and mode tables, which map code to value:
    the lookup is of the key stored under a value ([KeyError] when there is
    none; the last such key, as a reversed dict keeps it). *)
Fixpoint get_dict_rev (d : list (Z * string)) (value : string) : result Z :=
  match d with
  | [] => Raise KeyError
  | (k, v) :: d' =>
      match get_dict_rev d' value with
      | Ok k' => Ok k'
      | Raise _ => if String.eqb v value then Ok k else Raise KeyError
      end
  end.

(** The module binds no global [LOG] (it imports [re], [chirp_common],
    [directory], [util], [errors], [KenwoodD7Family] and three settings
    classes only): evaluating [LOG.error(msg)] fails at the name lookup. *)
Definition LOG_error (msg : string) : result unit := Raise (NameError "LOG").

(** ** Class attributes of [TS2000Radio] *)

Definition _ARG_DELIMITER : string := "".
Definition _CMD_DELIMITER : string := ";".
Definition _DUPLEX : list (Z * string) :=
  [(0, ""); (1, "+"); (2, "-"); (3, "="); (4, "split")].
Definition _MODES : list (Z * string) :=
  [(1, "LSB"); (2, "USB"); (3, "CW"); (4, "FM");
   (5, "AM"); (6, "FSK"); (7, "CW-R"); (9, "FSK-R")].
Definition _SSB_STEPS : list Q := [1; 5 # 2; 5; 10]%Q.
Definition _FM_STEPS : list Q :=
  [5; 25 # 4; 10; 25 # 2; 15; 20; 25; 30; 50; 100]%Q.
Definition _TMODES : list string := [""; "Tone"; "TSQL"; "DTCS"].
Definition _UPPER : Z := 289.
Definition _SPECIAL_CHANS : list string :=
  ["290 Start"; "290 End"; "291 Start"; "291 End"; "292 Start"; "292 End";
   "293 Start"; "293 End"; "294 Start"; "294 End"; "295 Start"; "295 End";
   "296 Start"; "296 End"; "297 Start"; "297 End"; "298 Start"; "298 End";
   "299 Start"; "299 End"].

(** The field list both decode paths assign to [mem.immutable]. *)
Definition immutable_fields : list string :=
  ["name"; "tmode"; "rtone"; "ctone"; "dtcs"; "duplex"; "offset"; "mode";
   "tuning_step"; "skip"].

(** [_get_range_end_mem]: [int(base / 2)] truncates the float quotient
    towards zero, which is [Z.quot] (the quotient of an integer of this size
    by two is exact in a float). *)
Definition _get_range_end_mem (index : Z) : Z * Z :=
  let base := index - _UPPER - 1 in
  let end_ := base mod 2 in
  let base := Z.quot base 2 in
  (end_, base + _UPPER + 1).

(** The renumbering [_parse_mem] applies to an extended wire number, given
    the character [spec[3]]. *)
Definition extended_mnum (mnum : Z) (spec3 : string) : Z :=
  let mnum := _UPPER + ((mnum - _UPPER) * 2) - 1 in
  if String.eqb spec3 "1" then mnum + 1 else mnum.

(** The step table selected by a mode. *)
Definition steps_for (mode : string) : list Q :=
  if Py.in_list mode ["AM"; "FM"] then _FM_STEPS else _SSB_STEPS.

Section Codec.

Context {imports : Imports}.

Definition _TONES : list Q :=
  filter (fun x => negb (Qeq_bool x (693 # 10))) OLD_TONES.

(** [mem.number > self._UPPER and spec[3] == '1'] *)
Definition is_flagged_extended (mem : Memory) (spec : string) : result bool :=
  if number mem >? _UPPER then
    s3 <- Py.getitem_str spec 3 ;;
    Ok (String.eqb s3 "1")
  else Ok false.

(** The body of [_parse_mem] once the fields are cut out of [spec]. *)
Definition parse_fields (spec _p2 _p3 _p4 _p5 _p6 _p7 _p8 _p9 _p10 _p12 _p13
  _p14 _p16 : string) : result Memory :=
  let mem := Memory_new in
  mnum <- Py.int_of_str (_p2 ++ _p3) ;;
  mem <- (if mnum >? _UPPER then
            s3 <- Py.getitem_str spec 3 ;;
            let mnum := extended_mnum mnum s3 in
            memid <- _index_to_memid mnum ;;
            Ok (set_number mnum (set_extd_number memid mem))
          else Ok (set_number mnum mem)) ;;
  if String.eqb _p5 "0" then
    let mem := set_empty true mem in
    flagged <- is_flagged_extended mem spec ;;
    if flagged then Ok (set_immutable immutable_fields mem) else Ok mem
  else
    f <- Py.int_of_str _p4 ;;
    let mem := set_freq f mem in
    c <- Py.int_of_str _p5 ;;
    md <- Py.dict_getitem _MODES c ;;
    let mem := set_mode md mem in
    i <- Py.int_of_str _p14 ;;
    st <- Py.getitem (steps_for (mode mem)) i ;;
    let mem := set_tuning_step st mem in
    flagged <- is_flagged_extended mem spec ;;
    if flagged then Ok (set_immutable immutable_fields mem)
    else
      i <- Py.int_of_str _p6 ;;
      v <- Py.getitem [""; "S"] i ;;
      let mem := set_skip v mem in
      i <- Py.int_of_str _p7 ;;
      v <- Py.getitem _TMODES i ;;
      let mem := set_tmode v mem in
      i <- Py.int_of_str _p8 ;;
      v <- Py.getitem _TONES (i - 1) ;;
      let mem := set_rtone v mem in
      i <- Py.int_of_str _p9 ;;
      v <- Py.getitem _TONES (i - 1) ;;
      let mem := set_ctone v mem in
      i <- Py.int_of_str _p10 ;;
      v <- Py.getitem DTCS_CODES i ;;
      let mem := set_dtcs v mem in
      i <- Py.int_of_str _p12 ;;
      v <- Py.dict_getitem _DUPLEX i ;;
      let mem := set_duplex v mem in
      v <- Py.int_of_str _p13 ;;
      let mem := set_offset v mem in
      Ok (set_name _p16 mem).

Definition _parse_mem (spec : string) : result Memory :=
  let spec := " " ++ spec in
  _p2 <- Py.getitem_str spec 4 ;;
  let _p3 := Py.slice spec 5 7 in
  let _p4 := Py.slice spec 7 18 in
  _p5 <- Py.getitem_str spec 18 ;;
  _p6 <- Py.getitem_str spec 19 ;;
  _p7 <- Py.getitem_str spec 20 ;;
  let _p8 := Py.slice spec 21 23 in
  let _p9 := Py.slice spec 23 25 in
  let _p10 := Py.slice spec 25 28 in
  _p12 <- Py.getitem_str spec 29 ;;
  let _p13 := Py.slice spec 30 39 in
  let _p14 := Py.slice spec 39 41 in
  let _p16 := Py.slice spec 42 49 in
  parse_fields spec _p2 _p3 _p4 _p5 _p6 _p7 _p8 _p9 _p10 _p12 _p13 _p14 _p16.

Definition _parse_split (mem : Memory) (spec : string) : result Memory :=
  let spec := " " ++ spec in
  split_freq <- Py.int_of_str (Py.slice spec 7 18) ;;
  if negb (freq mem =? split_freq)
  then Ok (set_offset split_freq (set_duplex "split" mem))
  else Ok mem.

(** The three local computations shared by both spec builders. *)
Definition encode_step (mem : Memory) : result Z :=
  Py.index Qeq_bool (steps_for (mode mem)) (tuning_step mem).

Definition encode_tones (mem : Memory) : result (Z * Z * Z) :=
  if String.eqb (tmode mem) "" then Ok (0, 0, 0)
  else
    r <- Py.index Qeq_bool _TONES (rtone mem) ;;
    c <- Py.index Qeq_bool _TONES (ctone mem) ;;
    d <- Py.index Z.eqb DTCS_CODES (dtcs mem) ;;
    Ok (r + 1, c + 1, d).

Definition _make_mem_spec (memid : string) (mem : Memory)
  : result (list string) :=
  ' (duplex_, offset_) <-
    (if Py.contains (duplex mem) " +-" then
       d <- get_dict_rev _DUPLEX (duplex mem) ;;
       Ok (d, offset mem)
     else if String.eqb (duplex mem) "split" then Ok (0, 0)
     else
       _ <- LOG_error ("Bug: unsupported duplex `" ++ duplex mem ++ "'") ;;
       Raise (UnboundLocalError "duplex")) ;;
  step <- encode_step mem ;;
  ' (rtone_, ctone_, dtcs_) <- encode_tones mem ;;
  mode_ <- get_dict_rev _MODES (mode mem) ;;
  tmode_ <- Py.index String.eqb _TMODES (tmode mem) ;;
  Ok [ Py.fmt_i 11 (freq mem);
       Py.fmt_i 0 mode_;
       Py.fmt_bool (String.eqb (skip mem) "S");
       Py.fmt_i 0 tmode_;
       Py.fmt_i 2 rtone_;
       Py.fmt_i 2 ctone_;
       Py.fmt_i 3 dtcs_;
       "0";
       Py.fmt_i 0 duplex_;
       Py.fmt_i 9 offset_;
       Py.fmt_i 2 step;
       "0";
       name mem ].

Definition _make_split_spec (memid : string) (mem : Memory)
  : result (list string) :=
  duplex_ <-
    (if Py.contains (duplex mem) " +-" then
       get_dict_rev _DUPLEX (duplex mem)
     else if String.eqb (duplex mem) "split" then Ok 0
     else
       _ <- LOG_error ("Bug: unsupported duplex `" ++ duplex mem ++ "'") ;;
       Raise (UnboundLocalError "duplex")) ;;
  step <- encode_step mem ;;
  ' (rtone_, ctone_, dtcs_) <- encode_tones mem ;;
  mode_ <- get_dict_rev _MODES (mode mem) ;;
  tmode_ <- Py.index String.eqb _TMODES (tmode mem) ;;
  Ok [ Py.fmt_i 11 (offset mem);
       Py.fmt_i 0 mode_;
       Py.fmt_bool (String.eqb (skip mem) "S");
       Py.fmt_i 0 tmode_;
       Py.fmt_i 2 rtone_;
       Py.fmt_i 2 ctone_;
       Py.fmt_i 3 dtcs_;
       "0";
       Py.fmt_i 0 duplex_;
       Py.fmt_i 9 0;
       Py.fmt_i 2 step;
       "0";
       name mem ].

(** [''.join(spec)] *)
Definition join (spec : list string) : string := String.concat "" spec.

End Codec.

(** ** Settings primitives and the transport collaborators

    [_command] and [_do_prerequisite] are inherited from the radio family
    base class and talk to the serial link.  A run of the driver is modelled
    over the history of the calls made so far: the radio ([Transport]) says
    what each call returns given that history, and every call is appended to
    it. *)

Inductive call : Type :=
| Command (cmd : string)
| Prerequisite (cmd : string) (get do_ : bool).

Class Transport : Type := {
  radio_response : list call -> string -> result string;
  radio_prerequisite : list call -> string -> bool -> bool -> result unit
}.

Definition io (A : Type) : Type := list call -> result A * list call.

Definition io_ret {A : Type} (a : A) : io A := fun h => (Ok a, h).

Definition io_raise {A : Type} (e : exn) : io A := fun h => (Raise e, h).

Definition io_bind {A B : Type} (m : io A) (k : A -> io B) : io B :=
  fun h =>
    match m h with
    | (Ok a, h') => k a h'
    | (Raise e, h') => (Raise e, h')
    end.

Notation "x <~ m ;; k" := (io_bind m (fun x => k))
  (at level 61, m at next level, right associativity).

Section Settings.

Context {transport : Transport}.

Definition _command (cmd : string) : io string :=
  fun h => (radio_response h cmd, (h ++ [Command cmd])%list).

Definition _do_prerequisite (cmd : string) (get do_ : bool) : io unit :=
  fun h =>
    (radio_prerequisite h cmd get do_, (h ++ [Prerequisite cmd get do_])%list).

Definition _kenwood_set (cmd value : string) : io unit :=
  _ <~ _do_prerequisite cmd false true ;;
  resp <~ _command (cmd ++ value ++ _CMD_DELIMITER ++ cmd) ;;
  _ <~ _do_prerequisite cmd false false ;;
  if negb (String.eqb resp (cmd ++ _ARG_DELIMITER ++ value))
  then io_raise (RadioError ("Radio refused to set " ++ cmd))
  else io_ret tt.

Definition _kenwood_simple_get (cmd : string) : io (string * string) :=
  resp <~ _command cmd ;;
  if String.eqb (Py.slice resp 0 (String.length cmd)) cmd
  then io_ret (cmd, Py.slice_from resp (String.length cmd))
  else
    if String.eqb resp cmd then io_ret (resp, "")
    else io_raise (RadioError ("Radio refused to return " ++ cmd)).

End Settings.

(** ** A concrete instance of the imported names

    Used to evaluate the codec on examples; the general theorems hold for
    every instance of [Imports]. *)

(** The CTCSS tone list of [chirp_common] without its eleven later
    additions, and its DTCS code list. *)
Definition sample_OLD_TONES : list Q :=
  [670 # 10; 693 # 10; 719 # 10; 744 # 10; 770 # 10; 797 # 10; 825 # 10;
   854 # 10; 885 # 10; 915 # 10; 948 # 10; 974 # 10; 1000 # 10; 1035 # 10;
   1072 # 10; 1109 # 10; 1148 # 10; 1188 # 10; 1230 # 10; 1273 # 10;
   1318 # 10; 1365 # 10; 1413 # 10; 1462 # 10; 1514 # 10; 1567 # 10;
   1622 # 10; 1679 # 10; 1738 # 10; 1799 # 10; 1862 # 10; 1928 # 10;
   2035 # 10; 2107 # 10; 2181 # 10; 2257 # 10; 2336 # 10; 2418 # 10;
   2503 # 10]%Q.

Definition sample_DTCS_CODES : list Z :=
  [23; 25; 26; 31; 32; 36; 43; 47; 51; 53; 54;
   65; 71; 72; 73; 74; 114; 115; 116; 122; 125; 131;
   132; 134; 143; 145; 152; 155; 156; 162; 165; 172; 174;
   205; 212; 223; 225; 226; 243; 244; 245; 246; 251; 252;
   255; 261; 263; 265; 266; 271; 274; 306; 311; 315; 325;
   331; 332; 343; 346; 351; 356; 364; 365; 371; 411; 412;
   413; 423; 431; 432; 445; 446; 452; 454; 455; 462; 464;
   465; 466; 503; 506; 516; 523; 526; 532; 546; 565; 606;
   612; 624; 627; 631; 632; 654; 662; 664; 703; 712; 723;
   731; 732; 734; 743; 754].

(** A fresh memory: no number, 88.5 Hz tones, DTCS 23, FM, 5 kHz steps,
    600 kHz offset, nothing immutable. *)
Definition sample_Memory_new : Memory :=
  {| number := 0; extd_number := ""; freq := 0; mode := "FM";
     tuning_step := 5%Q; skip := ""; tmode := "";
     rtone := (885 # 10)%Q; ctone := (885 # 10)%Q; dtcs := 23;
     duplex := ""; offset := 600000; name := ""; empty := false;
     immutable := [] |}.

(** Modelled from the spec: [KenwoodD7Family._index_to_memid] is not part of
    this file.  The spec maps the logical numbers 0..UPPER directly to wire
    memory numbers and names the twenty indices UPPER+1 .. UPPER+20
    "290 Start/End ... 299 Start/End", which is [_SPECIAL_CHANS] in order. *)
Definition sample_index_to_memid (index : Z) : result string :=
  if index <=? _UPPER then Ok (Py.fmt_i 3 index)
  else if index - _UPPER - 1 <? Z.of_nat (List.length _SPECIAL_CHANS)
       then Py.getitem _SPECIAL_CHANS (index - _UPPER - 1)
       else Raise IndexError.

#[local] Instance sample_imports : Imports := {|
  OLD_TONES := sample_OLD_TONES;
  DTCS_CODES := sample_DTCS_CODES;
  Memory_new := sample_Memory_new;
  _index_to_memid := sample_index_to_memid
|}.

(** A radio that echoes a fixed answer to every command and accepts every
    priming request. *)
Definition constant_radio (answer : string) : Transport := {|
  radio_response := fun _ _ => Ok answer;
  radio_prerequisite := fun _ _ _ _ => Ok tt
|}.

(** The response to [MR0<nnn>] for a memory written with [spec]. *)
Definition mr_response (number : Z) (spec : list string) : string :=
  "MR" ++ "0" ++ Py.fmt_i 3 number ++ join spec.
Definition test_mem : Memory :=
  {| number := 5; extd_number := ""; freq := 14205000; mode := "USB";
     tuning_step := 1%Q; skip := ""; tmode := "Tone";
     rtone := (885 # 10)%Q; ctone := (885 # 10)%Q; dtcs := 23;
     duplex := ""; offset := 0; name := "TEST"; empty := false;
     immutable := [] |}.

(** ** Command construction and the identity response *)

(** General slicing [s[a:b]] and [s[a:]]: a negative bound counts from the
    end of the string and every bound is clamped to the string. *)
Module PySlice.

Definition clamp (len i : Z) : Z :=
  if i <? 0 then Z.max 0 (len + i) else Z.min i len.

Definition slice (s : string) (a b : Z) : string :=
  let len := Z.of_nat (String.length s) in
  let a' := clamp len a in
  let b' := clamp len b in
  substring (Z.to_nat a') (Z.to_nat (b' - a')) s.

Definition slice_from (s : string) (a : Z) : string :=
  slice s a (Z.of_nat (String.length s)).

End PySlice.

(** [_parse_id_response]: [None] is Python's [None]. *)
Definition _parse_id_response (resp : string) : option string :=
  if String.eqb (PySlice.slice resp (-5) (-3)) "ID"
  then Some (PySlice.slice_from resp (-3))
  else None.

(** [_memid_to_index] is inherited from [KenwoodD7Family], which is not part
    of this file. *)
Class FamilyImports : Type := {
  _memid_to_index : string -> result Z
}.

(** ["%d%03d" % pair] *)
Definition fmt_d_03d (pair : Z * Z) : string :=
  Py.fmt_i 0 (fst pair) ++ Py.fmt_i 3 (snd pair).

Definition _cmd_recall_memory (memid : string) : string := "MC" ++ memid.

Definition _cmd_cur_memory : string := "MC".

Definition _cmd_erase_memory (number : Z) : string :=
  "MW" ++ Py.fmt_i 4 number ++ Py.fmt_i 35 0.

Section Commands.

Context {imports : Imports} {family : FamilyImports}.

Definition _cmd_set_memory_or_split (memid : string) (memory : Memory)
  (split : bool) : result string :=
  index <- _memid_to_index memid ;;
  let sd := if split then 1 else 0 in
  memstr <-
    (if index >? _UPPER then
       if split
       then Raise (RadioError "Can't set split on start/end memories")
       else Ok (fmt_d_03d (_get_range_end_mem index))
     else Ok (Py.fmt_i 0 sd ++ memid)) ;;
  if empty memory then Ok ("MW" ++ memstr ++ Py.fmt_i 35 0 ++ ";ID")
  else
    spec <- (if split then _make_split_spec memid memory
             else _make_mem_spec memid memory) ;;
    Ok ("MW" ++ memstr ++ join spec ++ ";ID").

Definition _cmd_get_memory_or_split (memid : string) (split : bool)
  : result (option string) :=
  let sd := if split then 1 else 0 in
  index <- _memid_to_index memid ;;
  if index >? _UPPER then
    if split then Ok None
    else Ok (Some ("MR" ++ fmt_d_03d (_get_range_end_mem index)))
  else Ok (Some ("MR" ++ Py.fmt_i 0 sd ++ memid)).

End Commands.

(** ** DTMF memory group

    A [Kenwoodts2000DTMFMemory] holds settings elements; of each element the
    driver uses its name, the string of its value and its changed flag. *)

Record Element : Type := mkElement {
  el_name : string;
  el_value : string;
  el_changed : bool
}.

(** [_get_index]: [self._name[7:8]] *)
Definition _get_index (name : string) : string := Py.slice name 7 8.

(** The value [set_setting_to_radio] transmits for an element's value. *)
Definition dtmf_value (value : string) : string :=
  let value := if String.eqb value "" then " " else value in
  if String.eqb (Py.slice value 0 1) " " then " " else value.

Section DTMF.

Context {transport : Transport}.

(** [set_setting_to_radio]: the loop over the elements.  It returns the
    outcome together with the elements as the loop left them (the flag of an
    element is cleared once its set succeeded) and the call history. *)
Fixpoint set_setting_to_radio (elements : list Element) (h : list call)
  : result unit * list Element * list call :=
  match elements with
  | [] => (Ok tt, [], h)
  | element :: rest =>
      if negb (el_changed element) then
        let '(r, rest', h') := set_setting_to_radio rest h in
        (r, element :: rest', h')
      else
        match _kenwood_set (el_name element)
                (dtmf_value (el_value element)) h with
        | (Ok _, h1) =>
            let '(r, rest', h') := set_setting_to_radio rest h1 in
            (r, mkElement (el_name element) (el_value element) false :: rest',
             h')
        | (Raise e, h1) => (Raise e, element :: rest, h1)
        end
  end.

End DTMF.

(** A radio that answers every command with the text before its first ";"
    and accepts every priming request. *)
Fixpoint before_semicolon (s : string) : string :=
  match s with
  | EmptyString => EmptyString
  | String c s' => if Ascii.eqb c ";" then EmptyString
                   else String c (before_semicolon s')
  end.

Definition echo_radio : Transport := {|
  radio_response := fun _ cmd => Ok (before_semicolon cmd);
  radio_prerequisite := fun _ _ _ _ => Ok tt
|}.

(** A family whose memory ids are the decimal text of the index. *)
Definition sample_memid_to_index (memid : string) : result Z :=
  Py.int_of_str memid.

Definition sample_family : FamilyImports := {|
  _memid_to_index := sample_memid_to_index
|}.

(** ** Definitions used to state further properties *)

(** The commands in a call history, in order. *)
Definition sent_commands (h : list call) : list string :=
  flat_map (fun c => match c with
                     | Command s => [s]
                     | Prerequisite _ _ _ => []
                     end) h.

(** The set commands of the changed elements of a DTMF group. *)
Definition dtmf_commands (elements : list Element) : list string :=
  map (fun e => el_name e ++ dtmf_value (el_value e) ++ ";" ++ el_name e)
      (filter el_changed elements).

(** A split record and a record with the tone mode off, for evaluation. *)
Definition test_split_mem : Memory :=
  set_offset 14300000 (set_duplex "split" test_mem).

Definition test_tone_off_mem : Memory := set_tmode "" test_mem.

(** ** Auxiliary definitions of the proofs *)

(** Strings made of decimal digits only. *)
Fixpoint all_digits (s : string) : bool :=
  match s with
  | EmptyString => true
  | String c s' => Py.is_digit c && all_digits s'
  end.

(** The plain positional value of a digit string, continuing from [acc]. *)
Fixpoint dval (acc : Z) (s : string) : Z :=
  match s with
  | EmptyString => acc
  | String c s' => dval (10 * acc + Py.digit_val c) s'
  end.

(** Inversion of a successful [bind] in a hypothesis. *)
Ltac bind_ok H :=
  match type of H with
  | bind ?m _ = Ok _ =>
      let E := fresh "E" in
      destruct m eqn:E; [cbn [bind] in H | discriminate H]
  end.

(** A string of known length, as its characters. *)
Ltac explode s H :=
  repeat (destruct s as [|? s];
          [discriminate H | cbn [String.length] in H;
                            apply Nat.succ_inj in H]);
  destruct s; [clear H | discriminate H].

(** * Properties *)

(** ** Worked values *)

Example fmt_i_freq : Py.fmt_i 11 14205000 = "00014205000".
Proof. reflexivity. Qed.

Example fmt_i_neg : Py.fmt_i 3 (-5) = "-05".
Proof. reflexivity. Qed.

Example fmt_i_wide : Py.fmt_i 2 1234 = "1234".
Proof. reflexivity. Qed.

Example int_of_str_pad : Py.int_of_str " 005 " = Ok 5.
Proof. reflexivity. Qed.

Example int_of_str_fs : Py.int_of_str (String "028" "05") = Raise ValueError.
Proof. reflexivity. Qed.

Example int_of_str_nbsp : Py.int_of_str (String "160" "05") = Ok 5.
Proof. reflexivity. Qed.

Example int_of_str_us : Py.int_of_str "1_000" = Ok 1000.
Proof. reflexivity. Qed.

Example int_of_str_bad : Py.int_of_str "1__0" = Raise ValueError.
Proof. reflexivity. Qed.

Example int_of_str_empty : Py.int_of_str "" = Raise ValueError.
Proof. reflexivity. Qed.

Example contains_empty : Py.contains "" " +-" = true.
Proof. reflexivity. Qed.

Example contains_eq : Py.contains "=" " +-" = false.
Proof. reflexivity. Qed.

#[local] Arguments Py.digit_char : simpl never.
#[local] Arguments Py.digit_val : simpl never.
#[local] Arguments Py.is_digit : simpl never.
#[local] Arguments Py.is_space : simpl never.

(** ** Strings: lengths, indexing and slicing of concatenations *)

Lemma length_app (a b : string) :
  String.length (a ++ b) = (String.length a + String.length b)%nat.
Proof. induction a as [|c a IH]; simpl; [reflexivity | now rewrite IH]. Qed.

Lemma app_empty_r (a : string) : a ++ "" = a.
Proof. induction a as [|c a IH]; simpl; [reflexivity | now rewrite IH]. Qed.

Lemma app_assoc_str (a b c : string) : (a ++ b) ++ c = a ++ b ++ c.
Proof. induction a as [|x a IH]; simpl; [reflexivity | now rewrite IH]. Qed.

Lemma get_some (s : string) :
  forall i, (i < String.length s)%nat -> exists c, String.get i s = Some c.
Proof.
  induction s as [|c s IH]; simpl; intros i Hi; [lia|].
  destruct i as [|i]; [now exists c|].
  apply IH; lia.
Qed.

Lemma get_none (s : string) :
  forall i, (String.length s <= i)%nat -> String.get i s = None.
Proof.
  induction s as [|c s IH]; simpl; intros i Hi; [now destruct i|].
  destruct i as [|i]; [lia|].
  apply IH; lia.
Qed.

Lemma get_skip (a b : string) :
  forall i k, String.length a = k -> (k <= i)%nat ->
  String.get i (a ++ b) = String.get (i - k) b.
Proof.
  induction a as [|c a IH]; simpl; intros i k Hk Hi.
  - subst k. now rewrite Nat.sub_0_r.
  - destruct k as [|k]; [discriminate|].
    destruct i as [|i]; [lia|].
    simpl. apply IH; lia.
Qed.

Lemma substring_skip (a b : string) :
  forall i n k, String.length a = k -> (k <= i)%nat ->
  substring i n (a ++ b) = substring (i - k) n b.
Proof.
  induction a as [|c a IH]; simpl; intros i n k Hk Hi.
  - subst k. now rewrite Nat.sub_0_r.
  - destruct k as [|k]; [discriminate|].
    destruct i as [|i]; [lia|].
    simpl. apply IH; lia.
Qed.

Lemma substring_take (a b : string) :
  forall n, String.length a = n -> substring 0 n (a ++ b) = a.
Proof.
  induction a as [|c a IH]; simpl; intros n Hn.
  - subst n. now destruct b.
  - destruct n as [|n]; [discriminate|].
    f_equal. apply IH. lia.
Qed.

Lemma substring_all (a : string) :
  forall n, (String.length a <= n)%nat -> substring 0 n a = a.
Proof.
  induction a as [|c a IH]; simpl; intros n Hn.
  - now destruct n.
  - destruct n as [|n]; [lia|].
    f_equal. apply IH. lia.
Qed.

Lemma substring_split (s : string) :
  forall i n m,
  substring i n s ++ substring (i + n) m s = substring i (n + m) s.
Proof.
  induction s as [|c s IH]; intros i n m.
  - destruct i, n, m; reflexivity.
  - destruct i as [|i].
    + destruct n as [|n]; simpl.
      * reflexivity.
      * f_equal. apply (IH 0%nat).
    + simpl. apply IH.
Qed.

Lemma substring_one (s : string) :
  forall i c, String.get i s = Some c -> substring i 1 s = String c "".
Proof.
  induction s as [|x s IH]; intros i c H; [now destruct i|].
  destruct i as [|i]; simpl in *.
  - injection H as ->. now destruct s.
  - now apply IH.
Qed.

Lemma prefix_slice (a b : string) :
  String.prefix a b = String.eqb (substring 0 (String.length a) b) a.
Proof.
  revert b; induction a as [|c a IH]; intros b; simpl.
  - now destruct b.
  - destruct b as [|d b]; simpl; [reflexivity|].
    destruct (ascii_dec c d) as [->|n].
    + rewrite Ascii.eqb_refl. apply IH.
    + destruct (Ascii.eqb_spec d c); [congruence | reflexivity].
Qed.

Lemma prefix_app (a b : string) : String.prefix a (a ++ b) = true.
Proof.
  rewrite prefix_slice, substring_take by reflexivity. apply String.eqb_refl.
Qed.

Lemma prefix_split (a s : string) :
  String.prefix a s = true ->
  s = a ++ substring (String.length a) (String.length s - String.length a) s.
Proof.
  revert s; induction a as [|c a IH]; intros s H; simpl.
  - rewrite Nat.sub_0_r. symmetry. now apply substring_all.
  - destruct s as [|d s]; simpl in H; [discriminate|].
    destruct (ascii_dec c d) as [->|]; [|discriminate].
    simpl. f_equal. now apply IH.
Qed.

(** ** Decimal text: printing and reading back *)

(** Case analysis on a decimal digit. *)
Lemma digit_cases (P : Z -> Prop) :
  (forall k : nat, (k <= 9)%nat -> P (Z.of_nat k)) ->
  forall d, 0 <= d <= 9 -> P d.
Proof.
  intros H d Hd. rewrite <- (Z2Nat.id d) by lia. apply H. lia.
Qed.

Lemma digit_char_spec (d : Z) :
  0 <= d <= 9 ->
  Py.is_digit (Py.digit_char d) = true /\
  Py.digit_val (Py.digit_char d) = d /\
  Py.is_space (Py.digit_char d) = false.
Proof.
  revert d. apply digit_cases. intros k Hk.
  do 10 (destruct k as [|k]; [vm_compute; repeat split; reflexivity|]).
  lia.
Qed.

Lemma is_digit_not_space (c : ascii) :
  Py.is_digit c = true -> Py.is_space c = false.
Proof.
  unfold Py.is_digit, Py.is_space. intros H.
  apply andb_true_iff in H as [H1 H2].
  apply Nat.leb_le in H1, H2.
  assert (E1 : (Py.nat_of_char c <=? 13)%nat = false)
    by (apply Nat.leb_gt; lia).
  assert (E2 : (Py.nat_of_char c =? 32)%nat = false)
    by (apply Nat.eqb_neq; lia).
  assert (E3 : (Py.nat_of_char c =? 133)%nat = false)
    by (apply Nat.eqb_neq; lia).
  assert (E4 : (Py.nat_of_char c =? 160)%nat = false)
    by (apply Nat.eqb_neq; lia).
  cbv zeta. rewrite E1, E2, E3, E4. now rewrite andb_false_r.
Qed.

Lemma is_digit_not_sign (c : ascii) :
  Py.is_digit c = true ->
  Ascii.eqb c "+" = false /\ Ascii.eqb c "-" = false.
Proof.
  intros H; split.
  - destruct (Ascii.eqb_spec c "+") as [->|]; [discriminate | reflexivity].
  - destruct (Ascii.eqb_spec c "-") as [->|]; [discriminate | reflexivity].
Qed.

Lemma all_digits_app (a b : string) :
  all_digits (a ++ b) = all_digits a && all_digits b.
Proof.
  induction a as [|c a IH]; simpl; [reflexivity|].
  now rewrite IH, andb_assoc.
Qed.

Lemma all_digits_zeros (k : nat) : all_digits (Py.zeros k) = true.
Proof. induction k; simpl; auto. Qed.

Lemma length_zeros (k : nat) : String.length (Py.zeros k) = k.
Proof. induction k; simpl; auto. Qed.

Lemma all_digits_udec_fuel (f : nat) :
  forall n, 0 <= n -> all_digits (Py.udec_fuel f n) = true.
Proof.
  induction f as [|f IH]; intros n Hn; cbn [Py.udec_fuel]; [reflexivity|].
  destruct (Z.ltb_spec n 10).
  - cbn [all_digits].
    assert (Hr : 0 <= n <= 9) by lia.
    destruct (digit_char_spec n Hr) as (E & _). rewrite E. reflexivity.
  - rewrite all_digits_app, IH by (apply Z.div_pos; lia).
    cbn [all_digits andb].
    assert (Hm := Z.mod_pos_bound n 10 ltac:(lia)).
    assert (Hr : 0 <= n mod 10 <= 9) by lia.
    destruct (digit_char_spec (n mod 10) Hr) as (E & _).
    rewrite E. reflexivity.
Qed.

Lemma dval_app (a b : string) : forall acc, dval acc (a ++ b) = dval (dval acc a) b.
Proof. induction a as [|c a IH]; simpl; intros acc; [reflexivity | apply IH]. Qed.

Lemma dval_zeros (k : nat) : dval 0 (Py.zeros k) = 0.
Proof. induction k; simpl; auto. Qed.

Lemma dval_udec_fuel (f : nat) :
  forall n acc, 0 <= n < 2 ^ Z.of_nat f ->
  dval acc (Py.udec_fuel f n) =
  acc * 10 ^ Z.of_nat (String.length (Py.udec_fuel f n)) + n.
Proof.
  induction f as [|f IH]; intros n acc Hn.
  - simpl in *. lia.
  - cbn [Py.udec_fuel]. destruct (Z.ltb_spec n 10).
    + cbn [dval String.length].
      destruct (digit_char_spec n ltac:(lia)) as (_ & -> & _).
      change (Z.of_nat 1) with 1. lia.
    + rewrite dval_app. cbn [dval].
      assert (Hm := Z.mod_pos_bound n 10 ltac:(lia)).
      destruct (digit_char_spec (n mod 10) ltac:(lia)) as (_ & -> & _).
      assert (Hq : 0 <= n / 10 < 2 ^ Z.of_nat f).
      { split; [apply Z.div_pos; lia|].
        apply Z.div_lt_upper_bound; [lia|].
        rewrite Nat2Z.inj_succ, Z.pow_succ_r in Hn by lia. lia. }
      rewrite IH by exact Hq.
      rewrite length_app. cbn [String.length].
      rewrite Nat2Z.inj_add. change (Z.of_nat 1) with 1.
      rewrite Z.pow_add_r by lia. change (10 ^ 1) with 10.
      pose proof (Z.div_mod n 10 ltac:(lia)). lia.
Qed.

Lemma udec_fuel_enough (n : Z) :
  0 <= n -> 0 <= n < 2 ^ Z.of_nat (S (Z.to_nat (Z.log2 n))).
Proof.
  intros Hn. split; [exact Hn|].
  rewrite Nat2Z.inj_succ, Z2Nat.id by apply Z.log2_nonneg.
  destruct (Z.eq_dec n 0) as [->|]; [reflexivity|].
  apply Z.log2_spec. lia.
Qed.

Lemma dval_udec (n : Z) : 0 <= n -> dval 0 (Py.udec n) = n.
Proof.
  intros Hn. unfold Py.udec.
  rewrite dval_udec_fuel by now apply udec_fuel_enough. lia.
Qed.

Lemma length_udec_fuel (f : nat) :
  forall n w, 0 <= n < 10 ^ Z.of_nat w -> (1 <= w)%nat ->
  (String.length (Py.udec_fuel f n) <= w)%nat.
Proof.
  induction f as [|f IH]; intros n w Hn Hw; simpl; [lia|].
  destruct (Z.ltb_spec n 10); simpl; [lia|].
  rewrite length_app. simpl.
  destruct w as [|w]; [lia|].
  destruct w as [|w]; [change (10 ^ Z.of_nat 1) with 10 in Hn; lia|].
  assert (Hq : 0 <= n / 10 < 10 ^ Z.of_nat (S w)).
  { split; [apply Z.div_pos; lia|].
    apply Z.div_lt_upper_bound; [lia|].
    rewrite (Nat2Z.inj_succ (S w)), Z.pow_succ_r in Hn by lia. lia. }
  specialize (IH (n / 10) (S w) Hq ltac:(lia)). lia.
Qed.

Lemma udec_nonempty (n : Z) : Py.udec n <> "".
Proof.
  unfold Py.udec. simpl. destruct (n <? 10); [discriminate|].
  destruct (Py.udec_fuel _ _); discriminate.
Qed.

Lemma rstrip_digits (s : string) : all_digits s = true -> Py.rstrip s = s.
Proof.
  induction s as [|c s IH]; simpl; intros H; [reflexivity|].
  apply andb_true_iff in H as [Hc Hs].
  rewrite (IH Hs). destruct s; [|reflexivity].
  now rewrite (is_digit_not_space c Hc).
Qed.

Lemma strip_digits (s : string) : all_digits s = true -> Py.strip s = s.
Proof.
  intros H. unfold Py.strip.
  destruct s as [|c s]; [reflexivity|].
  simpl in *. pose proof H as H'.
  apply andb_true_iff in H' as [Hc _].
  rewrite (is_digit_not_space c Hc).
  now apply (rstrip_digits (String c s)).
Qed.

Lemma digits_value_dval (s : string) :
  forall acc prev, all_digits s = true -> (s <> "" \/ prev = true) ->
  Py.digits_value acc prev s = Some (dval acc s).
Proof.
  induction s as [|c s IH]; simpl; intros acc prev H Hne.
  - destruct Hne as [Hne | ->]; [congruence | reflexivity].
  - apply andb_true_iff in H as [Hc Hs]. rewrite Hc.
    apply IH; auto.
Qed.

(** [int()] of a non-empty all-digit string is its positional value. *)
Lemma int_of_str_digits (s : string) :
  all_digits s = true -> s <> "" -> Py.int_of_str s = Ok (dval 0 s).
Proof.
  intros H Hne. unfold Py.int_of_str. rewrite (strip_digits s H).
  destruct s as [|c s]; [congruence|].
  pose proof H as H'. simpl in H'. apply andb_true_iff in H' as [Hc _].
  destruct (is_digit_not_sign c Hc) as [-> ->].
  now rewrite digits_value_dval by auto.
Qed.

(** A non-negative integer that fits in [w] digits prints as exactly [w]
    digits, and reads back as itself. *)
Lemma fmt_i_fits (w : nat) (n : Z) :
  (1 <= w)%nat -> 0 <= n < 10 ^ Z.of_nat w ->
  String.length (Py.fmt_i w n) = w /\
  all_digits (Py.fmt_i w n) = true /\
  Py.int_of_str (Py.fmt_i w n) = Ok n.
Proof.
  intros Hw Hn. unfold Py.fmt_i.
  destruct (Z.ltb_spec n 0); [lia|].
  unfold Py.zfill.
  assert (Hl : (String.length (Py.udec n) <= w)%nat)
    by (apply length_udec_fuel; auto).
  assert (Hd : all_digits (Py.udec n) = true)
    by (apply all_digits_udec_fuel; lia).
  assert (Ha : all_digits (Py.zeros (w - String.length (Py.udec n)) ++ Py.udec n)
               = true)
    by now rewrite all_digits_app, all_digits_zeros, Hd.
  repeat split.
  - rewrite length_app, length_zeros. lia.
  - exact Ha.
  - rewrite int_of_str_digits; auto.
    + now rewrite dval_app, dval_zeros, dval_udec by lia.
    + intros E. apply (udec_nonempty n).
      destruct (Py.zeros _); [exact E | discriminate].
Qed.

(** A one-digit integer printed with ["%i"]. *)
Lemma fmt_i_digit (n : Z) :
  0 <= n <= 9 -> Py.fmt_i 0 n = String (Py.digit_char n) "".
Proof.
  revert n. apply digit_cases. intros k Hk.
  do 10 (destruct k as [|k]; [reflexivity|]).
  lia.
Qed.

(** ** Lists: [index] then [getitem] *)

Lemma index_from_found {A : Type} (eqb : A -> A -> bool) (x : A) (l : list A) :
  forall k, (exists y, In y l /\ eqb y x = true) ->
  exists i y, Py.index_from eqb l x k = Ok i /\
              k <= i < k + Z.of_nat (List.length l) /\
              nth_error l (Z.to_nat (i - k)) = Some y /\ eqb y x = true.
Proof.
  induction l as [|a l IH]; intros k (y & Hin & Hy); [destruct Hin|].
  cbn [Py.index_from]. destruct (eqb a x) eqn:Ea.
  - exists k, a. rewrite Z.sub_diag. cbn [List.length]. repeat split; auto; lia.
  - destruct Hin as [-> | Hin]; [congruence|].
    destruct (IH (k + 1) (ex_intro _ y (conj Hin Hy))) as (i & z & Hi & Hr & Hn & Hz).
    exists i, z. cbn [List.length]. repeat split; auto; try lia.
    replace (Z.to_nat (i - k)) with (S (Z.to_nat (i - (k + 1)))) by lia.
    exact Hn.
Qed.

Lemma index_from_sound {A : Type} (eqb : A -> A -> bool) (x : A) (l : list A) :
  forall k i, Py.index_from eqb l x k = Ok i ->
  exists y, k <= i < k + Z.of_nat (List.length l) /\
            nth_error l (Z.to_nat (i - k)) = Some y /\ eqb y x = true.
Proof.
  induction l as [|a l IH]; intros k i H; [discriminate|].
  cbn [Py.index_from] in H. destruct (eqb a x) eqn:Ea.
  - injection H as <-. exists a. rewrite Z.sub_diag. cbn [List.length].
    repeat split; auto; lia.
  - destruct (IH _ _ H) as (y & Hr & Hn & Hy).
    exists y. cbn [List.length]. repeat split; auto; try lia.
    replace (Z.to_nat (i - k)) with (S (Z.to_nat (i - (k + 1)))) by lia.
    exact Hn.
Qed.

Lemma getitem_nth {A : Type} (l : list A) (i : Z) (y : A) :
  0 <= i -> nth_error l (Z.to_nat i) = Some y -> Py.getitem l i = Ok y.
Proof.
  intros Hi Hn. unfold Py.getitem.
  assert (Hlen : (Z.to_nat i < List.length l)%nat)
    by (apply nth_error_Some; congruence).
  destruct (Z.ltb_spec i 0); [lia|].
  destruct (Z.ltb_spec i 0); [lia|].
  destruct (Z.leb_spec (Z.of_nat (List.length l)) i); [lia|].
  cbn [orb]. now rewrite Hn.
Qed.

(** What [l.index(x)] returns, [l[...]] gives back an element equal to [x]. *)
Lemma index_sound {A : Type} (eqb : A -> A -> bool) (l : list A) (x : A) (i : Z) :
  Py.index eqb l x = Ok i ->
  exists y, 0 <= i < Z.of_nat (List.length l) /\
            Py.getitem l i = Ok y /\ eqb y x = true.
Proof.
  intros H. destruct (index_from_sound eqb x l 0 i H) as (y & Hr & Hn & Hy).
  rewrite Z.sub_0_r in Hn. exists y. repeat split; auto; try lia.
  apply getitem_nth; auto; lia.
Qed.

Lemma index_found {A : Type} (eqb : A -> A -> bool) (l : list A) (x : A) :
  existsb (fun y => eqb y x) l = true ->
  exists i y, Py.index eqb l x = Ok i /\
              0 <= i < Z.of_nat (List.length l) /\
              Py.getitem l i = Ok y /\ eqb y x = true.
Proof.
  intros H. apply existsb_exists in H.
  destruct (index_from_found eqb x l 0 H) as (i & y & Hi & Hr & Hn & Hy).
  rewrite Z.sub_0_r in Hn. exists i, y. repeat split; auto; try lia.
  apply getitem_nth; auto; lia.
Qed.

(** ** The wire layout seen by [_parse_mem] *)

Section Layout.

Context {imports : Imports}.

Lemma getitem_str_some (s : string) (i : nat) :
  (i < String.length s)%nat ->
  exists c, String.get i s = Some c /\ Py.getitem_str s i = Ok (String c "").
Proof.
  intros H. destruct (get_some s i H) as [c Hc].
  exists c. split; [exact Hc|]. unfold Py.getitem_str. now rewrite Hc.
Qed.

(** On a record long enough for every indexed position, [_parse_mem] is
    [parse_fields] on the slices. *)
Lemma parse_mem_slices (s : string) :
  (29 <= String.length s)%nat ->
  let spec := " " ++ s in
  exists c2 c5 c6 c7 c12,
    String.get 4 spec = Some c2 /\ String.get 18 spec = Some c5 /\
    String.get 19 spec = Some c6 /\ String.get 20 spec = Some c7 /\
    String.get 29 spec = Some c12 /\
    _parse_mem s =
    parse_fields spec (String c2 "") (Py.slice spec 5 7) (Py.slice spec 7 18)
      (String c5 "") (String c6 "") (String c7 "") (Py.slice spec 21 23)
      (Py.slice spec 23 25) (Py.slice spec 25 28) (String c12 "")
      (Py.slice spec 30 39) (Py.slice spec 39 41) (Py.slice spec 42 49).
Proof.
  intros Hlen spec.
  assert (HL : String.length spec = S (String.length s)) by reflexivity.
  destruct (getitem_str_some spec 4 ltac:(lia)) as (c2 & G2 & E2).
  destruct (getitem_str_some spec 18 ltac:(lia)) as (c5 & G5 & E5).
  destruct (getitem_str_some spec 19 ltac:(lia)) as (c6 & G6 & E6).
  destruct (getitem_str_some spec 20 ltac:(lia)) as (c7 & G7 & E7).
  destruct (getitem_str_some spec 29 ltac:(lia)) as (c12 & G12 & E12).
  exists c2, c5, c6, c7, c12. repeat (split; [assumption|]).
  unfold _parse_mem. fold spec.
  rewrite E2. cbn [bind]. rewrite E5. cbn [bind]. rewrite E6. cbn [bind].
  rewrite E7. cbn [bind]. rewrite E12. cbn [bind]. reflexivity.
Qed.

Lemma getitem_str_raise (s : string) (i : nat) (e : exn) :
  Py.getitem_str s i = Raise e -> e = IndexError.
Proof.
  unfold Py.getitem_str. destruct (String.get i s); congruence.
Qed.

(** A record too short for one of the indexed positions raises. *)
Lemma parse_mem_short (s : string) :
  (String.length s < 29)%nat -> _parse_mem s = Raise IndexError.
Proof.
  intros Hlen. unfold _parse_mem.
  set (spec := " " ++ s).
  assert (HL : String.length spec = S (String.length s)) by reflexivity.
  assert (E12 : Py.getitem_str spec 29 = Raise IndexError).
  { unfold Py.getitem_str. now rewrite get_none by lia. }
  destruct (Py.getitem_str spec 4) as [p2|e] eqn:E2;
    [|now rewrite (getitem_str_raise _ _ _ E2)].
  cbn [bind].
  destruct (Py.getitem_str spec 18) as [p5|e] eqn:E5;
    [|now rewrite (getitem_str_raise _ _ _ E5)].
  cbn [bind].
  destruct (Py.getitem_str spec 19) as [p6|e] eqn:E6;
    [|now rewrite (getitem_str_raise _ _ _ E6)].
  cbn [bind].
  destruct (Py.getitem_str spec 20) as [p7|e] eqn:E7;
    [|now rewrite (getitem_str_raise _ _ _ E7)].
  cbn [bind]. now rewrite E12.
Qed.

End Layout.

(** ** Index mapping of the sweep-limit channels *)

(** C1.  For every extended logical index [i] in UPPER+1 .. UPPER+20,
    [_get_range_end_mem i] is the pair (half, base) with
    delta = i - UPPER - 1, half = delta mod 2 and
    base = floor(delta / 2) + UPPER + 1; the base is an extended wire number,
    and the renumbering [_parse_mem] applies to it, with the half printed as
    the digit [spec[3]], gives [i] back. *)
Theorem range_end_index_roundtrip (i : Z) :
  _UPPER + 1 <= i <= _UPPER + 20 ->
  let delta := i - _UPPER - 1 in
  let half := fst (_get_range_end_mem i) in
  let base := snd (_get_range_end_mem i) in
  half = delta mod 2 /\
  base = delta / 2 + _UPPER + 1 /\
  _UPPER < base /\
  extended_mnum base (Py.fmt_i 0 half) =
    _UPPER + (base - _UPPER) * 2 - 1 + (if half =? 1 then 1 else 0) /\
  extended_mnum base (Py.fmt_i 0 half) = i.
Proof.
  unfold _UPPER. intros H. cbv zeta.
  unfold _get_range_end_mem, _UPPER. cbn [fst snd].
  set (d := i - 289 - 1). assert (Hd : 0 <= d <= 19) by (subst d; lia).
  rewrite Z.quot_div_nonneg by lia.
  pose proof (Z.div_mod d 2 ltac:(lia)) as Hdm.
  pose proof (Z.mod_pos_bound d 2 ltac:(lia)) as Hm.
  assert (Hq : 0 <= d / 2) by (apply Z.div_pos; lia).
  assert (E : d mod 2 = 0 \/ d mod 2 = 1) by lia.
  unfold extended_mnum, _UPPER.
  destruct E as [E | E]; rewrite E; cbn [Z.eqb];
    change (Py.fmt_i 0 0) with "0"; change (Py.fmt_i 0 1) with "1";
    cbn [String.eqb Ascii.eqb Bool.eqb]; repeat split; subst d; lia.
Qed.

Lemma range_end_index_roundtrip_witness :
  _UPPER + 1 <= 293 <= _UPPER + 20 /\
  fst (_get_range_end_mem 293) = 1 /\
  snd (_get_range_end_mem 293) = 291 /\
  extended_mnum (snd (_get_range_end_mem 293))
    (Py.fmt_i 0 (fst (_get_range_end_mem 293))) = 293.
Proof.
  assert (H : _UPPER + 1 <= 293 <= _UPPER + 20) by (unfold _UPPER; lia).
  split; [exact H|].
  split; [reflexivity|]. split; [reflexivity|].
  exact (proj2 (proj2 (proj2 (proj2 (range_end_index_roundtrip 293 H))))).
Defined.

(** ** Settings get and set *)

Section SettingsFacts.

Context {transport : Transport}.

(** C7.  When the radio answers [resp] to the bare key: if [resp] starts
    with the key the result is the key with the payload that follows it; a
    response equal to the key gives the empty payload; a response that does
    not start with the key raises "Radio refused to return <key>".  The key
    is sent exactly once and nothing else is. *)
Theorem kenwood_simple_get_spec (cmd resp : string) (h : list call) :
  radio_response h cmd = Ok resp ->
  snd (_kenwood_simple_get cmd h) = (h ++ [Command cmd])%list /\
  (String.prefix cmd resp = true ->
     fst (_kenwood_simple_get cmd h) =
       Ok (cmd, Py.slice_from resp (String.length cmd)) /\
     resp = cmd ++ Py.slice_from resp (String.length cmd)) /\
  (resp = cmd -> fst (_kenwood_simple_get cmd h) = Ok (cmd, "")) /\
  (String.prefix cmd resp = false ->
     fst (_kenwood_simple_get cmd h) =
       Raise (RadioError ("Radio refused to return " ++ cmd))).
Proof.
  intros Hr.
  assert (Hp : forall b, String.prefix cmd resp = b ->
    _kenwood_simple_get cmd h =
    (if b then Ok (cmd, Py.slice_from resp (String.length cmd))
     else Raise (RadioError ("Radio refused to return " ++ cmd)),
     (h ++ [Command cmd])%list)).
  { intros b Hb. unfold _kenwood_simple_get, io_bind, _command.
    rewrite Hr. unfold Py.slice. rewrite Nat.sub_0_r, <- prefix_slice, Hb.
    destruct b; [reflexivity|].
    destruct (String.eqb_spec resp cmd) as [-> | _]; [|reflexivity].
    rewrite <- (app_empty_r cmd) in Hb at 2. now rewrite prefix_app in Hb. }
  split; [|split; [|split]].
  - now rewrite (Hp _ eq_refl).
  - intros Hb. rewrite (Hp _ Hb). split; [reflexivity|].
    now apply prefix_split.
  - intros ->.
    assert (Hb : String.prefix cmd cmd = true).
    { rewrite <- (app_empty_r cmd) at 2. apply prefix_app. }
    rewrite (Hp _ Hb). cbn [fst]. unfold Py.slice_from.
    rewrite Nat.sub_diag. do 2 f_equal.
    clear. induction cmd as [|c s IH]; [reflexivity | exact IH].
  - intros Hb. now rewrite (Hp _ Hb).
Qed.

End SettingsFacts.

Lemma kenwood_simple_get_spec_witness :
  fst (@_kenwood_simple_get (constant_radio "EX00100001") "EX0010000" []) =
    Ok ("EX0010000", "1") /\
  fst (@_kenwood_simple_get (constant_radio "EX0010000") "EX0010000" []) =
    Ok ("EX0010000", "") /\
  fst (@_kenwood_simple_get (constant_radio "?") "EX0010000" []) =
    Raise (RadioError "Radio refused to return EX0010000").
Proof.
  split; [|split].
  - destruct (@kenwood_simple_get_spec (constant_radio "EX00100001")
                "EX0010000" "EX00100001" [] eq_refl) as (_ & H & _).
    exact (proj1 (H eq_refl)).
  - destruct (@kenwood_simple_get_spec (constant_radio "EX0010000")
                "EX0010000" "EX0010000" [] eq_refl) as (_ & _ & H & _).
    exact (H eq_refl).
  - destruct (@kenwood_simple_get_spec (constant_radio "?")
                "EX0010000" "?" [] eq_refl) as (_ & _ & _ & H).
    exact (H eq_refl).
Defined.

Section SetFacts.

Context {transport : Transport}.

(** C8.  When the collaborators do not fail, [_kenwood_set key value] makes
    exactly three calls, in this order: the priming request for the key
    (enable), the command key + value + ";" + key, and the priming request
    for the key (disable).  With [resp] the answer to the command, it raises
    "Radio refused to set <key>" if and only if [resp] differs from
    key + value, and returns normally otherwise. *)
Theorem kenwood_set_spec (cmd value resp : string) (h : list call) :
  let h1 := (h ++ [Prerequisite cmd false true])%list in
  let sent := cmd ++ value ++ ";" ++ cmd in
  let h2 := (h1 ++ [Command sent])%list in
  radio_prerequisite h cmd false true = Ok tt ->
  radio_response h1 sent = Ok resp ->
  radio_prerequisite h2 cmd false false = Ok tt ->
  snd (_kenwood_set cmd value h) =
    (h ++ [Prerequisite cmd false true; Command sent;
           Prerequisite cmd false false])%list /\
  (fst (_kenwood_set cmd value h) =
     Raise (RadioError ("Radio refused to set " ++ cmd))
   <-> resp <> cmd ++ value) /\
  (fst (_kenwood_set cmd value h) = Ok tt <-> resp = cmd ++ value).
Proof.
  intros h1 sent h2 P1 R P2.
  assert (E : _kenwood_set cmd value h =
    (if String.eqb resp (cmd ++ value) then Ok tt
     else Raise (RadioError ("Radio refused to set " ++ cmd)),
     (h ++ [Prerequisite cmd false true; Command sent;
            Prerequisite cmd false false])%list)).
  { unfold _kenwood_set, io_bind, _do_prerequisite, _command.
    rewrite P1. unfold _CMD_DELIMITER, _ARG_DELIMITER.
    fold sent. fold h1. rewrite R. fold h2. rewrite P2.
    cbn [append].
    replace ((h2 ++ [Prerequisite cmd false false])%list)
      with ((h ++ [Prerequisite cmd false true; Command sent;
                   Prerequisite cmd false false])%list)
      by (subst h2 h1; now rewrite <- !List.app_assoc).
    destruct (String.eqb resp (cmd ++ value)); reflexivity. }
  rewrite E. cbn [fst snd]. split; [reflexivity|].
  destruct (String.eqb_spec resp (cmd ++ value)) as [He | Hne]; split; split;
    intros H; try reflexivity; try congruence; try discriminate.
Qed.

End SetFacts.

Lemma kenwood_set_spec_witness :
  @_kenwood_set (constant_radio "EX00100001") "EX0010000" "1" [] =
    (Ok tt, [Prerequisite "EX0010000" false true;
             Command "EX00100001;EX0010000";
             Prerequisite "EX0010000" false false]) /\
  fst (@_kenwood_set (constant_radio "EX00100000") "EX0010000" "1" []) =
    Raise (RadioError "Radio refused to set EX0010000").
Proof.
  destruct (@kenwood_set_spec (constant_radio "EX00100001")
              "EX0010000" "1" "EX00100001" [] eq_refl eq_refl eq_refl)
    as (Ht & _ & Hok).
  destruct (@kenwood_set_spec (constant_radio "EX00100000")
              "EX0010000" "1" "EX00100000" [] eq_refl eq_refl eq_refl)
    as (_ & Hbad & _).
  split.
  - rewrite (surjective_pairing (_kenwood_set _ _ _)).
    rewrite Ht. rewrite (proj2 Hok eq_refl). reflexivity.
  - apply (proj2 Hbad). discriminate.
Defined.

(** ** Split frequency *)

Section SplitFacts.

Context {imports : Imports}.

(** C10.  Given a decoded record [mem] and a split response whose frequency
    field (padded positions 7..17) reads as [f]: [_parse_split] returns a
    record whose duplex is "split" and whose offset is [f] exactly when [f]
    differs from [freq mem]; when they are equal it returns [mem] itself.
    In both cases every field other than duplex and offset is that of
    [mem]. *)
Theorem parse_split_frame (mem : Memory) (spec : string) (f : Z) :
  Py.int_of_str (Py.slice (" " ++ spec) 7 18) = Ok f ->
  exists mem',
    _parse_split mem spec = Ok mem' /\
    (f <> freq mem -> duplex mem' = "split" /\ offset mem' = f) /\
    (f = freq mem -> mem' = mem) /\
    number mem' = number mem /\ extd_number mem' = extd_number mem /\
    freq mem' = freq mem /\ mode mem' = mode mem /\
    tuning_step mem' = tuning_step mem /\ skip mem' = skip mem /\
    tmode mem' = tmode mem /\ rtone mem' = rtone mem /\
    ctone mem' = ctone mem /\ dtcs mem' = dtcs mem /\
    name mem' = name mem /\ empty mem' = empty mem /\
    immutable mem' = immutable mem.
Proof.
  intros Hf. unfold _parse_split. rewrite Hf. cbn [bind].
  destruct (Z.eqb_spec (freq mem) f) as [E | E]; cbn [negb].
  - exists mem. split; [reflexivity|].
    split; [congruence|]. split; [reflexivity|]. repeat split.
  - eexists. split; [reflexivity|].
    split; [intros _; split; reflexivity|].
    split; [congruence|]. repeat split.
Qed.

End SplitFacts.

Lemma parse_split_frame_witness :
  exists mem',
    _parse_split test_mem "MR100500014300000200000000000000000000000" =
      Ok mem' /\
    duplex mem' = "split" /\ offset mem' = 14300000 /\
    freq mem' = 14205000 /\ name mem' = "TEST".
Proof.
  destruct (parse_split_frame test_mem
              "MR100500014300000200000000000000000000000" 14300000 eq_refl)
    as (mem' & E & Hne & _ & _ & _ & Hf & _ & _ & _ & _ & _ & _ & _ & Hn & _).
  exists mem'. split; [exact E|].
  destruct (Hne ltac:(discriminate)) as [Hd Ho].
  repeat split; assumption.
Defined.

(** ** The spec builders *)

Section BuilderFacts.

Context {imports : Imports}.

(** The tuple a builder returns, given the local values it computed. *)
Lemma make_mem_spec_ok (memid : string) (mem : Memory) (spec : list string) :
  _make_mem_spec memid mem = Ok spec ->
  exists duplex_ offset_ step rtone_ ctone_ dtcs_ mode_ tmode_,
    encode_step mem = Ok step /\
    encode_tones mem = Ok (rtone_, ctone_, dtcs_) /\
    get_dict_rev _MODES (mode mem) = Ok mode_ /\
    Py.index String.eqb _TMODES (tmode mem) = Ok tmode_ /\
    ((Py.contains (duplex mem) " +-" = true /\
      get_dict_rev _DUPLEX (duplex mem) = Ok duplex_ /\
      offset_ = offset mem) \/
     (Py.contains (duplex mem) " +-" = false /\ duplex mem = "split" /\
      duplex_ = 0 /\ offset_ = 0)) /\
    spec = [ Py.fmt_i 11 (freq mem); Py.fmt_i 0 mode_;
             Py.fmt_bool (String.eqb (skip mem) "S"); Py.fmt_i 0 tmode_;
             Py.fmt_i 2 rtone_; Py.fmt_i 2 ctone_; Py.fmt_i 3 dtcs_; "0";
             Py.fmt_i 0 duplex_; Py.fmt_i 9 offset_; Py.fmt_i 2 step; "0";
             name mem ].
Proof.
  unfold _make_mem_spec. intros H.
  destruct (Py.contains (duplex mem) " +-") eqn:Ec.
  - destruct (get_dict_rev _DUPLEX (duplex mem)) as [d|] eqn:Ed;
      [cbn [bind] in H | discriminate].
    destruct (encode_step mem) as [st|]; [cbn [bind] in H | discriminate].
    destruct (encode_tones mem) as [[[r c] t]|]; [cbn [bind] in H | discriminate].
    destruct (get_dict_rev _MODES (mode mem)) as [mo|];
      [cbn [bind] in H | discriminate].
    destruct (Py.index String.eqb _TMODES (tmode mem)) as [tm|];
      [cbn [bind] in H | discriminate].
    injection H as <-.
    exists d, (offset mem), st, r, c, t, mo, tm.
    do 4 (split; [reflexivity|]).
    split; [left; repeat split; assumption | reflexivity].
  - destruct (String.eqb_spec (duplex mem) "split") as [Es|];
      [cbn [bind] in H | discriminate].
    destruct (encode_step mem) as [st|]; [cbn [bind] in H | discriminate].
    destruct (encode_tones mem) as [[[r c] t]|]; [cbn [bind] in H | discriminate].
    destruct (get_dict_rev _MODES (mode mem)) as [mo|];
      [cbn [bind] in H | discriminate].
    destruct (Py.index String.eqb _TMODES (tmode mem)) as [tm|];
      [cbn [bind] in H | discriminate].
    injection H as <-.
    exists 0, 0, st, r, c, t, mo, tm.
    do 4 (split; [reflexivity|]).
    split; [right; repeat split; assumption | reflexivity].
Qed.

(** A duplex that is neither a substring of " +-" nor "split" reaches the
    logging statement in both builders, which fails on the unbound name. *)
Lemma unsupported_duplex_raises (memid : string) (mem : Memory) :
  Py.contains (duplex mem) " +-" = false -> duplex mem <> "split" ->
  _make_mem_spec memid mem = Raise (NameError "LOG") /\
  _make_split_spec memid mem = Raise (NameError "LOG").
Proof.
  intros Hc Hs. unfold _make_mem_spec, _make_split_spec. rewrite Hc.
  apply String.eqb_neq in Hs. rewrite Hs. split; reflexivity.
Qed.

Lemma get_dict_rev_in (d : list (Z * string)) (v : string) (k : Z) :
  get_dict_rev d v = Ok k -> In v (map snd d).
Proof.
  induction d as [|[k' v'] d IH]; cbn [get_dict_rev map snd In]; intros H;
    [discriminate|].
  destruct (get_dict_rev d v) as [k0|e].
  - right. now apply IH.
  - destruct (String.eqb_spec v' v) as [->|]; [now left | discriminate].
Qed.

(** No record whose duplex is outside '', '+', '-', '=', 'split' is turned
    into a tuple by either builder. *)
Lemma unknown_duplex_no_spec (memid : string) (mem : Memory) :
  ~ In (duplex mem) [""; "+"; "-"; "="; "split"] ->
  (exists e, _make_mem_spec memid mem = Raise e) /\
  (exists e, _make_split_spec memid mem = Raise e).
Proof.
  intros Hn. destruct (Py.contains (duplex mem) " +-") eqn:Ec.
  - assert (Hk : exists e, get_dict_rev _DUPLEX (duplex mem) = Raise e).
    { destruct (get_dict_rev _DUPLEX (duplex mem)) as [k|e] eqn:Ek;
        [|now exists e].
      exfalso. apply Hn. apply get_dict_rev_in in Ek. exact Ek. }
    destruct Hk as [e He].
    unfold _make_mem_spec, _make_split_spec. rewrite Ec, He.
    split; exists e; reflexivity.
  - assert (Hs : duplex mem <> "split").
    { intros E. apply Hn. rewrite E. cbn. tauto. }
    destruct (unsupported_duplex_raises memid mem Ec Hs) as [H1 H2].
    split; eexists; eassumption.
Qed.

End BuilderFacts.

(** C9.  A record whose duplex is "off" (outside '', '+', '-', '=', 'split')
    makes both builders stop with the [NameError] of the unbound name [LOG]:
    no wire spec is produced, and the statement that was to log the defect
    never runs.  A duplex of one blank passes the substring test and stops
    with the [KeyError] of the table lookup, before any logging statement. *)
Theorem unsupported_duplex_not_logged :
  _make_mem_spec "005" (set_duplex "off" test_mem) = Raise (NameError "LOG") /\
  _make_split_spec "005" (set_duplex "off" test_mem) = Raise (NameError "LOG") /\
  _make_mem_spec "005" (set_duplex " " test_mem) = Raise KeyError /\
  _make_split_spec "005" (set_duplex " " test_mem) = Raise KeyError.
Proof. repeat split; reflexivity. Qed.

(** ** Tuning steps *)

Lemma steps_for_spec (md : string) :
  steps_for md =
  if String.eqb md "AM" || String.eqb md "FM" then _FM_STEPS else _SSB_STEPS.
Proof.
  unfold steps_for, Py.in_list. cbn [existsb]. now rewrite orb_false_r.
Qed.

Section StepFacts.

Context {imports : Imports}.

(** What a successful non-empty decode says about mode and step. *)
Lemma parse_fields_mode_step (spec p2 p3 p4 p5 p6 p7 p8 p9 p10 p12 p13 p14 p16
  : string) (mem' : Memory) :
  parse_fields spec p2 p3 p4 p5 p6 p7 p8 p9 p10 p12 p13 p14 p16 = Ok mem' ->
  p5 <> "0" ->
  exists c i,
    Py.int_of_str p5 = Ok c /\ Py.dict_getitem _MODES c = Ok (mode mem') /\
    Py.int_of_str p14 = Ok i /\
    Py.getitem (steps_for (mode mem')) i = Ok (tuning_step mem').
Proof.
  intros H Hne. unfold parse_fields in H. cbv zeta in H.
  bind_ok H. bind_ok H.
  apply String.eqb_neq in Hne. rewrite Hne in H.
  bind_ok H. bind_ok H. bind_ok H. bind_ok H. bind_ok H.
  cbn [mode set_mode set_freq set_tuning_step] in *.
  bind_ok H.
  destruct a6.
  - injection H as <-. cbn. eauto 10.
  - repeat bind_ok H. injection H as <-. cbn. eauto 10.
Qed.

End StepFacts.

(** ** Empty records and sweep-limit sub-channels *)

Lemma mnum_field (spec : string) (c2 : ascii) :
  String.get 4 spec = Some c2 ->
  String c2 "" ++ Py.slice spec 5 7 = Py.slice spec 4 7.
Proof.
  intros G. unfold Py.slice.
  change (7 - 5)%nat with 2%nat. change (7 - 4)%nat with (1 + 2)%nat.
  rewrite <- (substring_one spec 4 c2 G).
  apply (substring_split spec 4 1 2).
Qed.

Section DecodeFacts.

Context {imports : Imports}.

(** C5 (amended).  For every response of at least 29 characters whose
    channel-number field (padded positions 4..6) reads as an integer [mnum]
    (with the name lookup succeeding when [mnum] is beyond UPPER) and whose
    mode character (padded position 18, P5 of the Kenwood layout) is '0',
    [_parse_mem] returns a record with [empty] set, numbered from the
    header, whose frequency, mode, step, skip, tone mode, tones, DTCS code,
    duplex, offset and name are those of a fresh memory: none of these
    fields of the response is read.  The immutable list is set exactly when
    the number is beyond UPPER and [spec[3]] is '1'. *)
Theorem parse_mem_empty_flag (s s3 : string) (mnum : Z) :
  (29 <= String.length s)%nat ->
  Py.getitem_str (" " ++ s) 3 = Ok s3 ->
  Py.int_of_str (Py.slice (" " ++ s) 4 7) = Ok mnum ->
  Py.getitem_str (" " ++ s) 18 = Ok "0" ->
  (_UPPER < mnum ->
   exists memid, _index_to_memid (extended_mnum mnum s3) = Ok memid) ->
  exists mem,
    _parse_mem s = Ok mem /\ empty mem = true /\
    number mem = (if mnum >? _UPPER then extended_mnum mnum s3 else mnum) /\
    (_UPPER < mnum -> _index_to_memid (number mem) = Ok (extd_number mem)) /\
    immutable mem =
      (if (number mem >? _UPPER) && String.eqb s3 "1" then immutable_fields
       else immutable Memory_new) /\
    freq mem = freq Memory_new /\ mode mem = mode Memory_new /\
    tuning_step mem = tuning_step Memory_new /\ skip mem = skip Memory_new /\
    tmode mem = tmode Memory_new /\ rtone mem = rtone Memory_new /\
    ctone mem = ctone Memory_new /\ dtcs mem = dtcs Memory_new /\
    duplex mem = duplex Memory_new /\ offset mem = offset Memory_new /\
    name mem = name Memory_new.
Proof.
  intros Hl H3 Hn H5 Hid.
  destruct (parse_mem_slices s Hl)
    as (c2 & c5 & c6 & c7 & c12 & G2 & G5 & _ & _ & _ & E).
  rewrite E. clear E.
  unfold Py.getitem_str in H5. rewrite G5 in H5. injection H5 as ->.
  unfold parse_fields. cbv zeta.
  rewrite (mnum_field _ _ G2), Hn. cbn [bind].
  destruct (Z.gtb_spec mnum _UPPER) as [Hgt | Hle].
  - rewrite H3. cbn [bind].
    destruct (Hid ltac:(lia)) as [memid Hm]. rewrite Hm. cbn [bind].
    change (String.eqb "0" "0") with true. cbv iota.
    unfold is_flagged_extended. cbn [number set_number set_empty].
    destruct (extended_mnum mnum s3 >? _UPPER) eqn:Ex; cbn [andb].
    + rewrite H3. cbn [bind].
      destruct (String.eqb s3 "1"); eexists; (split; [reflexivity|]);
        cbn; rewrite Ex; cbn [andb]; repeat split; auto.
    + cbn [bind]. eexists. split; [reflexivity|]. cbn. rewrite Ex.
      repeat split; auto.
  - cbn [bind]. change (String.eqb "0" "0") with true. cbv iota.
    unfold is_flagged_extended. cbn [number set_number set_empty].
    destruct (Z.gtb_spec mnum _UPPER) as [|_]; [lia|]. cbn [bind andb].
    eexists. split; [reflexivity|]. cbn.
    destruct (Z.gtb_spec mnum _UPPER) as [|_]; [lia|].
    repeat split; auto. lia.
Qed.

End DecodeFacts.

Lemma parse_mem_empty_flag_witness :
  exists mem,
    _parse_mem "MR12900000000000000000000000000000000000000" = Ok mem /\
    empty mem = true /\ number mem = 291 /\
    immutable mem = immutable_fields /\ freq mem = 0 /\ name mem = "".
Proof.
  destruct (@parse_mem_empty_flag sample_imports
              "MR12900000000000000000000000000000000000000" "1" 290
              ltac:(cbn; lia) eq_refl eq_refl eq_refl
              (fun _ => ex_intro _ "290 End" eq_refl))
    as (mem & E & He & Hn & _ & Hi & Hf & _ & _ & _ & _ & _ & _ & _ & _ & _
        & Hname).
  exists mem.
  split; [exact E|]. split; [exact He|]. split; [exact Hn|].
  split; [rewrite Hn in Hi; exact Hi|]. split; [exact Hf | exact Hname].
Defined.

(** C5, the claim as stated fails: the all-zero response cut after the mode
    character has '0' at padded position 5 and at the mode position 18, yet
    [_parse_mem] raises [IndexError] at [spec[19]] and returns no record. *)
Lemma parse_mem_empty_flag_truncated :
  Py.getitem_str (" " ++ "MR0005000000000000") 5 = Ok "0" /\
  Py.getitem_str (" " ++ "MR0005000000000000") 18 = Ok "0" /\
  _parse_mem "MR0005000000000000" = Raise IndexError /\
  ~ (exists mem, _parse_mem "MR0005000000000000" = Ok mem /\ empty mem = true).
Proof.
  repeat split; try reflexivity.
  intros (mem & H & _). discriminate H.
Qed.

Section SubChannelFacts.

Context {imports : Imports}.

(** C6 (amended).  For every response of at least 29 characters whose
    channel-number field reads as an extended number [mnum] (beyond UPPER),
    whose sub-flag character [spec[3]] is '1' -- the half
    [_get_range_end_mem] calls "end" -- and whose mode character is not '0':
    when the frequency, mode and step fields decode, [_parse_mem] returns a
    record numbered 2 * mnum - UPPER carrying that frequency, mode and step,
    with the ten-field immutable list set, and with skip, tone mode, tones,
    DTCS code, duplex, offset and name left as in a fresh memory. *)
Theorem parse_mem_end_subchannel (s p5 md memid : string) (mnum f c i : Z)
  (st : Q) :
  (29 <= String.length s)%nat ->
  Py.int_of_str (Py.slice (" " ++ s) 4 7) = Ok mnum ->
  _UPPER < mnum ->
  Py.getitem_str (" " ++ s) 3 = Ok "1" ->
  _index_to_memid (extended_mnum mnum "1") = Ok memid ->
  Py.getitem_str (" " ++ s) 18 = Ok p5 ->
  p5 <> "0" ->
  Py.int_of_str (Py.slice (" " ++ s) 7 18) = Ok f ->
  Py.int_of_str p5 = Ok c ->
  Py.dict_getitem _MODES c = Ok md ->
  Py.int_of_str (Py.slice (" " ++ s) 39 41) = Ok i ->
  Py.getitem (steps_for md) i = Ok st ->
  exists mem,
    _parse_mem s = Ok mem /\
    number mem = 2 * mnum - _UPPER /\ _UPPER < number mem /\
    extd_number mem = memid /\
    freq mem = f /\ mode mem = md /\ tuning_step mem = st /\
    immutable mem = immutable_fields /\
    empty mem = empty Memory_new /\ skip mem = skip Memory_new /\
    tmode mem = tmode Memory_new /\ rtone mem = rtone Memory_new /\
    ctone mem = ctone Memory_new /\ dtcs mem = dtcs Memory_new /\
    duplex mem = duplex Memory_new /\ offset mem = offset Memory_new /\
    name mem = name Memory_new.
Proof.
  intros Hl Hn Hgt H3 Hid H5 Hne Hf Hc Hmd Hi Hst.
  destruct (parse_mem_slices s Hl)
    as (c2 & c5 & c6 & c7 & c12 & G2 & G5 & _ & _ & _ & E).
  rewrite E. clear E.
  unfold Py.getitem_str in H5. rewrite G5 in H5. injection H5 as <-.
  unfold parse_fields. cbv zeta.
  rewrite (mnum_field _ _ G2), Hn. cbn [bind].
  destruct (Z.gtb_spec mnum _UPPER) as [_ | Hle]; [|lia].
  rewrite H3. cbn [bind]. rewrite Hid. cbn [bind].
  apply String.eqb_neq in Hne. rewrite Hne.
  rewrite Hf. cbn [bind]. rewrite Hc. cbn [bind]. rewrite Hmd. cbn [bind].
  rewrite Hi. cbn [bind].
  cbn [mode set_mode set_freq set_number set_extd_number].
  rewrite Hst. cbn [bind].
  assert (Ex : extended_mnum mnum "1" = 2 * mnum - _UPPER).
  { unfold extended_mnum. cbn [String.eqb Ascii.eqb Bool.eqb]. lia. }
  unfold is_flagged_extended.
  cbn [number set_number set_extd_number set_freq set_mode set_tuning_step].
  rewrite Ex.
  destruct (Z.gtb_spec (2 * mnum - _UPPER) _UPPER) as [_ | Hle']; [|lia].
  rewrite H3. cbn [bind String.eqb Ascii.eqb Bool.eqb].
  eexists. split; [reflexivity|].
  cbn [number extd_number freq mode tuning_step immutable empty skip tmode
       rtone ctone dtcs duplex offset name set_immutable set_tuning_step
       set_mode set_freq set_number set_extd_number].
  repeat split; auto. unfold _UPPER in *. lia.
Qed.

End SubChannelFacts.

Lemma parse_mem_end_subchannel_witness :
  exists mem,
    _parse_mem "MR129000014205000211080800001000100000000TEST" = Ok mem /\
    number mem = 291 /\ extd_number mem = "290 End" /\
    freq mem = 14205000 /\ mode mem = "USB" /\
    immutable mem = immutable_fields /\ name mem = "" /\ duplex mem = "".
Proof.
  destruct (@parse_mem_end_subchannel sample_imports
              "MR129000014205000211080800001000100000000TEST"
              "2" "USB" "290 End" 290 14205000 2 0 1%Q
              ltac:(cbn; lia) eq_refl ltac:(unfold _UPPER; lia) eq_refl eq_refl
              eq_refl ltac:(discriminate) eq_refl eq_refl eq_refl eq_refl
              eq_refl)
    as (mem & E & Hn & _ & He & Hf & Hm & _ & Hi & _ & _ & _ & _ & _ & _ & Hd
        & _ & Hname).
  exists mem.
  split; [exact E|]. split; [exact Hn|]. split; [exact He|].
  split; [exact Hf|]. split; [exact Hm|]. split; [exact Hi|].
  split; [exact Hname | exact Hd].
Defined.

(** C6, the claim as stated fails: the response for wire number 290 with
    sub-flag '0' decodes to logical number 290, the entry "290 Start" of
    [_SPECIAL_CHANS]; it is not empty, yet every field is decoded from the
    response and the immutable list is left empty.  The same response with
    sub-flag '1' decodes to number 291, "290 End", and that one is cut
    short and marked. *)
Lemma parse_mem_start_subchannel_mutable :
  nth_error _SPECIAL_CHANS (Z.to_nat (290 - _UPPER - 1)) = Some "290 Start" /\
  nth_error _SPECIAL_CHANS (Z.to_nat (291 - _UPPER - 1)) = Some "290 End" /\
  _parse_mem "MR029000014205000211080800001000100000000TEST" =
    Ok {| number := 290; extd_number := "290 Start"; freq := 14205000;
          mode := "USB"; tuning_step := 1%Q; skip := "S"; tmode := "Tone";
          rtone := (885 # 10)%Q; ctone := (885 # 10)%Q; dtcs := 23;
          duplex := "+"; offset := 100000; name := "TEST"; empty := false;
          immutable := [] |} /\
  _parse_mem "MR129000014205000211080800001000100000000TEST" =
    Ok {| number := 291; extd_number := "290 End"; freq := 14205000;
          mode := "USB"; tuning_step := 1%Q; skip := ""; tmode := "";
          rtone := (885 # 10)%Q; ctone := (885 # 10)%Q; dtcs := 23;
          duplex := ""; offset := 600000; name := ""; empty := false;
          immutable := immutable_fields |}.
Proof. repeat split; reflexivity. Qed.

(** ** Encoding then decoding a memory *)

Lemma slice_whole3 (n1 : string) :
  String.length n1 = 3%nat -> Py.slice n1 0 1 ++ Py.slice n1 1 3 = n1.
Proof.
  intros H. unfold Py.slice.
  change (1 - 0)%nat with 1%nat. change (3 - 1)%nat with 2%nat.
  transitivity (substring 0 3 n1);
    [exact (substring_split n1 0 1 2) | apply substring_all; lia].
Qed.

Section RoundTrip.

Context {imports : Imports}.

(** The response to a read of a normal channel, cut into its fields. *)
Lemma parse_mem_layout (n1 f4 p5 p6 p7 f8 f9 f10 r11 p12 f13 f14 g15 nm
  : string) :
  String.length n1 = 3%nat -> String.length f4 = 11%nat ->
  String.length p5 = 1%nat -> String.length p6 = 1%nat ->
  String.length p7 = 1%nat -> String.length f8 = 2%nat ->
  String.length f9 = 2%nat -> String.length f10 = 3%nat ->
  String.length r11 = 1%nat -> String.length p12 = 1%nat ->
  String.length f13 = 9%nat -> String.length f14 = 2%nat ->
  String.length g15 = 1%nat -> (String.length nm <= 7)%nat ->
  let wire :=
    "MR" ++ "0" ++ n1 ++
    join [f4; p5; p6; p7; f8; f9; f10; r11; p12; f13; f14; g15; nm] in
  _parse_mem wire =
  parse_fields (" " ++ wire) (Py.slice n1 0 1) (Py.slice n1 1 3) f4 p5 p6 p7
    f8 f9 f10 p12 f13 f14 nm.
Proof.
  intros H1 H4 H5 H6 H7 H8 H9 H10 H11 H12 H13 H14 H15 Hnm wire.
  subst wire.
  explode n1 H1. explode f4 H4. explode p5 H5. explode p6 H6.
  explode p7 H7. explode f8 H8. explode f9 H9. explode f10 H10.
  explode r11 H11. explode p12 H12. explode f13 H13. explode f14 H14.
  explode g15 H15.
  unfold _parse_mem.
  cbn [Py.getitem_str Py.slice String.get substring append Nat.sub bind join
       String.concat].
  now rewrite (substring_all nm 7 Hnm).
Qed.

(** Each one-character field: a digit printed with ["%i"]. *)
Lemma fmt_i_digit_facts (n : Z) :
  0 <= n <= 9 ->
  String.length (Py.fmt_i 0 n) = 1%nat /\
  Py.int_of_str (Py.fmt_i 0 n) = Ok n /\
  String.eqb (Py.fmt_i 0 n) "0" = (n =? 0).
Proof.
  revert n. apply digit_cases. intros k Hk.
  do 10 (destruct k as [|k]; [repeat split; reflexivity|]).
  lia.
Qed.

Lemma mode_code (md : string) :
  In md ["LSB"; "USB"; "CW"; "FM"; "AM"; "FSK"; "CW-R"; "FSK-R"] ->
  exists c, get_dict_rev _MODES md = Ok c /\ 1 <= c <= 9 /\
            Py.dict_getitem _MODES c = Ok md.
Proof.
  intros H. cbn [In] in H.
  repeat (destruct H as [<- | H];
          [eexists; split; [reflexivity|]; split; [lia | reflexivity]|]).
  destruct H.
Qed.

Lemma duplex_code (d : string) :
  In d [""; "+"; "-"] ->
  Py.contains d " +-" = true /\
  exists c, get_dict_rev _DUPLEX d = Ok c /\ 0 <= c <= 9 /\
            Py.dict_getitem _DUPLEX c = Ok d.
Proof.
  intros H. cbn [In] in H.
  repeat (destruct H as [<- | H];
          [split; [reflexivity|]; eexists; split; [reflexivity|];
           split; [lia | reflexivity]|]).
  destruct H.
Qed.

Lemma tmode_code (t : string) :
  In t ["Tone"; "TSQL"; "DTCS"] ->
  String.eqb t "" = false /\
  exists c, Py.index String.eqb _TMODES t = Ok c /\ 0 <= c <= 9 /\
            Py.getitem _TMODES c = Ok t.
Proof.
  intros H. cbn [In] in H.
  repeat (destruct H as [<- | H];
          [split; [reflexivity|]; eexists; split; [reflexivity|];
           split; [lia | reflexivity]|]).
  destruct H.
Qed.

Lemma skip_code (k : string) :
  In k [""; "S"] ->
  String.length (Py.fmt_bool (String.eqb k "S")) = 1%nat /\
  exists c, Py.int_of_str (Py.fmt_bool (String.eqb k "S")) = Ok c /\
            Py.getitem [""; "S"] c = Ok k.
Proof.
  intros H. cbn [In] in H.
  repeat (destruct H as [<- | H];
          [split; [reflexivity|]; eexists; split; reflexivity|]).
  destruct H.
Qed.

Lemma steps_for_length (md : string) :
  (List.length (steps_for md) <= 10)%nat.
Proof.
  rewrite steps_for_spec.
  destruct (String.eqb md "AM" || String.eqb md "FM"); cbn; lia.
Qed.

(** A table entry found by [index], printed on [w] digits and read back. *)
Lemma float_index_roundtrip (l : list Q) (x : Q) (w : nat) :
  Py.float_in x l = true -> (1 <= w)%nat ->
  Z.of_nat (List.length l) <= 10 ^ Z.of_nat w ->
  exists i y,
    Py.index Qeq_bool l x = Ok i /\ 0 <= i < Z.of_nat (List.length l) /\
    String.length (Py.fmt_i w i) = w /\
    Py.int_of_str (Py.fmt_i w i) = Ok i /\
    Py.getitem l i = Ok y /\ Qeq y x.
Proof.
  intros Hin Hw Hlen.
  destruct (index_found Qeq_bool l x Hin) as (i & y & Hi & Hr & Hg & Hy).
  destruct (fmt_i_fits w i Hw ltac:(lia)) as (Hl & _ & Hp).
  exists i, y. repeat split; auto; try lia.
  now apply Qeq_bool_iff.
Qed.

(** C2 (amended).  For every record whose number is in 0..UPPER, whose tone
    mode is Tone, TSQL or DTCS, whose mode is in the mode table, whose step
    is in the step table of its mode, whose tones are in the tone table,
    whose DTCS code is in the code table, whose duplex is '', '+' or '-',
    whose skip is '' or 'S', whose name has at most 7 characters and whose
    frequency and offset are non-negative and fit their 11 and 9 digits
    (the tone and code tables being short enough for their 2 and 3 digits):
    [_make_mem_spec] returns a tuple, [_parse_mem] decodes the response
    built from it, and the decoded record equals the original on frequency,
    mode, step, tones, DTCS code, duplex, offset, skip and name (and on
    number and tone mode). *)
Theorem mem_spec_roundtrip (memid : string) (mem : Memory) :
  0 <= number mem <= _UPPER ->
  In (tmode mem) ["Tone"; "TSQL"; "DTCS"] ->
  In (mode mem) ["LSB"; "USB"; "CW"; "FM"; "AM"; "FSK"; "CW-R"; "FSK-R"] ->
  Py.float_in (tuning_step mem) (steps_for (mode mem)) = true ->
  Py.float_in (rtone mem) _TONES = true ->
  Py.float_in (ctone mem) _TONES = true ->
  In (dtcs mem) DTCS_CODES ->
  In (duplex mem) [""; "+"; "-"] ->
  In (skip mem) [""; "S"] ->
  (String.length (name mem) <= 7)%nat ->
  0 <= freq mem < 10 ^ 11 ->
  0 <= offset mem < 10 ^ 9 ->
  (List.length _TONES <= 99)%nat ->
  (List.length DTCS_CODES <= 1000)%nat ->
  exists spec mem',
    _make_mem_spec memid mem = Ok spec /\
    _parse_mem (mr_response (number mem) spec) = Ok mem' /\
    freq mem' = freq mem /\ mode mem' = mode mem /\
    Qeq (tuning_step mem') (tuning_step mem) /\
    Qeq (rtone mem') (rtone mem) /\ Qeq (ctone mem') (ctone mem) /\
    dtcs mem' = dtcs mem /\ duplex mem' = duplex mem /\
    offset mem' = offset mem /\ skip mem' = skip mem /\
    name mem' = name mem /\
    number mem' = number mem /\ tmode mem' = tmode mem.
Proof.
  intros Hnum Htm Hmd Hst Hrt Hct Hdt Hdu Hsk Hnm Hfr Hof HlT HlD.
  (* what the encoder computes *)
  destruct (tmode_code _ Htm) as (Htm0 & tc & Etm & Rtm & Gtm).
  destruct (mode_code _ Hmd) as (mc & Emd & Rmd & Gmd).
  destruct (duplex_code _ Hdu) as (Hco & dc & Edu & Rdu & Gdu).
  destruct (skip_code _ Hsk) as (Lsk & sc & Esk & Gsk).
  pose proof (steps_for_length (mode mem)) as Lst.
  destruct (float_index_roundtrip _ _ 2 Hst ltac:(lia)
              ltac:(change (10 ^ Z.of_nat 2) with 100; lia))
    as (si & sy & Esi & Rsi & Lsi & Psi & Gsi & Qsi).
  destruct (index_found Qeq_bool _TONES (rtone mem) Hrt)
    as (ri & ry & Eri & Rri & Gri & Qri).
  destruct (index_found Qeq_bool _TONES (ctone mem) Hct)
    as (ci & cy & Eci & Rci & Gci & Qci).
  assert (Hdt' : existsb (fun y => Z.eqb y (dtcs mem)) DTCS_CODES = true).
  { apply existsb_exists. exists (dtcs mem). split; [exact Hdt|].
    apply Z.eqb_refl. }
  destruct (index_found Z.eqb DTCS_CODES (dtcs mem) Hdt')
    as (di & dy & Edi & Rdi & Gdi & Qdi).
  apply Z.eqb_eq in Qdi. subst dy.
  apply Qeq_bool_iff in Qri, Qci.
  destruct (fmt_i_fits 3 (number mem) ltac:(lia)
              ltac:(unfold _UPPER in Hnum; change (10 ^ Z.of_nat 3) with 1000; lia))
    as (Ln & _ & Pn).
  destruct (fmt_i_fits 11 (freq mem) ltac:(lia) Hfr) as (Lf & _ & Pf).
  destruct (fmt_i_fits 9 (offset mem) ltac:(lia) Hof) as (Lo & _ & Po).
  destruct (fmt_i_fits 2 (ri + 1) ltac:(lia)
              ltac:(change (10 ^ Z.of_nat 2) with 100; lia))
    as (Lr & _ & Pr).
  destruct (fmt_i_fits 2 (ci + 1) ltac:(lia)
              ltac:(change (10 ^ Z.of_nat 2) with 100; lia))
    as (Lc & _ & Pc).
  destruct (fmt_i_fits 3 di ltac:(lia)
              ltac:(change (10 ^ Z.of_nat 3) with 1000; lia))
    as (Ld & _ & Pd).
  destruct (fmt_i_digit_facts mc ltac:(lia)) as (Lmc & Pmc & Zmc).
  destruct (fmt_i_digit_facts tc Rtm) as (Ltc & Ptc & _).
  destruct (fmt_i_digit_facts dc Rdu) as (Ldc & Pdc & _).
  (* the tuple *)
  assert (Enc : _make_mem_spec memid mem =
    Ok [ Py.fmt_i 11 (freq mem); Py.fmt_i 0 mc;
         Py.fmt_bool (String.eqb (skip mem) "S"); Py.fmt_i 0 tc;
         Py.fmt_i 2 (ri + 1); Py.fmt_i 2 (ci + 1); Py.fmt_i 3 di; "0";
         Py.fmt_i 0 dc; Py.fmt_i 9 (offset mem); Py.fmt_i 2 si; "0";
         name mem ]).
  { unfold _make_mem_spec, encode_step, encode_tones.
    rewrite Hco, Edu. cbn [bind]. rewrite Esi. cbn [bind].
    rewrite Htm0, Eri. cbn [bind]. rewrite Eci. cbn [bind].
    rewrite Edi. cbn [bind]. rewrite Emd. cbn [bind].
    rewrite Etm. cbn [bind]. reflexivity. }
  eexists. eexists. split; [exact Enc|].
  (* the response, cut into fields *)
  unfold mr_response.
  rewrite (parse_mem_layout _ _ _ _ _ _ _ _ "0" _ _ _ "0" _
             Ln Lf Lmc Lsk Ltc Lr Lc Ld eq_refl Ldc Lo Lsi eq_refl Hnm).
  unfold parse_fields. cbv zeta.
  rewrite (slice_whole3 _ Ln), Pn. cbn [bind].
  destruct (Z.gtb_spec (number mem) _UPPER) as [Hgt | _]; [lia|].
  cbn [bind]. rewrite Zmc.
  destruct (Z.eqb_spec mc 0) as [Hz | _]; [lia|].
  rewrite Pf. cbn [bind]. rewrite Pmc. cbn [bind]. rewrite Gmd. cbn [bind].
  rewrite Psi. cbn [bind].
  cbn [mode set_mode set_freq set_number set_tuning_step number].
  rewrite Gsi. cbn [bind].
  unfold is_flagged_extended.
  cbn [mode set_mode set_freq set_number set_tuning_step number].
  destruct (Z.gtb_spec (number mem) _UPPER) as [Hgt | _]; [lia|].
  cbn [bind]. rewrite Esk. cbn [bind]. rewrite Gsk. cbn [bind].
  rewrite Ptc. cbn [bind]. rewrite Gtm. cbn [bind].
  rewrite Pr. cbn [bind]. rewrite Z.add_simpl_r, Gri. cbn [bind].
  rewrite Pc. cbn [bind]. rewrite Z.add_simpl_r, Gci. cbn [bind].
  rewrite Pd. cbn [bind]. rewrite Gdi. cbn [bind].
  rewrite Pdc. cbn [bind]. rewrite Gdu. cbn [bind].
  rewrite Po. cbn [bind].
  split; [reflexivity|].
  cbn [number extd_number freq mode tuning_step immutable empty skip tmode
       rtone ctone dtcs duplex offset name set_name set_offset set_duplex
       set_dtcs set_ctone set_rtone set_tmode set_skip set_immutable
       set_tuning_step set_mode set_freq set_number set_extd_number].
  repeat split; auto.
Qed.

End RoundTrip.

Lemma mem_spec_roundtrip_witness :
  exists spec mem',
    _make_mem_spec "005" test_mem = Ok spec /\
    _parse_mem (mr_response 5 spec) = Ok mem' /\
    freq mem' = 14205000 /\ mode mem' = "USB" /\
    Qeq (tuning_step mem') 1 /\ Qeq (rtone mem') (885 # 10) /\
    Qeq (ctone mem') (885 # 10) /\ dtcs mem' = 23 /\ duplex mem' = "" /\
    offset mem' = 0 /\ skip mem' = "" /\ name mem' = "TEST".
Proof.
  destruct (@mem_spec_roundtrip sample_imports "005" test_mem
              ltac:(unfold _UPPER; cbn; lia)
              ltac:(cbn; tauto) ltac:(cbn; tauto)
              eq_refl eq_refl eq_refl
              ltac:(cbn; tauto) ltac:(cbn; tauto) ltac:(cbn; tauto)
              ltac:(cbn; lia) ltac:(cbn; lia) ltac:(cbn; lia)
              ltac:(cbn; lia) ltac:(cbn; lia))
    as (spec & mem' & Es & Ep & Hf & Hm & Hs & Hr & Hc & Hd & Hdu & Ho & Hk
        & Hn & _).
  exists spec, mem'.
  split; [exact Es|]. split; [exact Ep|]. split; [exact Hf|].
  split; [exact Hm|]. split; [exact Hs|]. split; [exact Hr|].
  split; [exact Hc|]. split; [exact Hd|]. split; [exact Hdu|].
  split; [exact Ho|]. split; [exact Hk | exact Hn].
Defined.

(** C2, the claim as stated fails: a record that meets every condition of
    the claim with duplex '=' is not encoded at all.  '=' is not a substring
    of " +-" and is not "split", so [_make_mem_spec] takes the branch for an
    unsupported duplex and raises. *)
Lemma mem_spec_roundtrip_duplex_eq :
  number (set_duplex "=" test_mem) <= _UPPER /\
  tmode (set_duplex "=" test_mem) <> "" /\
  In (mode (set_duplex "=" test_mem)) (map snd _MODES) /\
  Py.float_in (tuning_step (set_duplex "=" test_mem))
    (steps_for (mode (set_duplex "=" test_mem))) = true /\
  Py.float_in (rtone (set_duplex "=" test_mem)) _TONES = true /\
  Py.float_in (ctone (set_duplex "=" test_mem)) _TONES = true /\
  In (dtcs (set_duplex "=" test_mem)) DTCS_CODES /\
  In (duplex (set_duplex "=" test_mem)) [""; "+"; "-"; "="] /\
  (String.length (name (set_duplex "=" test_mem)) <= 7)%nat /\
  _make_mem_spec "005" (set_duplex "=" test_mem) = Raise (NameError "LOG") /\
  ~ (exists spec, _make_mem_spec "005" (set_duplex "=" test_mem) = Ok spec).
Proof.
  split; [unfold _UPPER; cbn; lia|].
  split; [discriminate|].
  split; [cbn; tauto|].
  split; [reflexivity|]. split; [reflexivity|]. split; [reflexivity|].
  split; [cbn; tauto|]. split; [cbn; tauto|].
  split; [cbn; lia|].
  split; [reflexivity|].
  intros (spec & H). discriminate H.
Qed.

(** * Further properties of the codec *)

(** ** Encoding then decoding, in general *)

Lemma getitem_last {A : Type} (l : list A) (d : A) :
  l <> [] -> Py.getitem l (-1) = Ok (last l d).
Proof.
  intros Hne. unfold Py.getitem.
  assert (Hlen : (0 < List.length l)%nat) by (destruct l; [congruence | cbn; lia]).
  change (-1 <? 0) with true. cbv iota.
  destruct (Z.ltb_spec (-1 + Z.of_nat (List.length l)) 0); [lia|].
  destruct (Z.leb_spec (Z.of_nat (List.length l))
              (-1 + Z.of_nat (List.length l))); [lia|].
  cbn [orb].
  replace (Z.to_nat (-1 + Z.of_nat (List.length l)))
    with (List.length l - 1)%nat by lia.
  destruct (exists_last Hne) as (l' & a & ->).
  rewrite last_last, List.length_app. cbn [List.length].
  replace (List.length l' + 1 - 1)%nat with (List.length l') by lia.
  now rewrite nth_error_app2, Nat.sub_diag by lia.
Qed.

Lemma getitem_first {A : Type} (l : list A) (d : A) :
  l <> [] -> Py.getitem l 0 = Ok (hd d l).
Proof.
  intros Hne. destruct l as [|a l]; [congruence|].
  apply getitem_nth; [lia | reflexivity].
Qed.

Lemma tmode_code_any (t : string) :
  In t _TMODES ->
  exists c, Py.index String.eqb _TMODES t = Ok c /\ 0 <= c <= 9 /\
            Py.getitem _TMODES c = Ok t.
Proof.
  intros H. unfold _TMODES in H. cbn [In] in H.
  repeat (destruct H as [<- | H];
          [eexists; split; [reflexivity|]; split; [lia | reflexivity]|]).
  destruct H.
Qed.

(** The duplex code and offset the primary spec carries. *)
Lemma duplex_block (d : string) (off : Z) :
  In d [""; "+"; "-"; "split"] ->
  exists c,
    (if Py.contains d " +-" then
       x <- get_dict_rev _DUPLEX d ;; Ok (x, off)
     else if String.eqb d "split" then Ok (0, 0)
     else _ <- LOG_error ("Bug: unsupported duplex `" ++ d ++ "'") ;;
          Raise (UnboundLocalError "duplex")) =
    Ok (c, if String.eqb d "split" then 0 else off) /\
    (if Py.contains d " +-" then get_dict_rev _DUPLEX d
     else if String.eqb d "split" then Ok 0
     else _ <- LOG_error ("Bug: unsupported duplex `" ++ d ++ "'") ;;
          Raise (UnboundLocalError "duplex")) = Ok c /\
    0 <= c <= 9 /\
    Py.dict_getitem _DUPLEX c = Ok (if String.eqb d "split" then "" else d).
Proof.
  intros H. cbn [In] in H.
  repeat (destruct H as [<- | H];
          [eexists; split; [reflexivity|]; split; [reflexivity|];
           split; [lia | reflexivity]|]).
  destruct H.
Qed.

Section General.

Context {imports : Imports}.

(** What [encode_tones] computes for a record with valid tone fields. *)
Lemma encode_tones_valid (mem : Memory) :
  In (tmode mem) _TMODES ->
  (tmode mem <> "" ->
   Py.float_in (rtone mem) _TONES = true /\
   Py.float_in (ctone mem) _TONES = true /\
   In (dtcs mem) DTCS_CODES) ->
  (List.length _TONES <= 99)%nat ->
  (List.length DTCS_CODES <= 1000)%nat ->
  exists rt ct dt,
    encode_tones mem = Ok (rt, ct, dt) /\
    0 <= rt <= 99 /\ 0 <= ct <= 99 /\ 0 <= dt <= 999 /\
    (tmode mem = "" -> rt = 0 /\ ct = 0 /\ dt = 0) /\
    (tmode mem <> "" ->
     exists r c,
       Py.getitem _TONES (rt - 1) = Ok r /\ Qeq r (rtone mem) /\
       Py.getitem _TONES (ct - 1) = Ok c /\ Qeq c (ctone mem) /\
       Py.getitem DTCS_CODES dt = Ok (dtcs mem)).
Proof.
  intros Htm Hv HlT HlD. unfold encode_tones.
  destruct (String.eqb_spec (tmode mem) "") as [E | E].
  - exists 0, 0, 0. split; [reflexivity|]. repeat split; try lia.
    intros X. congruence.
  - destruct (Hv E) as (Hrt & Hct & Hdt).
    destruct (index_found Qeq_bool _TONES (rtone mem) Hrt)
      as (ri & ry & Eri & Rri & Gri & Qri).
    destruct (index_found Qeq_bool _TONES (ctone mem) Hct)
      as (ci & cy & Eci & Rci & Gci & Qci).
    assert (Hdt' : existsb (fun y => Z.eqb y (dtcs mem)) DTCS_CODES = true).
    { apply existsb_exists. exists (dtcs mem). split; [exact Hdt|].
      apply Z.eqb_refl. }
    destruct (index_found Z.eqb DTCS_CODES (dtcs mem) Hdt')
      as (di & dy & Edi & Rdi & Gdi & Qdi).
    apply Z.eqb_eq in Qdi. subst dy.
    apply Qeq_bool_iff in Qri, Qci.
    exists (ri + 1), (ci + 1), di.
    rewrite Eri. cbn [bind]. rewrite Eci. cbn [bind]. rewrite Edi. cbn [bind].
    split; [reflexivity|].
    split; [lia|]. split; [lia|]. split; [lia|].
    split; [congruence|]. intros _.
    exists ry, cy. rewrite !Z.add_simpl_r. repeat split; assumption.
Qed.

End General.

Section GeneralRoundTrip.

Context {imports : Imports}.

(** Encoding then decoding a record with valid fields, for any tone mode
    and any duplex the encoder supports. *)
Lemma mem_spec_decode_gen (memid : string) (mem : Memory) :
  0 <= number mem <= _UPPER ->
  In (tmode mem) _TMODES ->
  In (mode mem) ["LSB"; "USB"; "CW"; "FM"; "AM"; "FSK"; "CW-R"; "FSK-R"] ->
  Py.float_in (tuning_step mem) (steps_for (mode mem)) = true ->
  (tmode mem <> "" ->
   Py.float_in (rtone mem) _TONES = true /\
   Py.float_in (ctone mem) _TONES = true /\
   In (dtcs mem) DTCS_CODES) ->
  In (duplex mem) [""; "+"; "-"; "split"] ->
  In (skip mem) [""; "S"] ->
  (String.length (name mem) <= 7)%nat ->
  0 <= freq mem < 10 ^ 11 ->
  (duplex mem <> "split" -> 0 <= offset mem < 10 ^ 9) ->
  (List.length _TONES <= 99)%nat ->
  (List.length DTCS_CODES <= 1000)%nat ->
  exists spec rt ct dt,
    _make_mem_spec memid mem = Ok spec /\
    encode_tones mem = Ok (rt, ct, dt) /\
    map String.length spec =
      [11; 1; 1; 1; 2; 2; 3; 1; 1; 9; 2; 1; String.length (name mem)]%nat /\
    nth_error spec 0 = Some (Py.fmt_i 11 (freq mem)) /\
    forall r c d,
      Py.getitem _TONES (rt - 1) = Ok r ->
      Py.getitem _TONES (ct - 1) = Ok c ->
      Py.getitem DTCS_CODES dt = Ok d ->
      exists mem',
        _parse_mem (mr_response (number mem) spec) = Ok mem' /\
        number mem' = number mem /\ freq mem' = freq mem /\
        mode mem' = mode mem /\
        Qeq (tuning_step mem') (tuning_step mem) /\
        skip mem' = skip mem /\ tmode mem' = tmode mem /\
        rtone mem' = r /\ ctone mem' = c /\ dtcs mem' = d /\
        duplex mem' =
          (if String.eqb (duplex mem) "split" then "" else duplex mem) /\
        offset mem' =
          (if String.eqb (duplex mem) "split" then 0 else offset mem) /\
        name mem' = name mem /\
        empty mem' = empty Memory_new /\
        immutable mem' = immutable Memory_new.
Proof.
  intros Hnum Htm Hmd Hst Hton Hdu Hsk Hnm Hfr Hof HlT HlD.
  destruct (tmode_code_any _ Htm) as (tc & Etm & Rtm & Gtm).
  destruct (mode_code _ Hmd) as (mc & Emd & Rmd & Gmd).
  destruct (duplex_block _ (offset mem) Hdu) as (dc & Edu & _ & Rdu & Gdu).
  destruct (skip_code _ Hsk) as (Lsk & sc & Esk & Gsk).
  pose proof (steps_for_length (mode mem)) as Lst.
  destruct (float_index_roundtrip _ _ 2 Hst ltac:(lia)
              ltac:(change (10 ^ Z.of_nat 2) with 100; lia))
    as (si & sy & Esi & Rsi & Lsi & Psi & Gsi & Qsi).
  destruct (encode_tones_valid mem Htm Hton HlT HlD)
    as (rt & ct & dt & Eton & Rrt & Rct & Rdt & _ & _).
  set (ov := if String.eqb (duplex mem) "split" then 0 else offset mem) in *.
  assert (Rov : 0 <= ov < 10 ^ 9).
  { subst ov. destruct (String.eqb_spec (duplex mem) "split");
      [lia | now apply Hof]. }
  destruct (fmt_i_fits 3 (number mem) ltac:(lia)
              ltac:(unfold _UPPER in Hnum;
                    change (10 ^ Z.of_nat 3) with 1000; lia))
    as (Ln & _ & Pn).
  destruct (fmt_i_fits 11 (freq mem) ltac:(lia) Hfr) as (Lf & _ & Pf).
  destruct (fmt_i_fits 9 ov ltac:(lia) Rov) as (Lo & _ & Po).
  destruct (fmt_i_fits 2 rt ltac:(lia)
              ltac:(change (10 ^ Z.of_nat 2) with 100; lia))
    as (Lr & _ & Pr).
  destruct (fmt_i_fits 2 ct ltac:(lia)
              ltac:(change (10 ^ Z.of_nat 2) with 100; lia))
    as (Lc & _ & Pc).
  destruct (fmt_i_fits 3 dt ltac:(lia)
              ltac:(change (10 ^ Z.of_nat 3) with 1000; lia))
    as (Ld & _ & Pd).
  destruct (fmt_i_digit_facts mc ltac:(lia)) as (Lmc & Pmc & Zmc).
  destruct (fmt_i_digit_facts tc Rtm) as (Ltc & Ptc & _).
  destruct (fmt_i_digit_facts dc Rdu) as (Ldc & Pdc & _).
  assert (Enc : _make_mem_spec memid mem =
    Ok [ Py.fmt_i 11 (freq mem); Py.fmt_i 0 mc;
         Py.fmt_bool (String.eqb (skip mem) "S"); Py.fmt_i 0 tc;
         Py.fmt_i 2 rt; Py.fmt_i 2 ct; Py.fmt_i 3 dt; "0";
         Py.fmt_i 0 dc; Py.fmt_i 9 ov; Py.fmt_i 2 si; "0"; name mem ]).
  { unfold _make_mem_spec, encode_step.
    rewrite Edu. cbn [bind]. rewrite Esi. cbn [bind].
    rewrite Eton. cbn [bind]. rewrite Emd. cbn [bind].
    rewrite Etm. cbn [bind]. reflexivity. }
  eexists. exists rt, ct, dt.
  split; [exact Enc|]. split; [exact Eton|].
  split; [|split; [reflexivity|]].
  { cbn [map]. rewrite Lf, Lmc, Lsk, Ltc, Lr, Lc, Ld, Ldc, Lo, Lsi.
    reflexivity. }
  intros r c d Gr Gc Gd.
  unfold mr_response.
  rewrite (parse_mem_layout _ _ _ _ _ _ _ _ "0" _ _ _ "0" _
             Ln Lf Lmc Lsk Ltc Lr Lc Ld eq_refl Ldc Lo Lsi eq_refl Hnm).
  unfold parse_fields. cbv zeta.
  rewrite (slice_whole3 _ Ln), Pn. cbn [bind].
  destruct (Z.gtb_spec (number mem) _UPPER) as [Hgt | _]; [lia|].
  cbn [bind]. rewrite Zmc.
  destruct (Z.eqb_spec mc 0) as [Hz | _]; [lia|].
  rewrite Pf. cbn [bind]. rewrite Pmc. cbn [bind]. rewrite Gmd. cbn [bind].
  rewrite Psi. cbn [bind].
  cbn [mode set_mode set_freq set_number set_tuning_step number].
  rewrite Gsi. cbn [bind].
  unfold is_flagged_extended.
  cbn [mode set_mode set_freq set_number set_tuning_step number].
  destruct (Z.gtb_spec (number mem) _UPPER) as [Hgt | _]; [lia|].
  cbn [bind]. rewrite Esk. cbn [bind]. rewrite Gsk. cbn [bind].
  rewrite Ptc. cbn [bind]. rewrite Gtm. cbn [bind].
  rewrite Pr. cbn [bind]. rewrite Gr. cbn [bind].
  rewrite Pc. cbn [bind]. rewrite Gc. cbn [bind].
  rewrite Pd. cbn [bind]. rewrite Gd. cbn [bind].
  rewrite Pdc. cbn [bind]. rewrite Gdu. cbn [bind].
  rewrite Po. cbn [bind].
  eexists. split; [reflexivity|].
  cbn [number extd_number freq mode tuning_step immutable empty skip tmode
       rtone ctone dtcs duplex offset name set_name set_offset set_duplex
       set_dtcs set_ctone set_rtone set_tmode set_skip set_immutable
       set_tuning_step set_mode set_freq set_number set_extd_number].
  repeat split; auto.
Qed.

(** Every record with valid fields -- any tone mode, duplex '', '+', '-' or
    'split' -- is encoded by [_make_mem_spec] into fields of the fixed
    widths 11, 1, 1, 1, 2, 2, 3, 1, 1, 9, 2, 1 followed by the name, and the
    response built from them decodes, whenever the three table positions
    written in the tone fields exist, to a record with the same number,
    frequency, mode, step, skip, tone mode and name; its tones and DTCS code
    are the table entries at those positions, a 'split' duplex comes back as
    '' with offset 0, and [empty] and [immutable] are those of a fresh
    memory. *)
Theorem mem_spec_decode (memid : string) (mem : Memory) :
  0 <= number mem <= _UPPER ->
  In (tmode mem) _TMODES ->
  In (mode mem) ["LSB"; "USB"; "CW"; "FM"; "AM"; "FSK"; "CW-R"; "FSK-R"] ->
  Py.float_in (tuning_step mem) (steps_for (mode mem)) = true ->
  (tmode mem <> "" ->
   Py.float_in (rtone mem) _TONES = true /\
   Py.float_in (ctone mem) _TONES = true /\
   In (dtcs mem) DTCS_CODES) ->
  In (duplex mem) [""; "+"; "-"; "split"] ->
  In (skip mem) [""; "S"] ->
  (String.length (name mem) <= 7)%nat ->
  0 <= freq mem < 10 ^ 11 ->
  (duplex mem <> "split" -> 0 <= offset mem < 10 ^ 9) ->
  (List.length _TONES <= 99)%nat ->
  (List.length DTCS_CODES <= 1000)%nat ->
  exists spec rt ct dt,
    _make_mem_spec memid mem = Ok spec /\
    encode_tones mem = Ok (rt, ct, dt) /\
    map String.length spec =
      [11; 1; 1; 1; 2; 2; 3; 1; 1; 9; 2; 1; String.length (name mem)]%nat /\
    forall r c d,
      Py.getitem _TONES (rt - 1) = Ok r ->
      Py.getitem _TONES (ct - 1) = Ok c ->
      Py.getitem DTCS_CODES dt = Ok d ->
      exists mem',
        _parse_mem (mr_response (number mem) spec) = Ok mem' /\
        number mem' = number mem /\ freq mem' = freq mem /\
        mode mem' = mode mem /\
        Qeq (tuning_step mem') (tuning_step mem) /\
        skip mem' = skip mem /\ tmode mem' = tmode mem /\
        rtone mem' = r /\ ctone mem' = c /\ dtcs mem' = d /\
        duplex mem' =
          (if String.eqb (duplex mem) "split" then "" else duplex mem) /\
        offset mem' =
          (if String.eqb (duplex mem) "split" then 0 else offset mem) /\
        name mem' = name mem /\
        empty mem' = empty Memory_new /\
        immutable mem' = immutable Memory_new.
Proof.
  intros Hnum Htm Hmd Hst Hton Hdu Hsk Hnm Hfr Hof HlT HlD.
  destruct (mem_spec_decode_gen memid mem Hnum Htm Hmd Hst Hton Hdu Hsk Hnm
              Hfr Hof HlT HlD)
    as (spec & rt & ct & dt & Es & Et & Hw & _ & Hdec).
  exists spec, rt, ct, dt. repeat split; assumption.
Qed.

(** With the tone mode off the stored tones do not survive: the fields are
    written as 00, 00 and 000, and the decoder, which subtracts one from the
    tone positions, returns the last entry of the tone table for both tones
    and the first entry of the DTCS table. *)
Theorem tone_off_decodes_table_ends (memid : string) (mem : Memory)
  (t0 : Q) (d0 : Z) :
  0 <= number mem <= _UPPER ->
  tmode mem = "" ->
  In (mode mem) ["LSB"; "USB"; "CW"; "FM"; "AM"; "FSK"; "CW-R"; "FSK-R"] ->
  Py.float_in (tuning_step mem) (steps_for (mode mem)) = true ->
  In (duplex mem) [""; "+"; "-"; "split"] ->
  In (skip mem) [""; "S"] ->
  (String.length (name mem) <= 7)%nat ->
  0 <= freq mem < 10 ^ 11 ->
  (duplex mem <> "split" -> 0 <= offset mem < 10 ^ 9) ->
  _TONES <> [] -> DTCS_CODES <> [] ->
  (List.length _TONES <= 99)%nat ->
  (List.length DTCS_CODES <= 1000)%nat ->
  exists spec mem',
    _make_mem_spec memid mem = Ok spec /\
    _parse_mem (mr_response (number mem) spec) = Ok mem' /\
    tmode mem' = "" /\
    rtone mem' = last _TONES t0 /\ ctone mem' = last _TONES t0 /\
    dtcs mem' = hd d0 DTCS_CODES.
Proof.
  intros Hnum Htm Hmd Hst Hdu Hsk Hnm Hfr Hof HT HD HlT HlD.
  assert (Hin : In (tmode mem) _TMODES) by (rewrite Htm; cbn; tauto).
  assert (Hv : tmode mem <> "" ->
               Py.float_in (rtone mem) _TONES = true /\
               Py.float_in (ctone mem) _TONES = true /\
               In (dtcs mem) DTCS_CODES) by congruence.
  assert (Enc : encode_tones mem = Ok (0, 0, 0))
    by (unfold encode_tones; now rewrite Htm).
  destruct (mem_spec_decode_gen memid mem Hnum Hin Hmd Hst Hv Hdu Hsk Hnm
              Hfr Hof HlT HlD)
    as (spec & rt & ct & dt & Es & Et & _ & _ & Hdec).
  rewrite Enc in Et. injection Et as <- <- <-.
  destruct (Hdec _ _ _ (getitem_last _ t0 HT) (getitem_last _ t0 HT)
              (getitem_first _ d0 HD))
    as (mem' & Hp & _ & _ & _ & _ & _ & Ht & Hr & Hc & Hd & _).
  exists spec, mem'. rewrite Ht.
  repeat split; assumption.
Qed.

End GeneralRoundTrip.

(** ** The split spec beside the primary spec *)

Section SplitSpec.

Context {imports : Imports}.

(** Both builders run the same computations: they fail alike, and the split
    tuple is the primary one with the frequency field holding [mem.offset]
    and the offset field zeroed. *)
Lemma split_spec_of_mem_spec (memid : string) (mem : Memory) :
  _make_split_spec memid mem =
  (spec <- _make_mem_spec memid mem ;;
   Ok (Py.fmt_i 11 (offset mem)
       :: (firstn 8 (tl spec) ++ Py.fmt_i 9 0 :: skipn 10 spec)%list)).
Proof.
  unfold _make_split_spec, _make_mem_spec.
  destruct (Py.contains (duplex mem) " +-").
  - destruct (get_dict_rev _DUPLEX (duplex mem)); [cbn [bind]|reflexivity].
    destruct (encode_step mem); [cbn [bind]|reflexivity].
    destruct (encode_tones mem) as [[[r c] d]|]; [cbn [bind]|reflexivity].
    destruct (get_dict_rev _MODES (mode mem)); [cbn [bind]|reflexivity].
    destruct (Py.index String.eqb _TMODES (tmode mem)); reflexivity.
  - destruct (String.eqb (duplex mem) "split"); [cbn [bind]|reflexivity].
    destruct (encode_step mem); [cbn [bind]|reflexivity].
    destruct (encode_tones mem) as [[[r c] d]|]; [cbn [bind]|reflexivity].
    destruct (get_dict_rev _MODES (mode mem)); [cbn [bind]|reflexivity].
    destruct (Py.index String.eqb _TMODES (tmode mem)); reflexivity.
Qed.

(** [_make_split_spec] raises exactly when [_make_mem_spec] does, with the
    same exception; when they return, the two tuples agree in every
    position except the first, which holds the record's offset printed on
    11 digits instead of its frequency, and the tenth, which is nine zeros
    instead of the offset. *)
Theorem split_spec_agrees_with_mem_spec (memid : string) (mem : Memory) :
  (forall e, _make_mem_spec memid mem = Raise e <->
             _make_split_spec memid mem = Raise e) /\
  (forall spec, _make_mem_spec memid mem = Ok spec ->
     exists sspec,
       _make_split_spec memid mem = Ok sspec /\
       List.length sspec = List.length spec /\
       nth_error sspec 0 = Some (Py.fmt_i 11 (offset mem)) /\
       nth_error sspec 9 = Some "000000000" /\
       forall i, i <> 0%nat -> i <> 9%nat ->
                 nth_error sspec i = nth_error spec i).
Proof.
  rewrite split_spec_of_mem_spec. split.
  - intros e. destruct (_make_mem_spec memid mem); cbn [bind];
      split; intros H; congruence.
  - intros spec Es. rewrite Es. cbn [bind].
    destruct (make_mem_spec_ok _ _ _ Es)
      as (du & off & st & r & c & d & mo & tm & _ & _ & _ & _ & _ & ->).
    eexists. split; [reflexivity|]. cbn [tl firstn skipn app].
    split; [reflexivity|]. split; [reflexivity|]. split; [reflexivity|].
    intros i H0 H9.
    do 13 (destruct i as [|i]; [try congruence; reflexivity|]).
    reflexivity.
Qed.

End SplitSpec.

(** ** Split channels, there and back *)

Lemma split_response_freq (n1 f rest : string) :
  String.length n1 = 3%nat -> String.length f = 11%nat ->
  Py.slice (" " ++ "MR" ++ "1" ++ n1 ++ f ++ rest) 7 18 = f.
Proof.
  intros H1 Hf. explode n1 H1.
  unfold Py.slice. cbn [append substring Nat.sub].
  now apply substring_take.
Qed.

Section SplitRoundTrip.

Context {imports : Imports}.

(** A split record -- duplex 'split', the transmit frequency kept in
    [offset] -- written as its primary and split specs and read back with
    [_parse_mem] followed by [_parse_split] comes back with duplex 'split'
    and the same offset, provided the transmit frequency differs from the
    receive frequency; when the two are equal the record comes back as a
    simplex one, duplex '' and offset 0. *)
Theorem split_record_roundtrip (memid : string) (mem : Memory) :
  0 <= number mem <= _UPPER ->
  In (tmode mem) _TMODES ->
  In (mode mem) ["LSB"; "USB"; "CW"; "FM"; "AM"; "FSK"; "CW-R"; "FSK-R"] ->
  Py.float_in (tuning_step mem) (steps_for (mode mem)) = true ->
  (tmode mem <> "" ->
   Py.float_in (rtone mem) _TONES = true /\
   Py.float_in (ctone mem) _TONES = true /\
   In (dtcs mem) DTCS_CODES) ->
  duplex mem = "split" ->
  In (skip mem) [""; "S"] ->
  (String.length (name mem) <= 7)%nat ->
  0 <= freq mem < 10 ^ 11 ->
  0 <= offset mem < 10 ^ 11 ->
  _TONES <> [] -> DTCS_CODES <> [] ->
  (List.length _TONES <= 99)%nat ->
  (List.length DTCS_CODES <= 1000)%nat ->
  exists spec sspec mem1 mem2,
    _make_mem_spec memid mem = Ok spec /\
    _make_split_spec memid mem = Ok sspec /\
    _parse_mem (mr_response (number mem) spec) = Ok mem1 /\
    _parse_split mem1 ("MR" ++ "1" ++ Py.fmt_i 3 (number mem) ++ join sspec)
      = Ok mem2 /\
    freq mem2 = freq mem /\ mode mem2 = mode mem /\ name mem2 = name mem /\
    (offset mem <> freq mem ->
     duplex mem2 = "split" /\ offset mem2 = offset mem) /\
    (offset mem = freq mem -> duplex mem2 = "" /\ offset mem2 = 0).
Proof.
  intros Hnum Htm Hmd Hst Hton Hdu Hsk Hnm Hfr Hof HT HD HlT HlD.
  assert (Hdu' : In (duplex mem) [""; "+"; "-"; "split"])
    by (rewrite Hdu; cbn; tauto).
  assert (Hof' : duplex mem <> "split" -> 0 <= offset mem < 10 ^ 9)
    by congruence.
  destruct (mem_spec_decode_gen memid mem Hnum Htm Hmd Hst Hton Hdu' Hsk Hnm
              Hfr Hof' HlT HlD)
    as (spec & rt & ct & dt & Es & Et & _ & _ & Hdec).
  destruct (encode_tones_valid mem Htm Hton HlT HlD)
    as (rt' & ct' & dt' & Et' & _ & _ & _ & Hz & Hnz).
  rewrite Et in Et'. injection Et' as <- <- <-.
  assert (Hg : exists r c d,
    Py.getitem _TONES (rt - 1) = Ok r /\ Py.getitem _TONES (ct - 1) = Ok c /\
    Py.getitem DTCS_CODES dt = Ok d).
  { destruct (String.eqb_spec (tmode mem) "") as [E | E].
    - destruct (Hz E) as (-> & -> & ->).
      exists (last _TONES 0%Q), (last _TONES 0%Q), (hd 0 DTCS_CODES).
      split; [now apply getitem_last|]. split; [now apply getitem_last|].
      now apply getitem_first.
    - destruct (Hnz E) as (r & c & Gr & _ & Gc & _ & Gd).
      exists r, c, (dtcs mem). auto. }
  destruct Hg as (r & c & d & Gr & Gc & Gd).
  destruct (Hdec r c d Gr Gc Gd)
    as (mem1 & Hp & _ & Hf1 & Hm1 & _ & _ & _ & _ & _ & _ & Hd1 & Ho1 & Hn1
        & _).
  rewrite Hdu in Hd1, Ho1. cbn [String.eqb Ascii.eqb Bool.eqb] in Hd1, Ho1.
  pose proof (split_spec_of_mem_spec memid mem) as Hs.
  rewrite Es in Hs. cbn [bind] in Hs.
  destruct (fmt_i_fits 3 (number mem) ltac:(lia)
              ltac:(unfold _UPPER in Hnum;
                    change (10 ^ Z.of_nat 3) with 1000; lia))
    as (Ln & _ & _).
  destruct (fmt_i_fits 11 (offset mem) ltac:(lia) Hof) as (Lo & _ & Po).
  eexists. eexists. exists mem1.
  assert (Hps : _parse_split mem1
                  ("MR" ++ "1" ++ Py.fmt_i 3 (number mem) ++
                   join (Py.fmt_i 11 (offset mem)
                         :: (firstn 8 (tl spec) ++
                             Py.fmt_i 9 0 :: skipn 10 spec)%list)) =
                Ok (if freq mem1 =? offset mem then mem1
                    else set_offset (offset mem) (set_duplex "split" mem1))).
  { unfold _parse_split.
    assert (Hj : forall a l, join (a :: l) = a ++ join l \/ l = []).
    { intros a l. destruct l; [now right | now left]. }
    destruct (Hj (Py.fmt_i 11 (offset mem))
                (firstn 8 (tl spec) ++ Py.fmt_i 9 0 :: skipn 10 spec)%list)
      as [-> | Hnil].
    2:{ destruct (firstn 8 (tl spec)); discriminate Hnil. }
    rewrite (split_response_freq _ _ _ Ln Lo), Po. cbn [bind].
    destruct (freq mem1 =? offset mem); reflexivity. }
  eexists. split; [exact Es|]. split; [exact Hs|]. split; [exact Hp|].
  split; [exact Hps|].
  rewrite Hf1.
  destruct (Z.eqb_spec (freq mem) (offset mem)) as [E | E].
  - repeat split; try assumption; congruence.
  - cbn [freq mode name duplex offset set_offset set_duplex].
    repeat split; try assumption; congruence.
Qed.

(** [_parse_split] applied twice with the same response changes nothing
    more: the frequency it compares with is never modified. *)
Theorem parse_split_idempotent (mem mem1 : Memory) (spec : string) :
  _parse_split mem spec = Ok mem1 -> _parse_split mem1 spec = Ok mem1.
Proof.
  unfold _parse_split.
  destruct (Py.int_of_str (Py.slice (" " ++ spec) 7 18)) as [f|];
    [cbn [bind] | discriminate].
  destruct (freq mem =? f) eqn:E; cbn [negb]; intros H; injection H as <-.
  - now rewrite E.
  - cbn [freq set_offset set_duplex]. now rewrite E.
Qed.

End SplitRoundTrip.

(** ** Wire pair to logical index and back *)

(** The arithmetic of the sweep-limit indices, both ways. *)
Lemma range_end_arith (i : Z) :
  _UPPER + 1 <= i <= _UPPER + 20 ->
  let half := fst (_get_range_end_mem i) in
  let base := snd (_get_range_end_mem i) in
  (half = 0 \/ half = 1) /\ half = (i - _UPPER - 1) mod 2 /\
  _UPPER + 1 <= base <= _UPPER + 10 /\
  extended_mnum base (Py.fmt_i 0 half) = i.
Proof.
  unfold _UPPER. intros H. cbv zeta.
  unfold _get_range_end_mem, _UPPER. cbn [fst snd].
  set (d := i - 289 - 1). assert (Hd : 0 <= d <= 19) by (subst d; lia).
  rewrite Z.quot_div_nonneg by lia.
  pose proof (Z.div_mod d 2 ltac:(lia)) as Hdm.
  pose proof (Z.mod_pos_bound d 2 ltac:(lia)) as Hm.
  assert (Hq : 0 <= d / 2 <= 9).
  { split; [apply Z.div_pos; lia|].
    apply Z.lt_succ_r. apply Z.div_lt_upper_bound; lia. }
  assert (E : d mod 2 = 0 \/ d mod 2 = 1) by lia.
  unfold extended_mnum, _UPPER.
  destruct E as [E | E]; rewrite E;
    change (Py.fmt_i 0 0) with "0"; change (Py.fmt_i 0 1) with "1";
    cbn [String.eqb Ascii.eqb Bool.eqb]; repeat split; subst d; lia.
Qed.

(** Every wire pair of a sweep-limit channel -- sub-flag 0 or 1, wire number
    290..299 -- is renumbered by the decoder to a logical index in 290..309
    from which [_get_range_end_mem] recovers the pair: the twenty logical
    indices and the twenty wire pairs correspond one to one. *)
Theorem wire_pair_roundtrip (half base : Z) :
  half = 0 \/ half = 1 ->
  _UPPER + 1 <= base <= _UPPER + 10 ->
  let i := extended_mnum base (Py.fmt_i 0 half) in
  _UPPER + 1 <= i <= _UPPER + 20 /\
  _get_range_end_mem i = (half, base).
Proof.
  unfold _UPPER. intros Hh Hb. cbv zeta.
  unfold extended_mnum, _get_range_end_mem, _UPPER.
  destruct Hh as [-> | ->];
    [change (Py.fmt_i 0 0) with "0" | change (Py.fmt_i 0 1) with "1"];
    cbn [String.eqb Ascii.eqb Bool.eqb].
  - split; [lia|].
    replace (289 + (base - 289) * 2 - 1 - 289 - 1) with ((base - 290) * 2)
      by lia.
    rewrite Z.mod_mul by lia.
    rewrite Z.quot_div_nonneg, Z.div_mul by lia.
    f_equal; lia.
  - split; [lia|].
    replace (289 + (base - 289) * 2 - 1 + 1 - 289 - 1)
      with (1 + (base - 290) * 2) by lia.
    rewrite Z.mod_add by lia.
    rewrite Z.quot_div_nonneg, Z.div_add by lia.
    change (1 mod 2) with 1. change (1 / 2) with 0.
    f_equal; lia.
Qed.

(** ** Commands and what they read back as *)

Lemma fmt_i_wider (w : nat) (n : Z) :
  (1 <= w)%nat -> 0 <= n < 10 ^ Z.of_nat w ->
  Py.fmt_i (S w) n = String "0" (Py.fmt_i w n).
Proof.
  intros Hw Hn. unfold Py.fmt_i.
  destruct (Z.ltb_spec n 0); [lia|].
  unfold Py.zfill.
  assert (Hl : (String.length (Py.udec n) <= w)%nat)
    by (apply length_udec_fuel; auto).
  replace (S w - String.length (Py.udec n))%nat
    with (S (w - String.length (Py.udec n))) by lia.
  reflexivity.
Qed.

Section CommandFacts.

Context {imports : Imports}.

(** A response shorter than 29 characters is never decoded: whatever it
    holds, even a '0' in the mode position, [_parse_mem] raises
    [IndexError], because it indexes the padded positions 4, 18, 19, 20 and
    29 before it looks at any field. *)
Theorem short_response_raises (s : string) :
  (String.length s < 29)%nat -> _parse_mem s = Raise IndexError.
Proof. exact (parse_mem_short s). Qed.

(** The response to a read, cut into its fields, for any sub-flag. *)
Lemma parse_mem_layout_any (p1 n1 f4 p5 p6 p7 f8 f9 f10 r11 p12 f13 f14 g15
  nm : string) :
  String.length p1 = 1%nat ->
  String.length n1 = 3%nat -> String.length f4 = 11%nat ->
  String.length p5 = 1%nat -> String.length p6 = 1%nat ->
  String.length p7 = 1%nat -> String.length f8 = 2%nat ->
  String.length f9 = 2%nat -> String.length f10 = 3%nat ->
  String.length r11 = 1%nat -> String.length p12 = 1%nat ->
  String.length f13 = 9%nat -> String.length f14 = 2%nat ->
  String.length g15 = 1%nat -> (String.length nm <= 7)%nat ->
  let wire :=
    "MR" ++ p1 ++ n1 ++
    join [f4; p5; p6; p7; f8; f9; f10; r11; p12; f13; f14; g15; nm] in
  Py.getitem_str (" " ++ wire) 3 = Ok p1 /\
  _parse_mem wire =
  parse_fields (" " ++ wire) (Py.slice n1 0 1) (Py.slice n1 1 3) f4 p5 p6 p7
    f8 f9 f10 p12 f13 f14 nm.
Proof.
  intros H0 H1 H4 H5 H6 H7 H8 H9 H10 H11 H12 H13 H14 H15 Hnm wire.
  subst wire.
  explode p1 H0.
  explode n1 H1. explode f4 H4. explode p5 H5. explode p6 H6.
  explode p7 H7. explode f8 H8. explode f9 H9. explode f10 H10.
  explode r11 H11. explode p12 H12. explode f13 H13. explode f14 H14.
  explode g15 H15.
  split; [reflexivity|].
  unfold _parse_mem.
  cbn [Py.getitem_str Py.slice String.get substring append Nat.sub bind join
       String.concat].
  now rewrite (substring_all nm 7 Hnm).
Qed.

(** The number of a decoded record comes from the header alone. *)
Lemma parse_fields_header (spec p2 p3 p4 p5 p6 p7 p8 p9 p10 p12 p13 p14 p16
  : string) (mem : Memory) :
  parse_fields spec p2 p3 p4 p5 p6 p7 p8 p9 p10 p12 p13 p14 p16 = Ok mem ->
  exists mnum,
    Py.int_of_str (p2 ++ p3) = Ok mnum /\
    ((mnum <= _UPPER /\ number mem = mnum /\
      extd_number mem = extd_number Memory_new) \/
     (_UPPER < mnum /\
      exists s3, Py.getitem_str spec 3 = Ok s3 /\
                 number mem = extended_mnum mnum s3 /\
                 _index_to_memid (number mem) = Ok (extd_number mem))).
Proof.
  intros H. unfold parse_fields in H. cbv zeta in H.
  bind_ok H. exists a. split; [reflexivity|].
  bind_ok H.
  assert (Hm0 :
    (a <= _UPPER /\ number a0 = a /\
     extd_number a0 = extd_number Memory_new) \/
    (_UPPER < a /\
     exists s3, Py.getitem_str spec 3 = Ok s3 /\
                number a0 = extended_mnum a s3 /\
                _index_to_memid (number a0) = Ok (extd_number a0))).
  { destruct (Z.gtb_spec a _UPPER) as [Hgt | Hle].
    - right. split; [exact Hgt|].
      bind_ok E0. bind_ok E0. injection E0 as <-.
      exists a1. split; [reflexivity|]. split; [reflexivity|]. exact E2.
    - left. injection E0 as <-. repeat split. exact Hle. }
  assert (Hk : number mem = number a0 /\ extd_number mem = extd_number a0).
  { clear Hm0 E0.
    destruct (String.eqb p5 "0").
    - bind_ok H. destruct a1; injection H as <-; split; reflexivity.
    - do 6 bind_ok H. destruct a6.
      + injection H as <-. split; reflexivity.
      + repeat bind_ok H. injection H as <-. split; reflexivity. }
  destruct Hk as [-> ->]. exact Hm0.
Qed.

(** The empty path of the decoder. *)
Lemma parse_fields_empty (spec p2 p3 p4 p6 p7 p8 p9 p10 p12 p13 p14 p16
  : string) (mnum : Z) :
  Py.int_of_str (p2 ++ p3) = Ok mnum -> mnum <= _UPPER ->
  parse_fields spec p2 p3 p4 "0" p6 p7 p8 p9 p10 p12 p13 p14 p16 =
  Ok (set_empty true (set_number mnum Memory_new)).
Proof.
  intros Hn Hle. unfold parse_fields. cbv zeta. rewrite Hn. cbn [bind].
  destruct (Z.gtb_spec mnum _UPPER) as [|_]; [lia|]. cbn [bind].
  change (String.eqb "0" "0") with true. cbv iota.
  unfold is_flagged_extended. cbn [number set_number set_empty].
  destruct (Z.gtb_spec mnum _UPPER) as [|_]; [lia|]. reflexivity.
Qed.

Lemma parse_fields_empty_extended (spec p2 p3 p4 p6 p7 p8 p9 p10 p12 p13 p14
  p16 s3 memid : string) (mnum : Z) :
  Py.int_of_str (p2 ++ p3) = Ok mnum -> _UPPER < mnum ->
  Py.getitem_str spec 3 = Ok s3 ->
  _UPPER < extended_mnum mnum s3 ->
  _index_to_memid (extended_mnum mnum s3) = Ok memid ->
  parse_fields spec p2 p3 p4 "0" p6 p7 p8 p9 p10 p12 p13 p14 p16 =
  Ok (let mem := set_empty true
                   (set_number (extended_mnum mnum s3)
                      (set_extd_number memid Memory_new)) in
      if String.eqb s3 "1" then set_immutable immutable_fields mem else mem).
Proof.
  intros Hn Hgt H3 Hx Hid. unfold parse_fields. cbv zeta. rewrite Hn.
  cbn [bind].
  destruct (Z.gtb_spec mnum _UPPER) as [_|]; [|lia].
  rewrite H3. cbn [bind]. rewrite Hid. cbn [bind].
  change (String.eqb "0" "0") with true. cbv iota.
  unfold is_flagged_extended.
  cbn [number set_number set_empty set_extd_number].
  destruct (Z.gtb_spec (extended_mnum mnum s3) _UPPER) as [_|]; [|lia].
  rewrite H3. cbn [bind]. destruct (String.eqb s3 "1"); reflexivity.
Qed.

(** What [_cmd_erase_memory] writes for a normal channel -- the four-digit
    number and 35 zeros, 41 characters with the verb -- is, read in the
    layout of a response, an empty record with that number: its mode digit
    is '0', so the decoder sets [empty], looks at nothing else and marks
    nothing immutable. *)
Theorem erase_command_decodes_empty (n : Z) :
  0 <= n <= _UPPER ->
  let payload := Py.fmt_i 4 n ++ Py.fmt_i 35 0 in
  _cmd_erase_memory n = "MW" ++ payload /\
  String.length (_cmd_erase_memory n) = 41%nat /\
  _parse_mem ("MR" ++ payload) =
    Ok (set_empty true (set_number n Memory_new)).
Proof.
  intros Hn payload. subst payload. unfold _cmd_erase_memory.
  assert (Hb : 0 <= n < 10 ^ Z.of_nat 3)
    by (unfold _UPPER in Hn; change (10 ^ Z.of_nat 3) with 1000; lia).
  destruct (fmt_i_fits 3 n ltac:(lia) Hb) as (Ln & _ & Pn).
  rewrite (fmt_i_wider 3 n ltac:(lia) Hb).
  split; [reflexivity|]. split.
  { cbn [append String.length]. rewrite length_app, Ln. reflexivity. }
  change (Py.fmt_i 35 0)
    with (join ["00000000000"; "0"; "0"; "0"; "00"; "00"; "000"; "0"; "0";
                "000000000"; "00"; "0"; ""]).
  change ("MR" ++ String "0" (Py.fmt_i 3 n) ++
          join ["00000000000"; "0"; "0"; "0"; "00"; "00"; "000"; "0"; "0";
                "000000000"; "00"; "0"; ""])
    with ("MR" ++ "0" ++ Py.fmt_i 3 n ++
          join ["00000000000"; "0"; "0"; "0"; "00"; "00"; "000"; "0"; "0";
                "000000000"; "00"; "0"; ""]).
  rewrite (parse_mem_layout (Py.fmt_i 3 n) "00000000000" "0" "0" "0" "00"
             "00" "000" "0" "0" "000000000" "00" "0" ""
             Ln eq_refl eq_refl eq_refl eq_refl eq_refl eq_refl eq_refl
             eq_refl eq_refl eq_refl eq_refl eq_refl ltac:(cbn; lia)).
  apply parse_fields_empty; [|lia].
  now rewrite (slice_whole3 _ Ln).
Qed.

End CommandFacts.

Section DecodedNumber.

Context {imports : Imports}.

(** The number of a decoded record, from the header. *)
Lemma parse_mem_header (s : string) (mem : Memory) :
  _parse_mem s = Ok mem ->
  exists mnum,
    Py.int_of_str (Py.slice (" " ++ s) 4 7) = Ok mnum /\
    ((mnum <= _UPPER /\ number mem = mnum) \/
     (_UPPER < mnum /\ _UPPER < number mem /\
      exists s3, Py.getitem_str (" " ++ s) 3 = Ok s3 /\
                 number mem =
                   2 * mnum - _UPPER - 1 +
                   (if String.eqb s3 "1" then 1 else 0) /\
                 _index_to_memid (number mem) = Ok (extd_number mem))).
Proof.
  intros H.
  destruct (Nat.lt_ge_cases (String.length s) 29) as [Hs | Hl].
  { rewrite (parse_mem_short s Hs) in H. discriminate. }
  destruct (parse_mem_slices s Hl)
    as (c2 & c5 & c6 & c7 & c12 & G2 & _ & _ & _ & _ & E).
  rewrite E in H.
  destruct (parse_fields_header _ _ _ _ _ _ _ _ _ _ _ _ _ _ _ H)
    as (mnum & Hn & Hcase).
  rewrite (mnum_field _ _ G2) in Hn.
  exists mnum. split; [exact Hn|].
  destruct Hcase as [(Hle & Hnum & _) | (Hgt & s3 & H3 & Hnum & Hid)].
  - left. auto.
  - right. split; [exact Hgt|].
    assert (Hx : extended_mnum mnum s3 =
                 2 * mnum - _UPPER - 1 + (if String.eqb s3 "1" then 1 else 0)).
    { unfold extended_mnum. destruct (String.eqb s3 "1"); lia. }
    rewrite Hx in Hnum. split.
    + rewrite Hnum. destruct (String.eqb s3 "1"); lia.
    + exists s3. auto.
Qed.

(** Whatever else a response holds, the number of the record [_parse_mem]
    returns is read from the header: the three digits at padded positions
    4..6 for a normal channel, and for an extended wire number [mnum] the
    index 2 * mnum - UPPER - 1, plus one when [spec[3]] is '1' -- always
    beyond UPPER, and with [extd_number] the name of that index.  A record
    is never returned when the number field does not read as an integer or
    the name lookup fails. *)
Theorem parse_mem_number (s : string) (mem : Memory) :
  _parse_mem s = Ok mem ->
  exists mnum,
    Py.int_of_str (Py.slice (" " ++ s) 4 7) = Ok mnum /\
    ((mnum <= _UPPER /\ number mem = mnum) \/
     (_UPPER < mnum /\ _UPPER < number mem /\
      exists s3, Py.getitem_str (" " ++ s) 3 = Ok s3 /\
                 number mem =
                   2 * mnum - _UPPER - 1 +
                   (if String.eqb s3 "1" then 1 else 0) /\
                 _index_to_memid (number mem) = Ok (extd_number mem))).
Proof. exact (parse_mem_header s mem). Qed.

End DecodedNumber.

Section ExtendedCommands.

Context {imports : Imports} {family : FamilyImports}.

(** For a memory id whose index [i] is one of the twenty sweep-limit
    indices, the read command is "MR", the half digit and the three-digit
    wire number; every response that starts with that command and that
    [_parse_mem] accepts is decoded to a record numbered [i], named by
    [_index_to_memid i]. *)
Theorem get_command_extended_decodes (memid : string) (i : Z) :
  _memid_to_index memid = Ok i ->
  _UPPER + 1 <= i <= _UPPER + 20 ->
  exists cmd,
    _cmd_get_memory_or_split memid false = Ok (Some cmd) /\
    cmd = "MR" ++ Py.fmt_i 0 (fst (_get_range_end_mem i)) ++
          Py.fmt_i 3 (snd (_get_range_end_mem i)) /\
    String.length cmd = 6%nat /\
    forall rest mem,
      _parse_mem (cmd ++ rest) = Ok mem ->
      number mem = i /\ _index_to_memid i = Ok (extd_number mem).
Proof.
  intros Hi Hr.
  destruct (range_end_arith i Hr) as (Hh & _ & Hb & Hx).
  set (half := fst (_get_range_end_mem i)) in *.
  set (base := snd (_get_range_end_mem i)) in *.
  assert (Hb3 : 0 <= base < 10 ^ Z.of_nat 3)
    by (unfold _UPPER in Hb; change (10 ^ Z.of_nat 3) with 1000; lia).
  destruct (fmt_i_fits 3 base ltac:(lia) Hb3) as (Ln & _ & Pn).
  assert (Lh : String.length (Py.fmt_i 0 half) = 1%nat)
    by (destruct Hh as [-> | ->]; reflexivity).
  eexists. split.
  { unfold _cmd_get_memory_or_split. rewrite Hi. cbn [bind].
    destruct (Z.gtb_spec i _UPPER) as [_|]; [|lia].
    unfold fmt_d_03d. fold half. fold base. reflexivity. }
  split; [reflexivity|]. split.
  { cbn [append String.length]. rewrite length_app, Lh, Ln. reflexivity. }
  intros rest mem H.
  destruct (parse_mem_header _ _ H) as (mnum & Hn & Hcase).
  remember (Py.fmt_i 0 half) as hs eqn:Ehs.
  remember (Py.fmt_i 3 base) as n3 eqn:En3.
  explode hs Lh. explode n3 Ln.
  assert (H47 : Py.slice (" " ++ ("MR" ++ String a "" ++
                  String a0 (String a1 (String a2 ""))) ++ rest) 4 7 =
                String a0 (String a1 (String a2 ""))).
  { unfold Py.slice. cbn [append substring Nat.sub]. now destruct rest. }
  assert (H3 : Py.getitem_str (" " ++ ("MR" ++ String a "" ++
                 String a0 (String a1 (String a2 ""))) ++ rest) 3 =
               Ok (String a "")) by reflexivity.
  rewrite H47, Pn in Hn. injection Hn as <-.
  destruct Hcase as [(Hle & _) | (_ & _ & s3 & H3' & Hnum & Hid)]; [lia|].
  rewrite H3 in H3'. injection H3' as <-.
  assert (Hxi : 2 * base - _UPPER - 1 +
                (if String.eqb (String a "") "1" then 1 else 0) = i).
  { rewrite <- Hx. unfold extended_mnum.
    destruct (String.eqb (String a "") "1"); lia. }
  rewrite Hxi in Hnum. rewrite Hnum in Hid. auto.
Qed.

(** A split is never commanded for a sweep-limit channel: building the split
    read command gives no command at all, and building the split write
    command raises "Can't set split on start/end memories", whatever the
    record holds. *)
Theorem split_refused_beyond_upper (memid : string) (i : Z) :
  _memid_to_index memid = Ok i ->
  _UPPER < i ->
  _cmd_get_memory_or_split memid true = Ok None /\
  forall memory,
    _cmd_set_memory_or_split memid memory true =
    Raise (RadioError "Can't set split on start/end memories").
Proof.
  intros Hi Hgt.
  unfold _cmd_get_memory_or_split, _cmd_set_memory_or_split.
  rewrite Hi. cbn [bind].
  destruct (Z.gtb_spec i _UPPER) as [_|]; [|lia].
  split; [reflexivity|]. intros memory. reflexivity.
Qed.

End ExtendedCommands.

Section EraseExtended.

Context {imports : Imports} {family : FamilyImports}.

(** Erasing a sweep-limit channel through [_cmd_set_memory_or_split]: for a
    record marked empty the command is "MW", the half digit, the wire
    number, 35 zeros and ";ID", whatever the other fields of the record
    hold; what it writes reads back as an empty record numbered with the
    logical index, marked immutable exactly for the "end" half. *)
Theorem set_erase_extended (memid e : string) (memory : Memory) (i : Z) :
  _memid_to_index memid = Ok i ->
  _UPPER + 1 <= i <= _UPPER + 20 ->
  empty memory = true ->
  _index_to_memid i = Ok e ->
  let payload := fmt_d_03d (_get_range_end_mem i) ++ Py.fmt_i 35 0 in
  _cmd_set_memory_or_split memid memory false = Ok ("MW" ++ payload ++ ";ID")
  /\
  _parse_mem ("MR" ++ payload) =
    Ok (let mem := set_empty true
                     (set_number i (set_extd_number e Memory_new)) in
        if fst (_get_range_end_mem i) =? 1
        then set_immutable immutable_fields mem else mem).
Proof.
  intros Hi Hr He Hid payload. subst payload.
  destruct (range_end_arith i Hr) as (Hh & _ & Hb & Hx).
  unfold fmt_d_03d.
  set (half := fst (_get_range_end_mem i)) in *.
  set (base := snd (_get_range_end_mem i)) in *.
  split.
  { unfold _cmd_set_memory_or_split. rewrite Hi. cbn [bind].
    destruct (Z.gtb_spec i _UPPER) as [_|]; [|lia].
    cbn [bind]. rewrite He. unfold fmt_d_03d. fold half. fold base.
    now rewrite !app_assoc_str. }
  assert (Hb3 : 0 <= base < 10 ^ Z.of_nat 3)
    by (unfold _UPPER in Hb; change (10 ^ Z.of_nat 3) with 1000; lia).
  destruct (fmt_i_fits 3 base ltac:(lia) Hb3) as (Ln & _ & Pn).
  assert (Lh : String.length (Py.fmt_i 0 half) = 1%nat)
    by (destruct Hh as [-> | ->]; reflexivity).
  rewrite app_assoc_str.
  change (Py.fmt_i 35 0)
    with (join ["00000000000"; "0"; "0"; "0"; "00"; "00"; "000"; "0"; "0";
                "000000000"; "00"; "0"; ""]).
  destruct (parse_mem_layout_any (Py.fmt_i 0 half) (Py.fmt_i 3 base)
              "00000000000" "0" "0" "0" "00" "00" "000" "0" "0" "000000000"
              "00" "0" ""
              Lh Ln eq_refl eq_refl eq_refl eq_refl eq_refl eq_refl eq_refl
              eq_refl eq_refl eq_refl eq_refl eq_refl ltac:(cbn; lia))
    as (H3 & ->).
  assert (Hgt : _UPPER < extended_mnum base (Py.fmt_i 0 half))
    by (rewrite Hx; lia).
  rewrite (parse_fields_empty_extended _ _ _ _ _ _ _ _ _ _ _ _ _
             (Py.fmt_i 0 half) e base);
    [ | now rewrite (slice_whole3 _ Ln) | lia | exact H3 | exact Hgt
      | now rewrite Hx ].
  rewrite Hx. cbv zeta.
  destruct Hh as [-> | ->]; reflexivity.
Qed.

(** Writing a normal channel: with the memory id the three-digit number, the
    command for a non-empty record numbered 0..UPPER whose tone mode is
    "Tone", "TSQL" or "DTCS", whose duplex is "", "+" or "-", whose mode is
    one of [_MODES], whose step is in the table of its mode, whose tones and
    DTCS code are in their tables, whose skip is "" or "S" and whose name,
    frequency and offset fit their fields is "MW0", the id, the joined
    fields and ";ID"; the same text with "MR" for "MW" and without ";ID" is
    decoded by [_parse_mem] to a record equal to the one written on
    frequency, mode, step, tones, DTCS code, duplex, offset, skip, tone mode
    and name. *)
Theorem write_command_reads_back (memid : string) (mem : Memory) :
  _memid_to_index memid = Ok (number mem) ->
  memid = Py.fmt_i 3 (number mem) ->
  empty mem = false ->
  0 <= number mem <= _UPPER ->
  In (tmode mem) ["Tone"; "TSQL"; "DTCS"] ->
  In (mode mem) ["LSB"; "USB"; "CW"; "FM"; "AM"; "FSK"; "CW-R"; "FSK-R"] ->
  Py.float_in (tuning_step mem) (steps_for (mode mem)) = true ->
  Py.float_in (rtone mem) _TONES = true ->
  Py.float_in (ctone mem) _TONES = true ->
  In (dtcs mem) DTCS_CODES ->
  In (duplex mem) [""; "+"; "-"] ->
  In (skip mem) [""; "S"] ->
  (String.length (name mem) <= 7)%nat ->
  0 <= freq mem < 10 ^ 11 ->
  0 <= offset mem < 10 ^ 9 ->
  (List.length _TONES <= 99)%nat ->
  (List.length DTCS_CODES <= 1000)%nat ->
  exists spec mem',
    _cmd_set_memory_or_split memid mem false =
      Ok ("MW" ++ "0" ++ memid ++ join spec ++ ";ID") /\
    _parse_mem ("MR" ++ "0" ++ memid ++ join spec) = Ok mem' /\
    number mem' = number mem /\ freq mem' = freq mem /\
    mode mem' = mode mem /\ Qeq (tuning_step mem') (tuning_step mem) /\
    Qeq (rtone mem') (rtone mem) /\ Qeq (ctone mem') (ctone mem) /\
    dtcs mem' = dtcs mem /\ duplex mem' = duplex mem /\
    offset mem' = offset mem /\ skip mem' = skip mem /\
    tmode mem' = tmode mem /\ name mem' = name mem.
Proof.
  intros Hi Hid He Hnum Htm Hmd Hst Hrt Hct Hdt Hdu Hsk Hnm Hfr Hof HlT HlD.
  assert (Htm' : In (tmode mem) _TMODES) by (cbn in Htm |- *; tauto).
  assert (Hne : tmode mem <> "").
  { intros E. rewrite E in Htm. cbn in Htm.
    repeat (destruct Htm as [Htm | Htm]; [discriminate|]). exact Htm. }
  assert (Hdu' : In (duplex mem) [""; "+"; "-"; "split"])
    by (cbn in Hdu |- *; tauto).
  assert (Hns : String.eqb (duplex mem) "split" = false).
  { apply String.eqb_neq. intros E. rewrite E in Hdu. cbn in Hdu.
    repeat (destruct Hdu as [Hdu | Hdu]; [discriminate|]). exact Hdu. }
  destruct (mem_spec_decode_gen memid mem Hnum Htm' Hmd Hst
              (fun _ => conj Hrt (conj Hct Hdt)) Hdu' Hsk Hnm Hfr
              (fun _ => Hof) HlT HlD)
    as (spec & rt & ct & dt & Es & Et & _ & _ & Hdec).
  destruct (encode_tones_valid mem Htm' (fun _ => conj Hrt (conj Hct Hdt))
              HlT HlD)
    as (rt' & ct' & dt' & Et' & _ & _ & _ & _ & Hnz).
  rewrite Et in Et'. injection Et' as <- <- <-.
  destruct (Hnz Hne) as (r & c & Gr & Qr & Gc & Qc & Gd).
  destruct (Hdec r c (dtcs mem) Gr Gc Gd)
    as (mem' & Hp & H1 & H2 & H3 & H4 & H5 & H6 & H7 & H8 & H9 & H10 & H11
        & H12 & _).
  rewrite Hns in H10, H11.
  exists spec, mem'. split.
  { unfold _cmd_set_memory_or_split. rewrite Hi. cbn [bind].
    destruct (Z.gtb_spec (number mem) _UPPER) as [|_]; [lia|].
    cbn [bind]. rewrite He, Es. cbn [bind]. reflexivity. }
  split.
  { rewrite Hid. exact Hp. }
  rewrite H7, H8. repeat split; assumption.
Qed.

End EraseExtended.

(** ** The identity response *)

Lemma length_substring (s : string) :
  forall i n,
  String.length (substring i n s) = Nat.min n (String.length s - i).
Proof.
  induction s as [|c s IH]; intros i n.
  - destruct i, n; reflexivity.
  - destruct i as [|i].
    + destruct n as [|n]; [reflexivity|].
      cbn [substring String.length]. rewrite (IH 0%nat n).
      rewrite Nat.sub_0_r. cbn [Nat.sub Nat.min]. reflexivity.
    + cbn [substring String.length Nat.sub]. apply IH.
Qed.

Lemma substring_0_0 (s : string) : substring 0 0 s = "".
Proof. now destruct s. Qed.

(** [_parse_id_response] returns an identity exactly for the responses that
    end in "ID" followed by three characters, and the identity is those
    three characters; every other response -- in particular every response
    shorter than five characters -- gives [None]. *)
Theorem parse_id_response_spec (resp : string) :
  (forall r, _parse_id_response resp = Some r <->
             String.length r = 3%nat /\ exists x, resp = x ++ "ID" ++ r) /\
  ((String.length resp < 5)%nat -> _parse_id_response resp = None).
Proof.
  assert (Hfw : forall x r, String.length r = 3%nat ->
                _parse_id_response (x ++ "ID" ++ r) = Some r).
  { intros x r Hr. unfold _parse_id_response, PySlice.slice_from,
      PySlice.slice, PySlice.clamp.
    rewrite !length_app, Hr. cbn [String.length].
    set (len := Z.of_nat (String.length x + (2 + 3))).
    assert (Hlen : len = Z.of_nat (String.length x) + 5) by (subst len; lia).
    change (-5 <? 0) with true. change (-3 <? 0) with true. cbv iota.
    destruct (Z.ltb_spec len 0); [lia|].
    replace (Z.to_nat (Z.max 0 (len + -5))) with (String.length x) by lia.
    replace (Z.to_nat (Z.max 0 (len + -3) - Z.max 0 (len + -5)))
      with 2%nat by lia.
    replace (Z.to_nat (Z.max 0 (len + -3)))
      with (String.length x + 2)%nat by lia.
    replace (Z.to_nat (Z.min len len - Z.max 0 (len + -3)))
      with 3%nat by lia.
    rewrite (substring_skip x _ _ 2 _ eq_refl) by lia.
    rewrite Nat.sub_diag. cbn [append substring].
    rewrite substring_0_0.
    change (String.eqb "ID" "ID") with true. cbv iota.
    rewrite (substring_skip x _ _ 3 _ eq_refl) by lia.
    replace (String.length x + 2 - String.length x)%nat with 2%nat by lia.
    cbn [append substring]. f_equal. now apply substring_all; lia. }
  assert (Hbw : forall r, _parse_id_response resp = Some r ->
                String.length r = 3%nat /\ exists x, resp = x ++ "ID" ++ r).
  { intros r H. unfold _parse_id_response in H.
    destruct (String.eqb_spec (PySlice.slice resp (-5) (-3)) "ID")
      as [E | _]; [|discriminate].
    injection H as <-.
    unfold PySlice.slice_from, PySlice.slice, PySlice.clamp in *.
    set (n := String.length resp) in *.
    change (-5 <? 0) with true in E. change (-3 <? 0) with true in *.
    cbv iota in *.
    destruct (Z.ltb_spec (Z.of_nat n) 0); [lia|].
    assert (HL := f_equal String.length E).
    rewrite length_substring in HL. cbn [String.length] in HL. fold n in HL.
    assert (H5 : (5 <= n)%nat) by lia.
    replace (Z.to_nat (Z.max 0 (Z.of_nat n + -5))) with (n - 5)%nat in E
      by lia.
    replace (Z.to_nat (Z.max 0 (Z.of_nat n + -3) -
                       Z.max 0 (Z.of_nat n + -5))) with 2%nat in E by lia.
    replace (Z.to_nat (Z.max 0 (Z.of_nat n + -3))) with (n - 5 + 2)%nat
      by lia.
    replace (Z.to_nat (Z.min (Z.of_nat n) (Z.of_nat n) -
                       Z.max 0 (Z.of_nat n + -3))) with 3%nat by lia.
    split.
    - rewrite length_substring. fold n. lia.
    - exists (substring 0 (n - 5) resp).
      rewrite <- E.
      rewrite (substring_split resp (n - 5) 2 3).
      change (substring 0 (n - 5) resp ++ substring (n - 5) (2 + 3) resp)
        with (substring 0 (n - 5) resp ++
              substring (0 + (n - 5)) (2 + 3) resp).
      rewrite (substring_split resp 0 (n - 5) (2 + 3)).
      symmetry. apply substring_all. fold n. lia. }
  split.
  - intros r. split; [apply Hbw|].
    intros (Hr & x & ->). now apply Hfw.
  - intros Hs. destruct (_parse_id_response resp) as [r|]; [|reflexivity].
    destruct (Hbw r eq_refl) as (Hr & x & ->).
    rewrite !length_app, Hr in Hs. cbn [String.length] in Hs. lia.
Qed.

(** ** The DTMF memory group *)

Lemma dtmf_value_cons (c : ascii) (v : string) :
  dtmf_value (String c v) = if Ascii.eqb c " " then " " else String c v.
Proof.
  unfold dtmf_value. cbn [String.eqb Py.slice Nat.sub substring].
  rewrite substring_0_0. cbn [String.eqb].
  destruct (Ascii.eqb c " "); reflexivity.
Qed.

(** The value sent for a DTMF element is a single blank when the stored
    value is empty or starts with a blank -- the radio's delete convention
    -- and the stored value otherwise; it is never empty, and coercing
    twice changes nothing. *)
Theorem dtmf_value_spec (v : string) :
  (v = "" \/ String.get 0 v = Some " "%char -> dtmf_value v = " ") /\
  (v <> "" -> String.get 0 v <> Some " "%char -> dtmf_value v = v) /\
  dtmf_value v <> "" /\
  dtmf_value (dtmf_value v) = dtmf_value v.
Proof.
  destruct v as [|c v].
  - repeat split; try reflexivity; try congruence. discriminate.
  - rewrite (dtmf_value_cons c v).
    destruct (Ascii.eqb_spec c " ") as [-> | Hc].
    + split; [reflexivity|]. split; [cbn [String.get]; congruence|].
      split; [discriminate | reflexivity].
    + split.
      { intros [H | H]; [discriminate|].
        cbn [String.get] in H. congruence. }
      split; [reflexivity|]. split; [discriminate|].
      rewrite (dtmf_value_cons c v).
      destruct (Ascii.eqb_spec c " "); [congruence | reflexivity].
Qed.

Section DTMFFacts.

Context {transport : Transport}.

Lemma sent_commands_app (a b : list call) :
  sent_commands (a ++ b) = (sent_commands a ++ sent_commands b)%list.
Proof. unfold sent_commands. apply flat_map_app. Qed.

(** One set adds at most its own command to the history, and exactly that
    when it returns. *)
Lemma kenwood_set_history (cmd value : string) (h : list call) :
  exists l,
    snd (_kenwood_set cmd value h) = (h ++ l)%list /\
    (sent_commands l = [] \/
     sent_commands l = [cmd ++ value ++ ";" ++ cmd]) /\
    (forall u, fst (_kenwood_set cmd value h) = Ok u ->
               sent_commands l = [cmd ++ value ++ ";" ++ cmd]).
Proof.
  unfold _kenwood_set, io_bind, _do_prerequisite, _command, _CMD_DELIMITER.
  destruct (radio_prerequisite h cmd false true) as [u1|e1].
  - destruct (radio_response _ _) as [resp|e2].
    + destruct (radio_prerequisite _ cmd false false) as [u3|e3].
      * exists [Prerequisite cmd false true;
                Command (cmd ++ value ++ ";" ++ cmd);
                Prerequisite cmd false false].
        split.
        { destruct (negb _); cbn [snd io_raise io_ret];
            now rewrite <- !List.app_assoc. }
        split; [now right|]. intros _ _. reflexivity.
      * exists [Prerequisite cmd false true;
                Command (cmd ++ value ++ ";" ++ cmd);
                Prerequisite cmd false false].
        split; [cbn [snd]; now rewrite <- !List.app_assoc|].
        split; [now right|]. intros u H. discriminate H.
    + exists [Prerequisite cmd false true;
              Command (cmd ++ value ++ ";" ++ cmd)].
      split; [cbn [snd]; now rewrite <- !List.app_assoc|].
      split; [now right|]. intros u H. discriminate H.
  - exists [Prerequisite cmd false true].
    split; [reflexivity|]. split; [now left|]. intros u H. discriminate H.
Qed.

(** [set_setting_to_radio] keeps the names and values of the elements.  The
    commands it adds to the history are an initial part of the set commands
    of the changed elements, in order, each carrying the coerced value;
    nothing is sent for an unchanged element.  When it returns normally,
    all of them were sent and every changed flag is cleared. *)
Theorem dtmf_set_setting_to_radio (elements : list Element) :
  forall h,
  let r := fst (fst (set_setting_to_radio elements h)) in
  let elements' := snd (fst (set_setting_to_radio elements h)) in
  let h' := snd (set_setting_to_radio elements h) in
  map el_name elements' = map el_name elements /\
  map el_value elements' = map el_value elements /\
  (exists k, sent_commands h' =
             (sent_commands h ++ firstn k (dtmf_commands elements))%list) /\
  (r = Ok tt ->
   sent_commands h' = (sent_commands h ++ dtmf_commands elements)%list /\
   forall e, In e elements' -> el_changed e = false).
Proof.
  induction elements as [|e rest IH]; intros h; cbv zeta.
  - cbn. repeat split; try (now rewrite List.app_nil_r).
    + exists 0%nat. now rewrite List.app_nil_r.
    + intros e [].
  - cbn [set_setting_to_radio]. unfold dtmf_commands. cbn [filter].
    destruct (el_changed e) eqn:Ec; cbn [negb].
    + destruct (kenwood_set_history (el_name e) (dtmf_value (el_value e)) h)
        as (l & Hh & Hl & Hok).
      destruct (_kenwood_set (el_name e) (dtmf_value (el_value e)) h)
        as [[u|x] h1] eqn:Es; cbn [fst snd] in Hh, Hok; subst h1.
      * specialize (IH (h ++ l)%list). cbv zeta in IH.
        destruct (set_setting_to_radio rest (h ++ l)) as [[r rest'] h']
          eqn:Er.
        cbn [fst snd] in IH |- *.
        destruct IH as (In1 & In2 & (k & Hk) & Hfin).
        rewrite sent_commands_app, (Hok u eq_refl) in Hk.
        cbn [map]. split; [now rewrite In1|]. split; [now rewrite In2|].
        split.
        { exists (S k). rewrite Hk. cbn [firstn].
          now rewrite <- List.app_assoc. }
        intros Hr. destruct (Hfin Hr) as (Hall & Hflags).
        rewrite sent_commands_app, (Hok u eq_refl) in Hall.
        split; [rewrite Hall; now rewrite <- List.app_assoc|].
        intros e' [<- | Hin]; [reflexivity | now apply Hflags].
      * cbn [fst snd]. split; [reflexivity|]. split; [reflexivity|].
        split.
        { rewrite sent_commands_app.
          destruct Hl as [-> | ->].
          - exists 0%nat. reflexivity.
          - exists 1%nat. reflexivity. }
        intros H. discriminate H.
    + specialize (IH h). cbv zeta in IH.
      destruct (set_setting_to_radio rest h) as [[r rest'] h'] eqn:Er.
      cbn [fst snd] in IH |- *.
      destruct IH as (In1 & In2 & Hk & Hfin).
      cbn [map]. split; [now rewrite In1|]. split; [now rewrite In2|].
      split; [exact Hk|].
      intros Hr. destruct (Hfin Hr) as (Hall & Hflags).
      split; [exact Hall|].
      intros e' [<- | Hin]; [exact Ec | now apply Hflags].
Qed.

End DTMFFacts.

(** ** Worked instances *)

Lemma short_response_raises_witness :
  _parse_mem "MR0005000000000000" = Raise IndexError.
Proof.
  apply (@short_response_raises sample_imports). cbn. lia.
Defined.

Lemma mem_spec_decode_witness :
  exists spec mem',
    _make_mem_spec "005" test_split_mem = Ok spec /\
    _parse_mem (mr_response 5 spec) = Ok mem' /\
    freq mem' = 14205000 /\ duplex mem' = "" /\ offset mem' = 0 /\
    tmode mem' = "Tone".
Proof.
  destruct (@mem_spec_decode sample_imports "005" test_split_mem
              ltac:(unfold _UPPER; cbn; lia)
              ltac:(vm_compute; tauto) ltac:(vm_compute; tauto) eq_refl
              (fun _ => conj eq_refl (conj eq_refl
                 (ltac:(vm_compute; tauto)
                  : In (dtcs test_split_mem) sample_DTCS_CODES)))
              ltac:(vm_compute; tauto) ltac:(vm_compute; tauto)
              ltac:(cbn; lia) ltac:(cbn; lia)
              ltac:(intros H; exfalso; apply H; reflexivity)
              ltac:(cbn; lia) ltac:(cbn; lia))
    as (spec & rt & ct & dt & Es & Et & _ & Hdec).
  assert (Et0 : encode_tones test_split_mem = Ok (8, 8, 0)) by reflexivity.
  rewrite Et0 in Et. injection Et as <- <- <-.
  destruct (Hdec (885 # 10)%Q (885 # 10)%Q 23 eq_refl eq_refl eq_refl)
    as (mem' & Hp & _ & Hf & _ & _ & _ & Ht & _ & _ & _ & Hd & Ho & _).
  exists spec, mem'.
  split; [exact Es|]. split; [exact Hp|]. split; [exact Hf|].
  split; [exact Hd|]. split; [exact Ho | exact Ht].
Defined.

Lemma tone_off_decodes_table_ends_witness :
  exists spec mem',
    _make_mem_spec "005" test_tone_off_mem = Ok spec /\
    _parse_mem (mr_response 5 spec) = Ok mem' /\
    tmode mem' = "" /\
    rtone mem' = (2503 # 10)%Q /\ ctone mem' = (2503 # 10)%Q /\
    dtcs mem' = 23 /\ rtone test_tone_off_mem = (885 # 10)%Q.
Proof.
  destruct (@tone_off_decodes_table_ends sample_imports "005"
              test_tone_off_mem 0%Q 0
              ltac:(unfold _UPPER; cbn; lia) eq_refl
              ltac:(vm_compute; tauto) eq_refl ltac:(vm_compute; tauto) ltac:(vm_compute; tauto)
              ltac:(cbn; lia) ltac:(cbn; lia)
              ltac:(intros _; cbn; lia)
              ltac:(discriminate) ltac:(discriminate)
              ltac:(cbn; lia) ltac:(cbn; lia))
    as (spec & mem' & Es & Hp & Ht & Hr & Hc & Hd).
  exists spec, mem'.
  split; [exact Es|]. split; [exact Hp|]. split; [exact Ht|].
  split; [exact Hr|]. split; [exact Hc|]. split; [exact Hd | reflexivity].
Defined.

Lemma split_spec_agrees_with_mem_spec_witness :
  exists sspec,
    _make_split_spec "005" test_split_mem = Ok sspec /\
    nth_error sspec 0 = Some "00014300000" /\
    nth_error sspec 9 = Some "000000000" /\
    nth_error sspec 1 = Some "2".
Proof.
  destruct (@split_spec_agrees_with_mem_spec sample_imports "005"
              test_split_mem) as [_ H].
  destruct (H _ eq_refl) as (sspec & Es & _ & H0 & H9 & Hrest).
  exists sspec.
  split; [exact Es|]. split; [exact H0|]. split; [exact H9|].
  rewrite (Hrest 1%nat ltac:(discriminate) ltac:(discriminate)).
  reflexivity.
Defined.

Lemma split_record_roundtrip_witness :
  exists spec sspec mem1 mem2,
    _make_mem_spec "005" test_split_mem = Ok spec /\
    _make_split_spec "005" test_split_mem = Ok sspec /\
    _parse_mem (mr_response 5 spec) = Ok mem1 /\
    _parse_split mem1 ("MR" ++ "1" ++ Py.fmt_i 3 5 ++ join sspec) = Ok mem2 /\
    freq mem2 = 14205000 /\ duplex mem2 = "split" /\ offset mem2 = 14300000.
Proof.
  destruct (@split_record_roundtrip sample_imports "005" test_split_mem
              ltac:(unfold _UPPER; cbn; lia)
              ltac:(vm_compute; tauto) ltac:(vm_compute; tauto) eq_refl
              (fun _ => conj eq_refl (conj eq_refl
                 (ltac:(vm_compute; tauto)
                  : In (dtcs test_split_mem) sample_DTCS_CODES)))
              eq_refl ltac:(vm_compute; tauto)
              ltac:(cbn; lia) ltac:(cbn; lia) ltac:(cbn; lia)
              ltac:(discriminate) ltac:(discriminate)
              ltac:(cbn; lia) ltac:(cbn; lia))
    as (spec & sspec & mem1 & mem2 & Es & Ess & Hp & Hps & Hf & _ & _ & Hne
        & _).
  exists spec, sspec, mem1, mem2.
  destruct (Hne ltac:(discriminate)) as [Hd Ho].
  split; [exact Es|]. split; [exact Ess|]. split; [exact Hp|].
  split; [exact Hps|]. split; [exact Hf|]. split; [exact Hd | exact Ho].
Defined.

Lemma parse_split_idempotent_witness :
  _parse_split (set_offset 14300000 (set_duplex "split" test_mem))
    "MR100500014300000200000000000000000000000" =
  Ok (set_offset 14300000 (set_duplex "split" test_mem)).
Proof.
  apply (parse_split_idempotent test_mem _
           "MR100500014300000200000000000000000000000").
  reflexivity.
Defined.

Lemma wire_pair_roundtrip_witness :
  _UPPER + 1 <= extended_mnum 295 "1" <= _UPPER + 20 /\
  _get_range_end_mem (extended_mnum 295 "1") = (1, 295).
Proof.
  apply (wire_pair_roundtrip 1 295).
  - right. reflexivity.
  - unfold _UPPER. lia.
Defined.

Lemma erase_command_decodes_empty_witness :
  _cmd_erase_memory 42 = "MW004200000000000000000000000000000000000" /\
  exists mem,
    _parse_mem "MR004200000000000000000000000000000000000" = Ok mem /\
    empty mem = true /\ number mem = 42.
Proof.
  destruct (@erase_command_decodes_empty sample_imports 42
              ltac:(unfold _UPPER; lia)) as (Hc & _ & Hp).
  split; [exact Hc|].
  eexists. split; [exact Hp|]. split; reflexivity.
Defined.

Lemma parse_mem_number_witness :
  exists mem,
    _parse_mem "MR129000014205000211080800001000100000000TEST" = Ok mem /\
    number mem = 291 /\ _index_to_memid 291 = Ok (extd_number mem).
Proof.
  eexists. split; [reflexivity|].
  destruct (@parse_mem_number sample_imports
              "MR129000014205000211080800001000100000000TEST" _ eq_refl)
    as (mnum & Hn & Hcase).
  assert (E : Py.int_of_str
                (Py.slice
                   (" " ++ "MR129000014205000211080800001000100000000TEST")
                   4 7) = Ok 290) by reflexivity.
  rewrite E in Hn. injection Hn as <-.
  destruct Hcase as [(Hle & _) | (_ & _ & s3 & H3 & Hnum & Hid)].
  - unfold _UPPER in Hle. lia.
  - assert (E3 : Py.getitem_str
                   (" " ++ "MR129000014205000211080800001000100000000TEST")
                   3 = Ok "1") by reflexivity.
    rewrite E3 in H3. injection H3 as <-.
    split; [exact Hnum | exact Hid].
Defined.

Lemma get_command_extended_decodes_witness :
  @_cmd_get_memory_or_split sample_family "293" false = Ok (Some "MR1291") /\
  forall rest mem,
    _parse_mem ("MR1291" ++ rest) = Ok mem -> number mem = 293.
Proof.
  destruct (@get_command_extended_decodes sample_imports sample_family
              "293" 293 eq_refl ltac:(unfold _UPPER; lia))
    as (cmd & Hc & He & _ & Hdec).
  assert (E : cmd = "MR1291") by (rewrite He; reflexivity).
  subst cmd. split; [exact Hc|].
  intros rest mem H. exact (proj1 (Hdec rest mem H)).
Defined.

Lemma split_refused_beyond_upper_witness :
  @_cmd_get_memory_or_split sample_family "293" true = Ok None /\
  @_cmd_set_memory_or_split sample_imports sample_family "293" test_mem true
    = Raise (RadioError "Can't set split on start/end memories").
Proof.
  destruct (@split_refused_beyond_upper sample_imports sample_family
              "293" 293 eq_refl ltac:(unfold _UPPER; lia)) as [Hg Hs].
  split; [exact Hg | exact (Hs test_mem)].
Defined.

Lemma set_erase_extended_witness :
  @_cmd_set_memory_or_split sample_imports sample_family "293"
    (set_empty true (set_duplex "off" test_mem)) false =
    Ok "MW129100000000000000000000000000000000000;ID" /\
  exists mem,
    _parse_mem "MR129100000000000000000000000000000000000" = Ok mem /\
    empty mem = true /\ number mem = 293 /\ extd_number mem = "291 End" /\
    immutable mem = immutable_fields.
Proof.
  destruct (@set_erase_extended sample_imports sample_family "293" "291 End"
              (set_empty true (set_duplex "off" test_mem)) 293
              eq_refl ltac:(unfold _UPPER; lia) eq_refl eq_refl)
    as [Hc Hp].
  split; [exact Hc|].
  eexists. split; [exact Hp|]. repeat split; reflexivity.
Defined.

Lemma write_command_reads_back_witness :
  exists spec mem',
    @_cmd_set_memory_or_split sample_imports sample_family "005" test_mem
      false = Ok ("MW" ++ "0" ++ "005" ++ join spec ++ ";ID") /\
    @_cmd_set_memory_or_split sample_imports sample_family "005" test_mem
      false = Ok "MW000500014205000201080800000000000000000TEST;ID" /\
    _parse_mem ("MR" ++ "0" ++ "005" ++ join spec) = Ok mem' /\
    freq mem' = 14205000 /\ name mem' = "TEST".
Proof.
  destruct (@write_command_reads_back sample_imports sample_family "005"
              test_mem eq_refl eq_refl eq_refl
              ltac:(unfold _UPPER; cbn; lia)
              ltac:(vm_compute; tauto) ltac:(vm_compute; tauto)
              eq_refl eq_refl eq_refl
              ltac:(vm_compute; tauto) ltac:(vm_compute; tauto)
              ltac:(vm_compute; tauto)
              ltac:(cbn; lia) ltac:(cbn; lia) ltac:(cbn; lia)
              ltac:(cbn; lia) ltac:(cbn; lia))
    as (spec & mem' & Hc & Hp & _ & Hf & _ & _ & _ & _ & _ & _ & _ & _ & _
        & Hn).
  exists spec, mem'.
  split; [exact Hc|]. split; [reflexivity|]. split; [exact Hp|].
  split; [exact Hf | exact Hn].
Defined.

Lemma parse_id_response_spec_witness :
  _parse_id_response "ID019" = Some "019" /\
  _parse_id_response "D019" = None.
Proof.
  destruct (parse_id_response_spec "ID019") as [H _].
  destruct (parse_id_response_spec "D019") as [_ H'].
  split.
  - apply (proj2 (H "019")). split; [reflexivity|]. now exists "".
  - apply H'. cbn. lia.
Defined.

Lemma dtmf_value_spec_witness :
  dtmf_value "" = " " /\ dtmf_value " 123" = " " /\ dtmf_value "123" = "123".
Proof.
  split; [|split].
  - apply (proj1 (dtmf_value_spec "")). now left.
  - apply (proj1 (dtmf_value_spec " 123")). now right.
  - apply (proj1 (proj2 (dtmf_value_spec "123"))); discriminate.
Defined.

Lemma dtmf_set_setting_to_radio_witness :
  let elements := [mkElement "EX0450130" "HOME" true;
                   mkElement "EX0450131" " 5551234" true] in
  fst (fst (@set_setting_to_radio echo_radio elements [])) = Ok tt /\
  sent_commands (snd (@set_setting_to_radio echo_radio elements [])) =
    ["EX0450130HOME;EX0450130"; "EX0450131 ;EX0450131"] /\
  forall e,
    In e (snd (fst (@set_setting_to_radio echo_radio elements []))) ->
    el_changed e = false.
Proof.
  intros elements.
  destruct (@dtmf_set_setting_to_radio echo_radio elements [])
    as (_ & _ & _ & Hfin).
  split; [reflexivity|].
  destruct (Hfin eq_refl) as [Hall Hflags].
  split; [exact Hall | exact Hflags].
Defined.

(** ** A step outside the table of the mode *)

Lemma index_from_missing {A : Type} (eqb : A -> A -> bool) (x : A)
  (l : list A) :
  forall k, existsb (fun y => eqb y x) l = false ->
  Py.index_from eqb l x k = Raise ValueError.
Proof.
  induction l as [|a l IH]; intros k H; [reflexivity|].
  cbn [existsb] in H. apply orb_false_iff in H as [Ha Hl].
  cbn [Py.index_from]. rewrite Ha. now apply IH.
Qed.

Section StepRejected.

Context {imports : Imports}.

(** A record whose tuning step is not in the step table selected by its
    mode -- such as an SSB step on an FM channel -- is refused by both
    builders with [ValueError], before tones, mode or tone mode are looked
    at. *)
Theorem step_outside_table_rejected (memid : string) (mem : Memory) :
  Py.float_in (tuning_step mem) (steps_for (mode mem)) = false ->
  In (duplex mem) [""; "+"; "-"; "split"] ->
  _make_mem_spec memid mem = Raise ValueError /\
  _make_split_spec memid mem = Raise ValueError.
Proof.
  intros Hst Hdu.
  destruct (duplex_block _ (offset mem) Hdu) as (dc & E1 & E2 & _).
  assert (Es : encode_step mem = Raise ValueError)
    by (unfold encode_step, Py.index; now apply index_from_missing).
  unfold _make_mem_spec, _make_split_spec.
  rewrite E1, E2. cbn [bind]. rewrite Es. split; reflexivity.
Qed.

End StepRejected.

Lemma step_outside_table_rejected_witness :
  Py.float_in 1 _FM_STEPS = false /\
  _make_mem_spec "005" (set_mode "FM" test_mem) = Raise ValueError /\
  _make_split_spec "005" (set_mode "FM" test_mem) = Raise ValueError.
Proof.
  split; [reflexivity|].
  apply (@step_outside_table_rejected sample_imports "005"
           (set_mode "FM" test_mem)).
  - reflexivity.
  - vm_compute. tauto.
Defined.

(** ** Tone fields and step field of the spec *)

Section SpecFields.

Context {imports : Imports}.

(** The tuple [_make_mem_spec] returns, from the values it computes. *)
Lemma make_mem_spec_eval (memid : string) (mem : Memory)
  (dc ov st rt ct dt mc tc : Z) :
  (if Py.contains (duplex mem) " +-" then
     x <- get_dict_rev _DUPLEX (duplex mem) ;; Ok (x, offset mem)
   else if String.eqb (duplex mem) "split" then Ok (0, 0)
   else _ <- LOG_error ("Bug: unsupported duplex `" ++ duplex mem ++ "'") ;;
        Raise (UnboundLocalError "duplex")) = Ok (dc, ov) ->
  encode_step mem = Ok st ->
  encode_tones mem = Ok (rt, ct, dt) ->
  get_dict_rev _MODES (mode mem) = Ok mc ->
  Py.index String.eqb _TMODES (tmode mem) = Ok tc ->
  _make_mem_spec memid mem =
  Ok [ Py.fmt_i 11 (freq mem); Py.fmt_i 0 mc;
       Py.fmt_bool (String.eqb (skip mem) "S"); Py.fmt_i 0 tc;
       Py.fmt_i 2 rt; Py.fmt_i 2 ct; Py.fmt_i 3 dt; "0";
       Py.fmt_i 0 dc; Py.fmt_i 9 ov; Py.fmt_i 2 st; "0"; name mem ].
Proof.
  intros Ed Es Et Em Etm. unfold _make_mem_spec.
  rewrite Ed. cbn [bind]. rewrite Es. cbn [bind]. rewrite Et. cbn [bind].
  rewrite Em. cbn [bind]. rewrite Etm. reflexivity.
Qed.

(** A failure of the step or of the tones is the failure of the builder. *)
Lemma make_mem_spec_raise (memid : string) (mem : Memory) (e : exn) :
  In (duplex mem) [""; "+"; "-"; "split"] ->
  encode_step mem = Raise e \/
  ((exists st, encode_step mem = Ok st) /\ encode_tones mem = Raise e) ->
  _make_mem_spec memid mem = Raise e.
Proof.
  intros Hdu H.
  destruct (duplex_block _ (offset mem) Hdu) as (dc & Ed & _).
  unfold _make_mem_spec. rewrite Ed. cbn [bind].
  destruct H as [Es | ((st & Es) & Et)]; rewrite Es; cbn [bind];
    [reflexivity | now rewrite Et].
Qed.

(** With the tone mode on, [encode_tones] needs all three values in their
    tables. *)
Lemma encode_tones_invalid (mem : Memory) :
  tmode mem <> "" ->
  Py.float_in (rtone mem) _TONES = false \/
  Py.float_in (ctone mem) _TONES = false \/ ~ In (dtcs mem) DTCS_CODES ->
  encode_tones mem = Raise ValueError.
Proof.
  intros Ht H. unfold encode_tones. apply String.eqb_neq in Ht. rewrite Ht.
  destruct (Py.float_in (rtone mem) _TONES) eqn:Hr.
  - destruct (index_found Qeq_bool _TONES (rtone mem) Hr) as (ri & _ & -> & _).
    cbn [bind].
    destruct (Py.float_in (ctone mem) _TONES) eqn:Hc.
    + destruct (index_found Qeq_bool _TONES (ctone mem) Hc)
        as (ci & _ & -> & _).
      cbn [bind].
      assert (Hd : existsb (fun y => Z.eqb y (dtcs mem)) DTCS_CODES = false).
      { destruct (existsb (fun y => Z.eqb y (dtcs mem)) DTCS_CODES) eqn:Ex;
          [|reflexivity].
        apply existsb_exists in Ex. destruct Ex as (y & Hin & Hy).
        apply Z.eqb_eq in Hy. subst y.
        destruct H as [H | [H | H]]; [discriminate | discriminate | tauto]. }
      unfold Py.index. now rewrite (index_from_missing Z.eqb _ _ 0 Hd).
    + unfold Py.index. now rewrite (index_from_missing Qeq_bool _ _ 0 Hc).
  - unfold Py.index. now rewrite (index_from_missing Qeq_bool _ _ 0 Hr).
Qed.

(** C4.  When [tmode] is the empty string, the result of [_make_mem_spec]
    does not depend on the tone values stored in the record, and for a
    record whose duplex, step, mode and tone mode the builder accepts it is
    a tuple whose rtone, ctone and dtcs fields are "00", "00" and "000".
    When [tmode] is not empty, such a record with its tones and its code in
    their tables gives a tuple whose rtone and ctone fields are the
    positions of the record's tones in [_TONES] plus one and whose dtcs
    field is the position of the record's code in [DTCS_CODES], on two, two
    and three digits; with a tone or the code outside its table the builder
    raises [ValueError].  The stored values are read only in that case. *)
Theorem make_mem_spec_tone_fields (memid : string) (mem : Memory) :
  (tmode mem = "" ->
   forall r c d,
     _make_mem_spec memid (set_rtone r (set_ctone c (set_dtcs d mem))) =
     _make_mem_spec memid mem) /\
  (In (duplex mem) [""; "+"; "-"; "split"] ->
   Py.float_in (tuning_step mem) (steps_for (mode mem)) = true ->
   In (mode mem) ["LSB"; "USB"; "CW"; "FM"; "AM"; "FSK"; "CW-R"; "FSK-R"] ->
   In (tmode mem) _TMODES ->
   (tmode mem = "" ->
    exists spec,
      _make_mem_spec memid mem = Ok spec /\
      nth_error spec 4 = Some "00" /\ nth_error spec 5 = Some "00" /\
      nth_error spec 6 = Some "000") /\
   (tmode mem <> "" ->
    Py.float_in (rtone mem) _TONES = true ->
    Py.float_in (ctone mem) _TONES = true ->
    In (dtcs mem) DTCS_CODES ->
    exists spec r c d,
      _make_mem_spec memid mem = Ok spec /\
      Py.index Qeq_bool _TONES (rtone mem) = Ok r /\
      Py.index Qeq_bool _TONES (ctone mem) = Ok c /\
      Py.index Z.eqb DTCS_CODES (dtcs mem) = Ok d /\
      0 <= r /\ 0 <= c /\ 0 <= d /\
      nth_error spec 4 = Some (Py.fmt_i 2 (r + 1)) /\
      nth_error spec 5 = Some (Py.fmt_i 2 (c + 1)) /\
      nth_error spec 6 = Some (Py.fmt_i 3 d)) /\
   (tmode mem <> "" ->
    Py.float_in (rtone mem) _TONES = false \/
    Py.float_in (ctone mem) _TONES = false \/ ~ In (dtcs mem) DTCS_CODES ->
    _make_mem_spec memid mem = Raise ValueError)).
Proof.
  split.
  { intros Ht r c d. unfold _make_mem_spec, encode_tones, encode_step.
    cbn [tmode duplex offset mode tuning_step freq skip name
         set_rtone set_ctone set_dtcs].
    rewrite Ht. reflexivity. }
  intros Hdu Hst Hmd Htm.
  destruct (duplex_block _ (offset mem) Hdu) as (dc & Ed & _).
  destruct (index_found Qeq_bool _ _ Hst) as (st & _ & Es & _).
  fold (encode_step mem) in Es.
  destruct (mode_code _ Hmd) as (mc & Em & _).
  destruct (tmode_code_any _ Htm) as (tc & Etm & _).
  split; [|split].
  - intros Ht.
    assert (Et : encode_tones mem = Ok (0, 0, 0))
      by (unfold encode_tones; now rewrite Ht).
    eexists. split; [exact (make_mem_spec_eval memid mem _ _ _ _ _ _ _ _
                               Ed Es Et Em Etm)|].
    split; [reflexivity|]. split; reflexivity.
  - intros Ht Hr Hc Hd.
    destruct (index_found Qeq_bool _TONES (rtone mem) Hr)
      as (ri & ry & Eri & Rri & _).
    destruct (index_found Qeq_bool _TONES (ctone mem) Hc)
      as (ci & cy & Eci & Rci & _).
    assert (Hd' : existsb (fun y => Z.eqb y (dtcs mem)) DTCS_CODES = true).
    { apply existsb_exists. exists (dtcs mem). split; [exact Hd|].
      apply Z.eqb_refl. }
    destruct (index_found Z.eqb DTCS_CODES (dtcs mem) Hd')
      as (di & dy & Edi & Rdi & _).
    assert (Et : encode_tones mem = Ok (ri + 1, ci + 1, di)).
    { unfold encode_tones. apply String.eqb_neq in Ht. rewrite Ht, Eri.
      cbn [bind]. rewrite Eci. cbn [bind]. rewrite Edi. reflexivity. }
    eexists. exists ri, ci, di.
    split; [exact (make_mem_spec_eval memid mem _ _ _ _ _ _ _ _
                     Ed Es Et Em Etm)|].
    repeat split; try assumption; lia.
  - intros Ht Hbad. apply make_mem_spec_raise; [exact Hdu|].
    right. split; [now exists st | now apply encode_tones_invalid].
Qed.

(** C3.  The two step tables are the FM/AM table 5, 6.25, 10, 12.5, 15, 20,
    25, 30, 50, 100 and the SSB/CW table 1, 2.5, 5, 10.

    Encoding.  For a record with a supported duplex, [_make_mem_spec] looks
    the step up in the FM/AM table when the record's mode is AM or FM and in
    the SSB/CW table otherwise: a step outside that table raises
    [ValueError], and a step inside it, on a record whose mode, tone mode
    and tones are valid, gives a tuple whose step field is the two-digit
    position of the step in that table.

    Decoding.  For a response of at least 29 characters whose number,
    frequency, mode and step fields read as integers, with mode character
    other than '0' and a mode code of [_MODES], [_parse_mem] looks the step
    index up in the FM/AM table when the mode decoded from that response is
    AM or FM and in the SSB/CW table otherwise: when that lookup raises,
    [_parse_mem] raises the same exception; every record it returns carries
    the decoded mode and the entry of that table at the index; and it does
    return a record when the lookup succeeds and the remaining fields
    decode. *)
Theorem tuning_step_table_by_mode :
  _FM_STEPS = [5; 25 # 4; 10; 25 # 2; 15; 20; 25; 30; 50; 100]%Q /\
  _SSB_STEPS = [1; 5 # 2; 5; 10]%Q /\
  (forall memid mem,
     In (duplex mem) [""; "+"; "-"; "split"] ->
     (Py.float_in (tuning_step mem)
        (if String.eqb (mode mem) "AM" || String.eqb (mode mem) "FM"
         then _FM_STEPS else _SSB_STEPS) = false ->
      _make_mem_spec memid mem = Raise ValueError) /\
     (Py.float_in (tuning_step mem)
        (if String.eqb (mode mem) "AM" || String.eqb (mode mem) "FM"
         then _FM_STEPS else _SSB_STEPS) = true ->
      In (mode mem) ["LSB"; "USB"; "CW"; "FM"; "AM"; "FSK"; "CW-R"; "FSK-R"] ->
      In (tmode mem) _TMODES ->
      (tmode mem <> "" ->
       Py.float_in (rtone mem) _TONES = true /\
       Py.float_in (ctone mem) _TONES = true /\ In (dtcs mem) DTCS_CODES) ->
      exists spec i st,
        _make_mem_spec memid mem = Ok spec /\
        Py.index Qeq_bool
          (if String.eqb (mode mem) "AM" || String.eqb (mode mem) "FM"
           then _FM_STEPS else _SSB_STEPS) (tuning_step mem) = Ok i /\
        nth_error spec 10 = Some (Py.fmt_i 2 i) /\
        Py.getitem
          (if String.eqb (mode mem) "AM" || String.eqb (mode mem) "FM"
           then _FM_STEPS else _SSB_STEPS) i = Ok st /\
        Qeq st (tuning_step mem))) /\
  (forall s p5 md mnum f c i,
     (29 <= String.length s)%nat ->
     Py.int_of_str (Py.slice (" " ++ s) 4 7) = Ok mnum ->
     (_UPPER < mnum ->
      forall s3, Py.getitem_str (" " ++ s) 3 = Ok s3 ->
      exists memid, _index_to_memid (extended_mnum mnum s3) = Ok memid) ->
     Py.getitem_str (" " ++ s) 18 = Ok p5 ->
     p5 <> "0" ->
     Py.int_of_str (Py.slice (" " ++ s) 7 18) = Ok f ->
     Py.int_of_str p5 = Ok c ->
     Py.dict_getitem _MODES c = Ok md ->
     Py.int_of_str (Py.slice (" " ++ s) 39 41) = Ok i ->
     (forall e,
        Py.getitem
          (if String.eqb md "AM" || String.eqb md "FM"
           then _FM_STEPS else _SSB_STEPS) i = Raise e ->
        _parse_mem s = Raise e) /\
     (forall mem,
        _parse_mem s = Ok mem ->
        mode mem = md /\
        Py.getitem
          (if String.eqb md "AM" || String.eqb md "FM"
           then _FM_STEPS else _SSB_STEPS) i = Ok (tuning_step mem)) /\
     (forall st,
        Py.getitem
          (if String.eqb md "AM" || String.eqb md "FM"
           then _FM_STEPS else _SSB_STEPS) i = Ok st ->
        forall p6 p7 p12 k sk t tm a rt b ct d dc x du off,
          Py.getitem_str (" " ++ s) 19 = Ok p6 ->
          Py.int_of_str p6 = Ok k -> Py.getitem [""; "S"] k = Ok sk ->
          Py.getitem_str (" " ++ s) 20 = Ok p7 ->
          Py.int_of_str p7 = Ok t -> Py.getitem _TMODES t = Ok tm ->
          Py.int_of_str (Py.slice (" " ++ s) 21 23) = Ok a ->
          Py.getitem _TONES (a - 1) = Ok rt ->
          Py.int_of_str (Py.slice (" " ++ s) 23 25) = Ok b ->
          Py.getitem _TONES (b - 1) = Ok ct ->
          Py.int_of_str (Py.slice (" " ++ s) 25 28) = Ok d ->
          Py.getitem DTCS_CODES d = Ok dc ->
          Py.getitem_str (" " ++ s) 29 = Ok p12 ->
          Py.int_of_str p12 = Ok x -> Py.dict_getitem _DUPLEX x = Ok du ->
          Py.int_of_str (Py.slice (" " ++ s) 30 39) = Ok off ->
          exists mem,
            _parse_mem s = Ok mem /\ mode mem = md /\ tuning_step mem = st)).
Proof.
  split; [reflexivity|]. split; [reflexivity|]. split.
  - intros memid mem Hdu. rewrite <- steps_for_spec. split.
    + intros Hst. apply make_mem_spec_raise; [exact Hdu|]. left.
      unfold encode_step, Py.index. now apply index_from_missing.
    + intros Hst Hmd Htm Hv.
      destruct (duplex_block _ (offset mem) Hdu) as (dc & Ed & _).
      destruct (index_found Qeq_bool _ _ Hst) as (si & sy & Es & _ & Gs & Qs).
      destruct (mode_code _ Hmd) as (mc & Em & _).
      destruct (tmode_code_any _ Htm) as (tc & Etm & _).
      assert (Et : exists t, encode_tones mem = Ok t).
      { unfold encode_tones.
        destruct (String.eqb_spec (tmode mem) "") as [E | E]; [eauto|].
        destruct (Hv E) as (Hr & Hc & Hd).
        destruct (index_found Qeq_bool _TONES (rtone mem) Hr)
          as (ri & _ & -> & _).
        destruct (index_found Qeq_bool _TONES (ctone mem) Hc)
          as (ci & _ & -> & _).
        assert (Hd' : existsb (fun y => Z.eqb y (dtcs mem)) DTCS_CODES = true).
        { apply existsb_exists. exists (dtcs mem). split; [exact Hd|].
          apply Z.eqb_refl. }
        destruct (index_found Z.eqb DTCS_CODES (dtcs mem) Hd')
          as (di & _ & -> & _).
        cbn [bind]. eauto. }
      destruct Et as (((rt & ct) & dt) & Et).
      eexists. exists si, sy.
      split; [exact (make_mem_spec_eval memid mem _ _ _ _ _ _ _ _
                       Ed Es Et Em Etm)|].
      split; [exact Es|]. split; [reflexivity|].
      split; [exact Gs | now apply Qeq_bool_iff].
  - intros s p5 md mnum f c i Hl Hn Hid H5 Hne Hf Hc Hmd Hi.
    rewrite <- steps_for_spec.
    destruct (parse_mem_slices s Hl)
      as (c2 & c5 & c6 & c7 & c12 & G2 & G5 & G6 & G7 & G12 & E).
    destruct (getitem_str_some (" " ++ s) 3) as (c3 & _ & E3);
      [change (String.length (" " ++ s)) with (S (String.length s)); lia|].
    unfold Py.getitem_str in H5. rewrite G5 in H5. injection H5 as <-.
    assert (Hne' := Hne). apply String.eqb_neq in Hne'.
    split; [|split].
    + intros e Hst. rewrite E. clear E. unfold parse_fields. cbv zeta.
      rewrite (mnum_field _ _ G2), Hn. cbn [bind].
      destruct (Z.gtb_spec mnum _UPPER) as [Hgt | Hle];
        [rewrite E3; cbn [bind]; destruct (Hid Hgt _ E3) as (memid & Hm);
         rewrite Hm; cbn [bind] | cbn [bind]];
        rewrite Hne', Hf; cbn [bind]; rewrite Hc; cbn [bind];
        rewrite Hmd; cbn [bind]; rewrite Hi; cbn [bind];
        cbn [mode set_mode set_freq set_number set_extd_number];
        rewrite Hst; reflexivity.
    + intros mem H. rewrite E in H.
      destruct (parse_fields_mode_step _ _ _ _ _ _ _ _ _ _ _ _ _ _ _ H Hne)
        as (c' & i' & Hc' & Hm' & Hi' & Hst').
      rewrite Hc in Hc'. injection Hc' as <-.
      rewrite Hmd in Hm'. injection Hm' as Hm'.
      rewrite Hi in Hi'. injection Hi' as <-.
      split; [now symmetry|]. now rewrite Hm'.
    + intros st Hst p6 p7 p12 k sk t tm a rt b ct d dc x du off
        H6 H6i H6g H7 H7i H7g H8 H8g H9 H9g H10 H10g H12 H12i H12g H13.
      unfold Py.getitem_str in H6, H7, H12.
      rewrite G6 in H6. rewrite G7 in H7. rewrite G12 in H12.
      injection H6 as <-. injection H7 as <-. injection H12 as <-.
      rewrite E. clear E. unfold parse_fields. cbv zeta.
      rewrite (mnum_field _ _ G2), Hn. cbn [bind].
      destruct (Z.gtb_spec mnum _UPPER) as [Hgt | Hle];
        [rewrite E3; cbn [bind]; destruct (Hid Hgt _ E3) as (memid & Hm);
         rewrite Hm; cbn [bind] | cbn [bind]];
        rewrite Hne', Hf; cbn [bind]; rewrite Hc; cbn [bind];
        rewrite Hmd; cbn [bind]; rewrite Hi; cbn [bind];
        cbn [mode set_mode set_freq set_number set_extd_number];
        rewrite Hst; cbn [bind];
        unfold is_flagged_extended;
        cbn [number set_number set_extd_number set_freq set_mode
             set_tuning_step];
        match goal with
        | |- context [if ?n >? _UPPER then _ else _] =>
            destruct (n >? _UPPER)
        end;
        try (rewrite E3; cbn [bind];
             destruct (String.eqb (String c3 "") "1"));
        cbn [bind];
        try (eexists; split; [reflexivity|];
             cbn [mode tuning_step set_immutable set_tuning_step set_mode];
             split; reflexivity);
        rewrite H6i; cbn [bind]; rewrite H6g; cbn [bind];
        rewrite H7i; cbn [bind]; rewrite H7g; cbn [bind];
        rewrite H8; cbn [bind]; rewrite H8g; cbn [bind];
        rewrite H9; cbn [bind]; rewrite H9g; cbn [bind];
        rewrite H10; cbn [bind]; rewrite H10g; cbn [bind];
        rewrite H12i; cbn [bind]; rewrite H12g; cbn [bind];
        rewrite H13; cbn [bind];
        (eexists; split; [reflexivity|]);
        cbn [mode tuning_step set_name set_offset set_duplex set_dtcs
             set_ctone set_rtone set_tmode set_skip set_tuning_step
             set_mode];
        split; reflexivity.
Qed.

End SpecFields.

Lemma make_mem_spec_tone_fields_witness :
  (forall r c d,
     _make_mem_spec "005"
       (set_rtone r (set_ctone c (set_dtcs d test_tone_off_mem))) =
     Ok ["00014205000"; "2"; "0"; "0"; "00"; "00"; "000"; "0"; "0";
         "000000000"; "00"; "0"; "TEST"]) /\
  (exists spec,
     _make_mem_spec "005" test_mem = Ok spec /\
     nth_error spec 4 = Some "08" /\ nth_error spec 5 = Some "08" /\
     nth_error spec 6 = Some "000") /\
  _make_mem_spec "005" (set_rtone (693 # 10) test_mem) = Raise ValueError /\
  _make_mem_spec "005" (set_dtcs 24 test_mem) = Raise ValueError.
Proof.
  destruct (@make_mem_spec_tone_fields sample_imports "005" test_tone_off_mem)
    as (Hany & Hoff).
  destruct (Hoff ltac:(vm_compute; tauto) eq_refl ltac:(vm_compute; tauto)
              ltac:(vm_compute; tauto)) as (Hzero & _ & _).
  destruct (@make_mem_spec_tone_fields sample_imports "005" test_mem)
    as (_ & Hon).
  destruct (Hon ltac:(vm_compute; tauto) eq_refl ltac:(vm_compute; tauto)
              ltac:(vm_compute; tauto)) as (_ & Hidx & _).
  destruct (@make_mem_spec_tone_fields sample_imports "005"
              (set_rtone (693 # 10) test_mem)) as (_ & Hr).
  destruct (Hr ltac:(vm_compute; tauto) eq_refl ltac:(vm_compute; tauto)
              ltac:(vm_compute; tauto)) as (_ & _ & Hbadr).
  destruct (@make_mem_spec_tone_fields sample_imports "005"
              (set_dtcs 24 test_mem)) as (_ & Hd).
  destruct (Hd ltac:(vm_compute; tauto) eq_refl ltac:(vm_compute; tauto)
              ltac:(vm_compute; tauto)) as (_ & _ & Hbadd).
  split; [|split; [|split]].
  - intros r c d. rewrite (Hany eq_refl r c d).
    destruct (Hzero eq_refl) as (spec & Es & _).
    assert (E : _make_mem_spec "005" test_tone_off_mem =
                Ok ["00014205000"; "2"; "0"; "0"; "00"; "00"; "000"; "0";
                    "0"; "000000000"; "00"; "0"; "TEST"]) by reflexivity.
    exact E.
  - destruct (Hidx ltac:(discriminate) eq_refl eq_refl
                (ltac:(vm_compute; tauto)
                 : In (dtcs test_mem) sample_DTCS_CODES))
      as (spec & r & c & d & Es & Er & Ec & Ed & _ & _ & _ & H4 & H5 & H6).
    assert (Er' : Py.index Qeq_bool _TONES (rtone test_mem) = Ok 7)
      by reflexivity.
    assert (Ec' : Py.index Qeq_bool _TONES (ctone test_mem) = Ok 7)
      by reflexivity.
    assert (Ed' : Py.index Z.eqb DTCS_CODES (dtcs test_mem) = Ok 0)
      by reflexivity.
    rewrite Er' in Er. rewrite Ec' in Ec. rewrite Ed' in Ed.
    injection Er as <-. injection Ec as <-. injection Ed as <-.
    exists spec. split; [exact Es|]. split; [exact H4|].
    split; [exact H5 | exact H6].
  - apply Hbadr; [discriminate | left; reflexivity].
  - apply Hbadd; [discriminate | right; right].
    intros Hin.
    assert (X : existsb (fun y => Z.eqb y 24) sample_DTCS_CODES = true)
      by (apply existsb_exists; exists 24; split; [exact Hin | reflexivity]).
    vm_compute in X. discriminate X.
Defined.

Lemma tuning_step_table_by_mode_witness :
  (exists spec,
     _make_mem_spec "005" test_mem = Ok spec /\
     nth_error spec 1 = Some "2" /\ nth_error spec 10 = Some "00") /\
  (exists spec,
     _make_mem_spec "005"
       (set_tuning_step (25 # 2) (set_mode "FM" test_mem)) = Ok spec /\
     nth_error spec 1 = Some "4" /\ nth_error spec 10 = Some "03") /\
  _make_mem_spec "005" (set_tuning_step (25 # 2) test_mem) =
    Raise ValueError /\
  (exists mem,
     _parse_mem "MR000500014205000201080800000000000000030TEST" = Ok mem /\
     mode mem = "USB" /\ tuning_step mem = 10%Q) /\
  (exists mem,
     _parse_mem "MR000500014205000401080800000000000000030TEST" = Ok mem /\
     mode mem = "FM" /\ tuning_step mem = (25 # 2)%Q) /\
  (exists mem,
     _parse_mem "MR000500014205000401080800000000000000070TEST" = Ok mem /\
     mode mem = "FM" /\ tuning_step mem = 30%Q) /\
  _parse_mem "MR000500014205000201080800000000000000070TEST" =
    Raise IndexError.
Proof.
  destruct (@tuning_step_table_by_mode sample_imports)
    as (_ & _ & Henc & Hdec).
  split; [|split; [|split; [|split; [|split; [|split]]]]].
  - destruct (Henc "005" test_mem ltac:(vm_compute; tauto)) as (_ & H).
    destruct (H eq_refl ltac:(vm_compute; tauto) ltac:(vm_compute; tauto)
                (fun _ => conj eq_refl (conj eq_refl
                   (ltac:(vm_compute; tauto)
                    : In (dtcs test_mem) sample_DTCS_CODES))))
      as (spec & i & st & Es & Ei & H10 & _).
    assert (Ei' : Py.index Qeq_bool _SSB_STEPS (tuning_step test_mem) = Ok 0)
      by reflexivity.
    change (Py.index Qeq_bool _SSB_STEPS (tuning_step test_mem) = Ok i) in Ei.
    rewrite Ei' in Ei. injection Ei as <-.
    exists spec. split; [exact Es|]. split; [|exact H10].
    assert (E : _make_mem_spec "005" test_mem =
                Ok ["00014205000"; "2"; "0"; "1"; "08"; "08"; "000"; "0";
                    "0"; "000000000"; "00"; "0"; "TEST"]) by reflexivity.
    rewrite E in Es. injection Es as <-. reflexivity.
  - destruct (Henc "005" (set_tuning_step (25 # 2) (set_mode "FM" test_mem))
                ltac:(vm_compute; tauto)) as (_ & H).
    destruct (H eq_refl ltac:(vm_compute; tauto) ltac:(vm_compute; tauto)
                (fun _ => conj eq_refl (conj eq_refl
                   (ltac:(vm_compute; tauto)
                    : In (dtcs test_mem) sample_DTCS_CODES))))
      as (spec & i & st & Es & Ei & H10 & _).
    assert (Ei' : Py.index Qeq_bool _FM_STEPS (25 # 2)%Q = Ok 3)
      by reflexivity.
    change (Py.index Qeq_bool _FM_STEPS (25 # 2)%Q = Ok i) in Ei.
    rewrite Ei' in Ei. injection Ei as <-.
    exists spec. split; [exact Es|]. split; [|exact H10].
    assert (E : _make_mem_spec "005"
                  (set_tuning_step (25 # 2) (set_mode "FM" test_mem)) =
                Ok ["00014205000"; "4"; "0"; "1"; "08"; "08"; "000"; "0";
                    "0"; "000000000"; "03"; "0"; "TEST"]) by reflexivity.
    rewrite E in Es. injection Es as <-. reflexivity.
  - destruct (Henc "005" (set_tuning_step (25 # 2) test_mem)
                ltac:(vm_compute; tauto)) as (H & _).
    exact (H eq_refl).
  - destruct (Hdec "MR000500014205000201080800000000000000030TEST" "2" "USB"
                5 14205000 2 3 ltac:(cbn; lia) eq_refl
                ltac:(unfold _UPPER; lia) eq_refl ltac:(discriminate)
                eq_refl eq_refl eq_refl eq_refl) as (_ & _ & H).
    exact (H 10%Q eq_refl "0" "1" "0" 0 "" 1 "Tone" 8 (885 # 10)%Q
             8 (885 # 10)%Q 0 23 0 "" 0
             eq_refl eq_refl eq_refl eq_refl eq_refl eq_refl eq_refl eq_refl
             eq_refl eq_refl eq_refl eq_refl eq_refl eq_refl eq_refl eq_refl).
  - destruct (Hdec "MR000500014205000401080800000000000000030TEST" "4" "FM"
                5 14205000 4 3 ltac:(cbn; lia) eq_refl
                ltac:(unfold _UPPER; lia) eq_refl ltac:(discriminate)
                eq_refl eq_refl eq_refl eq_refl) as (_ & _ & H).
    exact (H (25 # 2)%Q eq_refl "0" "1" "0" 0 "" 1 "Tone" 8 (885 # 10)%Q
             8 (885 # 10)%Q 0 23 0 "" 0
             eq_refl eq_refl eq_refl eq_refl eq_refl eq_refl eq_refl eq_refl
             eq_refl eq_refl eq_refl eq_refl eq_refl eq_refl eq_refl eq_refl).
  - destruct (Hdec "MR000500014205000401080800000000000000070TEST" "4" "FM"
                5 14205000 4 7 ltac:(cbn; lia) eq_refl
                ltac:(unfold _UPPER; lia) eq_refl ltac:(discriminate)
                eq_refl eq_refl eq_refl eq_refl) as (_ & _ & H).
    exact (H 30%Q eq_refl "0" "1" "0" 0 "" 1 "Tone" 8 (885 # 10)%Q
             8 (885 # 10)%Q 0 23 0 "" 0
             eq_refl eq_refl eq_refl eq_refl eq_refl eq_refl eq_refl eq_refl
             eq_refl eq_refl eq_refl eq_refl eq_refl eq_refl eq_refl eq_refl).
  - destruct (Hdec "MR000500014205000201080800000000000000070TEST" "2" "USB"
                5 14205000 2 7 ltac:(cbn; lia) eq_refl
                ltac:(unfold _UPPER; lia) eq_refl ltac:(discriminate)
                eq_refl eq_refl eq_refl eq_refl) as (H & _).
    exact (H IndexError eq_refl).
Defined.
